(** * dukascopy-1s: gap filling, daily ingestion and yearly consolidation

    A shallow embedding of the five scripts of the repository

    - [daily_ingest.py]           (nightly forward gap fill),
    - [backfill_missing.py]       (head-of-history backfill),
    - [yearly_consolidation.py] and [historical_consolidation_script.py]
                                  (daily files -> one yearly file),
    - [update_instruments_metadata.py] (latest-date index),

    followed by the properties of the specification, each settled on the
    embedding.

    Conventions.  A calendar date is its day number counted from
    1970-01-01 (Python's [date] ordered the same way); a timestamp is a
    number of nanoseconds since the epoch, UTC, as pandas and polars store
    it.  The file system is explicit state.  pandas, polars and the
    dukascopy-node tool are not part of the repository: what the scripts
    rely on is gathered in three interfaces ([Pandas], [Polars],
    [Dukascopy]), whose laws are the guarantees those libraries document. *)

From Stdlib Require Import ZArith Lia String Ascii.
From Equations Require Import Equations.
From stdpp Require Import base decidable option list gmap strings sorting.

Local Open Scope string_scope.
Local Open Scope Z_scope.

(** The loops of the scripts are defined by well-founded recursion; their
    unfolding equations are proved without function extensionality. *)
#[local] Unset Equations With Funext.

(** ** Calendar *)

Module Calendar.

Definition ns_per_second : Z := 1000000000.
Definition ns_per_day : Z := 86400 * ns_per_second.

(** [datetime.date()] of a UTC timestamp. *)
Definition date_of_ns (ns : Z) : Z := ns `div` ns_per_day.

(** Year, month and day of a day number (proleptic Gregorian calendar,
    the calendar of Python's [datetime]). *)
Definition civil_from_days (days : Z) : Z * Z * Z :=
  let z := days + 719468 in
  let era := z `div` 146097 in
  let doe := z - era * 146097 in
  let yoe := (doe - doe `div` 1460 + doe `div` 36524 - doe `div` 146096) `div` 365 in
  let doy := doe - (365 * yoe + yoe `div` 4 - yoe `div` 100) in
  let mp := (5 * doy + 2) `div` 153 in
  let d := doy - (153 * mp + 2) `div` 5 + 1 in
  let m := if mp <? 10 then mp + 3 else mp - 9 in
  let y := yoe + era * 400 in
  (if m <=? 2 then y + 1 else y, m, d).

Definition year_of (days : Z) : Z := (civil_from_days days).1.1.

End Calendar.
Export Calendar.

(** ** Tables *)

(** A cell of a data frame.  [CFloat] carries a 64-bit float by its bit
    pattern: the scripts never compute with prices, they move and compare
    them. *)
Inductive Cell :=
  | CNull
  | CInt (i : Z)
  | CFloat (bits : Z)
  | CStr (s : string)
  | CTime (ns : Z).

#[global] Instance Cell_eq_dec : EqDecision Cell.
Proof. solve_decision. Defined.

Abbreviation Row := (list Cell).

Record Frame := mkFrame { columns : list string; rows : list Row }.

#[global] Instance Frame_eq_dec : EqDecision Frame.
Proof. solve_decision. Defined.

(** A parquet file on disk: a table, or bytes that do not read back as one
    (a truncated or half-written file). *)
Inductive ParquetFile :=
  | Corrupt
  | Table (fr : Frame).

#[global] Instance ParquetFile_eq_dec : EqDecision ParquetFile.
Proof. solve_decision. Defined.

(** A CSV file in the download directory: zero bytes, or a header and rows
    as [pd.read_csv] returns them. *)
Inductive CsvFile :=
  | EmptyFile
  | Csv (fr : Frame).

Definition st_size_is_zero (f : CsvFile) : bool :=
  match f with EmptyFile => true | Csv _ => false end.

(** ** Exceptions *)

Inductive Exn :=
  | CalledProcessError
  | EmptyDataError
  | KeyError (key : string)
  | ValueError
  | TypeError
  | ColumnNotFoundError (col : string)
  | SchemaError
  | ComputeError
  | InvalidOperationError.

#[global] Instance Exn_eq_dec : EqDecision Exn.
Proof. solve_decision. Defined.

Inductive Result (A : Type) :=
  | Ok (a : A)
  | Raise (e : Exn).
Arguments Ok {A} a.
Arguments Raise {A} e.

Definition rbind {A B} (m : Result A) (k : A → Result B) : Result B :=
  match m with
  | Ok a => k a
  | Raise e => Raise e
  end.

Notation "'try!' x ← m ; k" := (rbind m (λ x, k))
  (at level 20, x name, m at level 100, k at level 200, only parsing).

Definition of_option {A} (e : Exn) (o : option A) : Result A :=
  match o with
  | Some a => Ok a
  | None => Raise e
  end.

Fixpoint rmap {A B} (f : A → Result B) (l : list A) : Result (list B) :=
  match l with
  | [] => Ok []
  | x :: l' => try! y ← f x; try! ys ← rmap f l'; Ok (y :: ys)
  end.

(** ** Column helpers *)

Fixpoint index_of (name : string) (cols : list string) : option nat :=
  match cols with
  | [] => None
  | c :: cols' => if decide (c = name) then Some 0%nat else S <$> index_of name cols'
  end.

Definition cell_at (i : nat) (r : Row) : Cell := default CNull (r !! i).

Definition column_cells (i : nat) (fr : Frame) : list Cell := cell_at i <$> rows fr.

(** Apply a fallible conversion to the cell at index [i] of a row. *)
Definition convert_at (conv : Cell → option Cell) (e : Exn) (i : nat) (r : Row) : Result Row :=
  try! c ← of_option e (conv (cell_at i r)); Ok (<[i := c]> r).

Definition convert_column (conv : Cell → option Cell) (e : Exn) (i : nat) (fr : Frame) : Result Frame :=
  try! rs ← rmap (convert_at conv e i) (rows fr); Ok (mkFrame (columns fr) rs).

(** ** The libraries the scripts call *)

(** polars.  [cast_float64] is [pl.col(c).cast(pl.Float64)] on one cell
    ([None]: the strict cast raises).  [sort_rows i] is [.sort(col)] for
    the column at index [i] and [unique_rows] is [.unique()], both called
    with their defaults: [sort] promises a permutation in key order,
    [unique] ([keep='any'], [maintain_order=False]) promises the distinct
    rows and says nothing about the order they come in. *)
Class Polars := {
  cast_float64 : Cell → option Cell;
  cast_float64_float : ∀ b, cast_float64 (CFloat b) = Some (CFloat b);
  cell_le : Cell → Cell → bool;
  cell_le_time : ∀ a b, cell_le (CTime a) (CTime b) = (a <=? b);
  sort_rows : nat → list Row → list Row;
  sort_rows_perm : ∀ i l, sort_rows i l ≡ₚ l;
  sort_rows_sorted : ∀ i l,
    Sorted (λ r1 r2, cell_le (cell_at i r1) (cell_at i r2) = true) (sort_rows i l);
  unique_rows : list Row → list Row;
  unique_rows_NoDup : ∀ l, NoDup (unique_rows l);
  unique_rows_elem : ∀ l r, r ∈ unique_rows l ↔ r ∈ l
}.

(** pandas.  [astype_float64] is [.astype(np.float64)] on one cell,
    [to_datetime] is [pd.to_datetime(_, format='%Y-%m-%d %H:%M', utc=True)]
    and [to_unix_time] is [.astype(np.int64) // 10**9]; [None] stands for
    the exception pandas raises. *)
Class Pandas := {
  astype_float64 : Cell → option Cell;
  to_datetime : Cell → option Cell;
  to_unix_time : Cell → option Cell;
  to_unix_time_time : ∀ ns, to_unix_time (CTime ns) = Some (CInt (ns `div` ns_per_second))
}.

(** The CSV files in [download/] are named after the provider id, the
    timeframe and the date; for one instrument the timeframe and the day
    identify the file. *)
Abbreviation Downloads := (gmap (string * Z) CsvFile).

(** [npx dukascopy-node ... -from d -to d+1 -t s1 -f csv]: what the tool
    leaves in [download/], or [None] when it exits with a non-zero status. *)
Class Dukascopy := {
  dukascopy_node : Z → Downloads → option Downloads
}.

(** *** Reference implementations

    Two implementations of [Polars] and one of [Pandas], used to run the
    scripts on concrete inputs.  [polars_ordered] deduplicates in place
    (what [unique(maintain_order=True)] would do); [polars_unordered]
    returns the distinct rows in the opposite order, which the contract of
    [unique()] equally allows. *)

(** The binary64 bit pattern of an integer, rounded to nearest, ties to even. *)
Definition f64_of_Z (i : Z) : Z :=
  if i =? 0 then 0
  else
    let sign := if i <? 0 then 1 else 0 in
    let n := Z.abs i in
    let e := Z.log2 n in
    let '(m, e') :=
      if e <=? 52 then (n * 2 ^ (52 - e), e)
      else
        let sh := e - 52 in
        let q := Z.shiftr n sh in
        let r := n `mod` 2 ^ sh in
        let half := 2 ^ (sh - 1) in
        let q' := if (half <? r) || ((half =? r) && Z.odd q) then q + 1 else q in
        if q' =? 2 ^ 53 then (2 ^ 52, e + 1) else (q', e) in
    sign * 2 ^ 63 + (e' + 1023) * 2 ^ 52 + (m - 2 ^ 52).

Definition cast_float64_ref (c : Cell) : option Cell :=
  match c with
  | CNull => Some CNull
  | CInt i => Some (CFloat (f64_of_Z i))
  | CFloat b => Some (CFloat b)
  | CStr _ => None
  | CTime ns => Some (CFloat (f64_of_Z ns))
  end.

(** Nulls first, then numbers and instants by value, then text. *)
Definition cell_rank (c : Cell) : Z * Z :=
  match c with
  | CNull => (0, 0)
  | CInt i => (1, i)
  | CFloat b => (1, b)
  | CTime ns => (1, ns)
  | CStr _ => (2, 0)
  end.

Definition cell_le_ref (c1 c2 : Cell) : bool :=
  let '(r1, v1) := cell_rank c1 in
  let '(r2, v2) := cell_rank c2 in
  (r1 <? r2) || ((r1 =? r2) && (v1 <=? v2)).

Definition row_le_ref (i : nat) (r1 r2 : Row) : Prop :=
  cell_le_ref (cell_at i r1) (cell_at i r2) = true.

#[global] Instance row_le_ref_dec i : RelDecision (row_le_ref i).
Proof. intros r1 r2. unfold row_le_ref. apply _. Defined.

#[global] Instance row_le_ref_total i : Total (row_le_ref i).
Proof.
  intros r1 r2. unfold row_le_ref, cell_le_ref.
  destruct (cell_rank (cell_at i r1)) as [a u], (cell_rank (cell_at i r2)) as [b v].
  destruct (Z.lt_total a b) as [Hab | [Hab | Hab]].
  - left. apply orb_true_iff. left. by apply Z.ltb_lt.
  - subst b. destruct (Z.le_ge_cases u v).
    + left. apply orb_true_iff. right. apply andb_true_iff. split.
      * apply Z.eqb_refl.
      * by apply Z.leb_le.
    + right. apply orb_true_iff. right. apply andb_true_iff. split.
      * apply Z.eqb_refl.
      * by apply Z.leb_le.
  - right. apply orb_true_iff. left. by apply Z.ltb_lt.
Qed.

Lemma cell_le_ref_time a b : cell_le_ref (CTime a) (CTime b) = (a <=? b).
Proof. reflexivity. Qed.

#[global, refine] Instance polars_ordered : Polars := {|
  cast_float64 := cast_float64_ref;
  cell_le := cell_le_ref;
  sort_rows i := merge_sort (row_le_ref i);
  unique_rows := remove_dups
|}.
Proof.
  - reflexivity.
  - apply cell_le_ref_time.
  - intros i l. apply merge_sort_Permutation.
  - intros i l. apply (Sorted_merge_sort (row_le_ref i)).
  - apply NoDup_remove_dups.
  - intros l r. apply elem_of_remove_dups.
Defined.

Definition polars_unordered : Polars.
Proof.
  refine {|
    cast_float64 := cast_float64_ref;
    cell_le := cell_le_ref;
    sort_rows i := merge_sort (row_le_ref i);
    unique_rows l := reverse (remove_dups l)
  |}.
  - reflexivity.
  - apply cell_le_ref_time.
  - intros i l. apply merge_sort_Permutation.
  - intros i l. apply (Sorted_merge_sort (row_le_ref i)).
  - intros l. rewrite reverse_Permutation. apply NoDup_remove_dups.
  - intros l r. rewrite elem_of_reverse. apply elem_of_remove_dups.
Defined.

(** In the reference [Pandas] a text cell of a numeric column is text that
    is not a number, and a well-formed [YYYY-MM-DD HH:MM] timestamp is
    given by its number of minutes since the epoch ([CInt]); any other
    cell in the timestamp column does not parse. *)
Definition astype_float64_ref (c : Cell) : option Cell :=
  match c with
  | CNull => Some CNull
  | CInt i => Some (CFloat (f64_of_Z i))
  | CFloat b => Some (CFloat b)
  | CStr _ => None
  | CTime _ => None
  end.

Definition to_datetime_ref (c : Cell) : option Cell :=
  match c with
  | CInt minutes => Some (CTime (minutes * 60 * ns_per_second))
  | CTime ns => Some (CTime ns)
  | _ => None
  end.

Definition to_unix_time_ref (c : Cell) : option Cell :=
  match c with
  | CTime ns => Some (CInt (ns `div` ns_per_second))
  | _ => None
  end.

#[global] Instance pandas_ref : Pandas := {|
  astype_float64 := astype_float64_ref;
  to_datetime := to_datetime_ref;
  to_unix_time := to_unix_time_ref;
  to_unix_time_time := λ ns, eq_refl
|}.

(** ** Yearly consolidation
    ([yearly_consolidation.py]; [historical_consolidation_script.py] is the
    same code with the year passed as [target_year] instead of read from
    the module constant [CURRENT_YEAR]) *)

(** The two directories of one symbol: [ohlcv/1s/symbol=S/] maps a day to
    its [date=D/] directory, which holds the file [S_D.parquet] or not, and
    [ohlcv/1Ys/symbol=S/] maps a year to [S_Y.parquet]. *)
Record Store := mkStore {
  daily : gmap Z (option ParquetFile);
  yearly : gmap Z ParquetFile
}.

(** [final_df.write_parquet(dst_file)] and [df.to_parquet(path)] are given
    the final path: the library creates or truncates that file and streams
    the table into it.  [Streaming] is the file as another process (or a
    later run, had this one been killed) finds it before the writer is
    done. *)
Inductive WriteProgress := Streaming | Closed.

Definition file_at (p : WriteProgress) (fr : Frame) : ParquetFile :=
  match p with
  | Streaming => Corrupt
  | Closed => Table fr
  end.

Definition write_parquet (p : WriteProgress) (final_df : Frame) (target_year : Z)
    (st : Store) : Store :=
  mkStore (daily st) (<[target_year := file_at p final_df]> (yearly st)).

(** What a run of [process_symbol_year] prints. *)
Inductive Outcome :=
  | NoNewFiles (last_consolidated_date : option Z)
  | Saved (record_count : nat)
  | ErrorProcessing (e : Exn).

#[global] Instance Outcome_eq_dec : EqDecision Outcome.
Proof. solve_decision. Defined.

Definition numeric_columns : list string := ["open"; "high"; "low"; "close"; "volume"].

Section Consolidation.
Context `{Polars}.

(** [df[col].max()]: nulls are skipped. *)
Definition column_max (cells : list Cell) : option Cell :=
  foldr (λ c acc,
           match c, acc with
           | CNull, _ => acc
           | _, None => Some c
           | _, Some m => if cell_le m c then Some c else Some m
           end) None cells.

(** [None] when the file does not exist or is empty, and for whatever the
    [try] block raises: a file that does not read, no timestamp column, a
    maximum that is null or has no [.date()]. *)
Definition get_last_consolidated_date (yearly_file : option ParquetFile) : option Z :=
  match yearly_file with
  | None => None
  | Some Corrupt => None
  | Some (Table fr) =>
      match index_of "timestamp" (columns fr) with
      | None => None
      | Some i =>
          if decide (rows fr = []) then None
          else match column_max (column_cells i fr) with
               | Some (CTime latest_ts) => Some (date_of_ns latest_ts)
               | _ => None
               end
      end
  end.

(** The days whose file is selected, in the order of [sorted(daily_files)].
    The keys of [daily st] are the directories [date=D] whose name reads
    as a date (the others are skipped by [except ValueError]); the glob
    [date=YEAR-*] keeps those of the year. *)
Definition get_daily_files_to_process (target_year : Z) (start_date : option Z)
    (st : Store) : list Z :=
  merge_sort Z.le
    (omap (λ '(file_date, date_dir),
             if decide (year_of file_date = target_year) then
               if match start_date with
                  | None => true
                  | Some s => bool_decide (s < file_date)
                  end
               then match date_dir with
                    | Some _ => Some file_date
                    | None => None
                    end
               else None
             else None)
          (map_to_list (daily st))).

(** [.with_columns([pl.col(c).cast(pl.Float64) for the five columns])] *)
Definition resolve_column (fr : Frame) (c : string) : Result nat :=
  of_option (ColumnNotFoundError c) (index_of c (columns fr)).

Definition cast_column (acc : Result Frame) (i : nat) : Result Frame :=
  try! g ← acc; convert_column cast_float64 InvalidOperationError i g.

(** The column names are resolved against the schema first, then the
    columns are cast. *)
Definition with_float_columns (fr : Frame) : Result Frame :=
  try! idx ← rmap (resolve_column fr) numeric_columns;
  foldl cast_column (Ok fr) idx.

Definition scan_cast (f : option ParquetFile) : Result Frame :=
  match f with
  | Some (Table fr) => with_float_columns fr
  | _ => Raise ComputeError
  end.

(** [pl.concat] stacks frames of one schema (column names and order; the
    dtypes are not part of this model). *)
Definition pl_concat (frs : list Frame) : Result Frame :=
  match frs with
  | [] => Raise ValueError
  | fr :: rest =>
      if forallb (λ g, bool_decide (columns g = columns fr)) rest
      then Ok (mkFrame (columns fr) (mjoin (rows <$> frs)))
      else Raise SchemaError
  end.

Definition sort_by (c : string) (fr : Frame) : Result Frame :=
  match index_of c (columns fr) with
  | None => Raise (ColumnNotFoundError c)
  | Some i => Ok (mkFrame (columns fr) (sort_rows i (rows fr)))
  end.

Definition unique (fr : Frame) : Frame :=
  mkFrame (columns fr) (unique_rows (rows fr)).

(** The body of the [try] block up to [.collect()].  The frames are lazy
    in the script and whatever they raise is raised by [.collect()];
    nothing is written before, so raising at once gives the same runs. *)
Definition consolidate_frames (target_year : Z) (daily_files : list Z) (st : Store)
    : Result Frame :=
  try! dfs ← rmap (λ f, scan_cast (mjoin (daily st !! f))) daily_files;
  try! new_data ← pl_concat dfs;
  try! combined_df ←
    match yearly st !! target_year with
    | Some dst_file =>
        try! existing_df ← scan_cast (Some dst_file);
        pl_concat [existing_df; new_data]
    | None => Ok new_data
    end;
  try! sorted ← sort_by "timestamp" combined_df;
  Ok (unique sorted).

(** [process_symbol_year]; the test [if not dfs] cannot hold once
    [daily_files] is not empty and has no branch here. *)
Definition process_symbol_year (target_year : Z) (st : Store) : Outcome * Store :=
  let last_consolidated_date := get_last_consolidated_date (yearly st !! target_year) in
  let daily_files := get_daily_files_to_process target_year last_consolidated_date st in
  match daily_files with
  | [] => (NoNewFiles last_consolidated_date, st)
  | _ :: _ =>
      match consolidate_frames target_year daily_files st with
      | Ok final_df =>
          (Saved (length (rows final_df)), write_parquet Closed final_df target_year st)
      | Raise e => (ErrorProcessing e, st)
      end
  end.

End Consolidation.

(** ** Daily ingestion ([daily_ingest.py], [backfill_missing.py]) *)

(** The state the two ingest scripts act on, for one symbol:
    [ohlcv/1s/symbol=S/] as in [Store], the [download/] directory, the
    days [run_dukascopy] was called for, and one entry per day the loop
    went through, naming the branch it took. *)
Inductive Event :=
  | UpToDate
  | AlreadyIngested (day : Z)
  | NoCsv (day : Z)
  | SavedDay (day : Z)
  | DukascopyFailed (day : Z)
  | ErrorOn (day : Z) (e : Exn).

#[global] Instance Event_eq_dec : EqDecision Event.
Proof. solve_decision. Defined.

Definition event_day (ev : Event) : option Z :=
  match ev with
  | UpToDate => None
  | AlreadyIngested d | NoCsv d | SavedDay d | DukascopyFailed d | ErrorOn d _ => Some d
  end.

Record World := mkWorld {
  output_dir : gmap Z (option ParquetFile);
  download_dir : gmap (string * Z) CsvFile;
  fetch_calls : list Z;
  log : list Event
}.

Definition parquet_exists (day : Z) (w : World) : bool :=
  match output_dir w !! day with
  | Some (Some _) => true
  | _ => false
  end.

Definition say (ev : Event) (w : World) : World :=
  mkWorld (output_dir w) (download_dir w) (fetch_calls w) (log w ++ [ev])%list.

(** [parquet_path.parent.mkdir(parents=True, exist_ok=True)] *)
Definition mkdir_parent (day : Z) (w : World) : World :=
  match output_dir w !! day with
  | Some _ => w
  | None => mkWorld (<[day := None]> (output_dir w)) (download_dir w) (fetch_calls w) (log w)
  end.

Definition to_parquet (p : WriteProgress) (df : Frame) (day : Z) (w : World) : World :=
  mkWorld (<[day := Some (file_at p df)]> (output_dir w)) (download_dir w)
          (fetch_calls w) (log w).

(** [cols.insert(to, cols.pop(from))] *)
Definition pop_insert {A} (from to : nat) (l : list A) : list A :=
  match l !! from with
  | Some x => let l' := delete from l in (take to l' ++ x :: drop to l')%list
  | None => l
  end.

Section Ingest.
Context `{Pandas} `{Dukascopy}.

Definition read_csv (f : CsvFile) : Result Frame :=
  match f with
  | EmptyFile => Raise EmptyDataError
  | Csv fr => Ok fr
  end.

(** [if col in df.columns: df[col] = df[col].astype(dtype)] *)
Definition astype_if_present (acc : Result Frame) (col : string) : Result Frame :=
  try! df ← acc;
  match index_of col (columns df) with
  | Some i => convert_column astype_float64 ValueError i df
  | None => Ok df
  end.

(** [df['timestamp'] = pd.to_datetime(df['timestamp'], ...)] *)
Definition parse_timestamps (df : Frame) : Result Frame :=
  match index_of "timestamp" (columns df) with
  | None => Raise (KeyError "timestamp")
  | Some i => convert_column to_datetime ValueError i df
  end.

(** [df['unix_time'] = df['timestamp'].astype(np.int64) // 10**9]: the
    column is replaced where it stands, or added as the last one. *)
Definition add_unix_time (df : Frame) : Result Frame :=
  match index_of "timestamp" (columns df) with
  | None => Raise (KeyError "timestamp")
  | Some i =>
      try! rs ← rmap (λ r, try! u ← of_option TypeError (to_unix_time (cell_at i r));
                           Ok match index_of "unix_time" (columns df) with
                              | Some k => <[k := u]> r
                              | None => (r ++ [u])%list
                              end) (rows df);
      Ok (mkFrame (match index_of "unix_time" (columns df) with
                   | Some _ => columns df
                   | None => (columns df ++ ["unix_time"])%list
                   end) rs)
  end.

(** [df.insert(0, 'symbol', symbol)] *)
Definition insert_symbol (symbol : string) (df : Frame) : Result Frame :=
  match index_of "symbol" (columns df) with
  | Some _ => Raise ValueError
  | None => Ok (mkFrame ("symbol" :: columns df) ((λ r, CStr symbol :: r) <$> rows df))
  end.

(** [cols.insert(cols.index('timestamp') + 1, cols.pop(cols.index('unix_time')))]
    and [df = df[cols]] *)
Definition reorder (df : Frame) : Result Frame :=
  try! t ← of_option ValueError (index_of "timestamp" (columns df));
  try! u ← of_option ValueError (index_of "unix_time" (columns df));
  Ok (mkFrame (pop_insert u (S t) (columns df)) (pop_insert u (S t) <$> rows df)).

(** The frame [convert_to_parquet] hands to [df.to_parquet]. *)
Definition convert (input_csv : CsvFile) (symbol : string) : Result Frame :=
  try! df ← read_csv input_csv;
  try! df ← foldl astype_if_present (Ok df) numeric_columns;
  try! df ← parse_timestamps df;
  try! df ← add_unix_time df;
  try! df ← insert_symbol symbol df;
  reorder df.

(** [convert_to_parquet(csv_path, parquet_path, symbol_key)]: nothing is
    written when the normalization raises. *)
Definition convert_to_parquet (input_csv : CsvFile) (day : Z) (symbol : string)
    (w : World) : Result World :=
  try! df ← convert input_csv symbol; Ok (to_parquet Closed df day w).

Definition run_dukascopy (day : Z) (w : World) : option World :=
  match dukascopy_node day (download_dir w) with
  | Some files => Some (mkWorld (output_dir w) files (fetch_calls w ++ [day])%list (log w))
  | None => None
  end.

Definition fetch_attempted (day : Z) (w : World) : World :=
  mkWorld (output_dir w) (download_dir w) (fetch_calls w ++ [day])%list (log w).

(** The body of the [for day in daterange(...)] loop of [ingest_symbol].
    Only [subprocess.CalledProcessError] is caught; any other exception
    leaves the function. *)
Definition ingest_day (symbol_key : string) (day : Z) (w : World) : Result () * World :=
  if parquet_exists day w then (Ok (), say (AlreadyIngested day) w)
  else
    match run_dukascopy day w with
    | None => (Ok (), say (DukascopyFailed day) (fetch_attempted day w))
    | Some w =>
        match download_dir w !! ("s1", day) with
        | None => (Ok (), say (NoCsv day) w)
        | Some csv =>
            if st_size_is_zero csv then (Ok (), say (NoCsv day) w)
            else
              let w := mkdir_parent day w in
              match convert_to_parquet csv day symbol_key w with
              | Ok w => (Ok (), say (SavedDay day) w)
              | Raise e => (Raise e, w)
              end
        end
    end.

Fixpoint ingest_days (symbol_key : string) (days : list Z) (w : World) : Result () * World :=
  match days with
  | [] => (Ok (), w)
  | day :: rest =>
      match ingest_day symbol_key day w with
      | (Ok _, w) => ingest_days symbol_key rest w
      | (Raise e, w) => (Raise e, w)
      end
  end.

(** [daterange]: [while start <= end: yield start; start += 1 day].  The
    days the generator yields, in the order it yields them; it is left
    when the test fails, and the distance to [end] is what makes the
    recursion well founded. *)
Equations daterange (start end_ : Z) : list Z by wf (Z.to_nat (end_ - start + 1)) lt :=
daterange start end_ with decide (start ≤ end_) := {
  | left _ => start :: daterange (start + 1) end_
  | right _ => [] }.
Next Obligation. lia. Qed.

Definition newest_parquet_date (w : World) : option Z :=
  foldr (λ d acc, match acc with Some m => Some (Z.max d m) | None => Some d end) None
        (omap (λ '(d, date_dir), match date_dir : option ParquetFile with
                                 | Some _ => Some d
                                 | None => None
                                 end)
              (map_to_list (output_dir w))).

Definition ingest_symbol (symbol_key : string) (earliest_date : Z)
    (start_override : option Z) (end_date : Z) (w : World) : Result () * World :=
  let start_date :=
    match start_override with
    | Some s => s
    | None => match newest_parquet_date w with
              | Some latest => latest + 1
              | None => earliest_date
              end
    end in
  let start_date := Z.max start_date earliest_date in
  if end_date <? start_date then (Ok (), say UpToDate w)
  else ingest_days symbol_key (daterange start_date end_date) w.

(** The body of the [while current < earliest_available] loop of
    [ingest_symbol_backfill]; [except Exception] catches whatever the
    [try] block raises.  The branch [if parquet_path.exists(): continue]
    prints nothing; it is recorded as [AlreadyIngested]. *)
Definition backfill_day (symbol_key : string) (current : Z) (w : World) : World :=
  if parquet_exists current w then say (AlreadyIngested current) w
  else
    match run_dukascopy current w with
    | None => say (ErrorOn current CalledProcessError) (fetch_attempted current w)
    | Some w =>
        match download_dir w !! ("m1", current) with
        | Some csv =>
            let w := mkdir_parent current w in
            match convert_to_parquet csv current symbol_key w with
            | Ok w => say (SavedDay current) w
            | Raise e => say (ErrorOn current e) w
            end
        | None => say (NoCsv current) w
        end
    end.

(** [while current < earliest_available: ...; current += 1 day].  The
    loop is left when its test fails; the distance to
    [earliest_available] is what makes the recursion well founded. *)
Equations backfill_loop (symbol_key : string) (current earliest_available : Z)
    (w : World) : Z * World by wf (Z.to_nat (earliest_available - current)) lt :=
backfill_loop symbol_key current earliest_available w
    with decide (current < earliest_available) := {
  | left _ => backfill_loop symbol_key (current + 1) earliest_available
                            (backfill_day symbol_key current w)
  | right _ => (current, w) }.
Next Obligation. lia. Qed.

(** Returns the final value of [current] with the state. *)
Definition ingest_symbol_backfill (symbol_key : string)
    (earliest_required earliest_available : Z) (w : World) : Z * World :=
  backfill_loop symbol_key earliest_required earliest_available w.

(** One turn of the loop of [main] of [backfill_missing.py];
    [existing_dates] is what [list_parquet_dates_remote] returned and
    [today] is [date.today()]. *)
Definition backfill_symbol (symbol : string) (earliest_required : Z)
    (existing_dates : list Z) (today : Z) (w : World) : World :=
  match existing_dates with
  | [] => (ingest_symbol_backfill symbol earliest_required today w).2
  | d :: ds =>
      let earliest_available := foldr Z.min d ds in
      if earliest_required <? earliest_available
      then (ingest_symbol_backfill symbol earliest_required earliest_available w).2
      else w
  end.

End Ingest.

(** ** Latest-date index ([update_instruments_metadata.py]) *)

(** The text [get_latest_date_for_symbol] returns: a formatted date, or
    the first ten characters of [str(v)] for a column maximum [v] that is
    not a datetime ([None] when the column has no value). *)
Inductive DateStr :=
  | Ymd (ymd : Z * Z * Z)
  | StrPrefix (v : option Cell).

#[global] Instance DateStr_eq_dec : EqDecision DateStr.
Proof. solve_decision. Defined.


#[warnings="-register-all"]
Inductive Json :=
  | JStr (s : string)
  | JDate (d : DateStr)
  | JObj (fields : list (string * Json)).

Fixpoint jget (key : string) (fields : list (string * Json)) : option Json :=
  match fields with
  | [] => None
  | (k, v) :: rest => if decide (k = key) then Some v else jget key rest
  end.

(** [d[key] = v]: the key keeps its place, a new key goes last. *)
Fixpoint jset (key : string) (v : Json) (fields : list (string * Json))
    : list (string * Json) :=
  match fields with
  | [] => [(key, v)]
  | (k, v') :: rest => if decide (k = key) then (k, v) :: rest else (k, v') :: jset key v rest
  end.

(** [if key not in d: d[key] = {}], then the fields of [d[key]]. *)
Definition ensure_object (key : string) (fields : list (string * Json))
    : Result (list (string * Json)) :=
  match jget key fields with
  | None => Ok []
  | Some (JObj inner) => Ok inner
  | Some _ => Raise TypeError
  end.


Definition lower_ascii (a : ascii) : ascii :=
  let n := nat_of_ascii a in
  if ((65 <=? n) && (n <=? 90))%nat then ascii_of_nat (n + 32) else a.

Fixpoint lower (s : string) : string :=
  match s with
  | EmptyString => EmptyString
  | String a s' => String (lower_ascii a) (lower s')
  end.

Definition contains (word s : string) : bool :=
  match String.index 0 word s with
  | Some _ => true
  | None => false
  end.

(** [any(word in col.lower() for word in ['date', 'time', 'timestamp'])] *)
Definition is_date_column (col : string) : bool :=
  existsb (λ word, contains word (lower col)) ["date"; "time"; "timestamp"].

Definition starts_with_underscore (symbol : string) : bool :=
  match symbol with
  | String "_" _ => true
  | _ => false
  end.

Section Metadata.
Context `{Polars}.
(** [datetime.now()] as a year and as a day. *)
Variables (now_year today : Z).

(** "Fallback: assume current year goes to today, past years to Dec 31" *)
Definition fallback_date (year : Z) : DateStr :=
  if decide (year = now_year) then Ymd (civil_from_days today) else Ymd (year, 12, 31).

(** What is done with the downloaded yearly file of [year]; a file that
    does not read raises inside the [try] and takes the [except] branch. *)
Definition latest_date_of_file (year : Z) (f : ParquetFile) : DateStr :=
  match f with
  | Corrupt => fallback_date year
  | Table df =>
      match filter (λ col, is_date_column col = true) (columns df) with
      | [] => fallback_date year
      | date_col :: _ =>
          match index_of date_col (columns df) with
          | None => fallback_date year
          | Some i =>
              match column_max (column_cells i df) with
              | Some (CTime latest_timestamp) =>
                  Ymd (civil_from_days (date_of_ns latest_timestamp))
              | v => StrPrefix v
              end
          end
      end
  end.

(** The loop over the years, newest first.  [bucket] is
    [ohlcv/1Ys/symbol=S/] in MinIO: a year directory with the file
    [S_Y.parquet] listed in it, or without. *)
Fixpoint scan_years (bucket : gmap Z (option ParquetFile)) (years : list Z)
    : option DateStr :=
  match years with
  | [] => None
  | year :: rest =>
      match mjoin (bucket !! year) with
      | Some f => Some (latest_date_of_file year f)
      | None => scan_years bucket rest
      end
  end.

Definition get_latest_date_for_symbol (bucket : gmap Z (option ParquetFile))
    : option DateStr :=
  scan_years bucket (reverse (merge_sort Z.le (map_to_list bucket).*1)).

(** The [if latest_date:] branch. *)
Definition set_latest (latest_date : DateStr) (instrument_data : Json) : Result Json :=
  match instrument_data with
  | JObj fields =>
      try! data_range ← ensure_object "dataRange" fields;
      let data_range := jset "latest" (JDate latest_date) data_range in
      try! sources ← ensure_object "sources" data_range;
      try! src ← ensure_object "1Ys" sources;
      let src := jset "latest" (JDate latest_date) src in
      let sources := jset "1Ys" (JObj src) sources in
      let data_range := jset "sources" (JObj sources) data_range in
      Ok (JObj (jset "dataRange" (JObj data_range) fields))
  | _ => Raise TypeError
  end.



End Metadata.

(** ** Smart download and the historical years
    ([historical_consolidation_script.py]; [yearly_consolidation.py] has
    the same [build_date_pattern], but its download loop copies under
    [ohlcv/1m/], which the consolidation does not read: it is not the
    loop modelled here) *)

(** [date(y, m, d)] as a day number. *)
Definition days_from_civil (y m d : Z) : Z :=
  let y' := if m <=? 2 then y - 1 else y in
  let era := y' `div` 400 in
  let yoe := y' - era * 400 in
  let mp := (m + 9) `mod` 12 in
  let doy := (153 * mp + 2) `div` 5 + d - 1 in
  let doe := yoe * 365 + yoe `div` 4 - yoe `div` 100 + doy in
  era * 146097 + doe - 719468.

(** The include pattern: [YYYY-*] or [YYYY-MM-*]. *)
Inductive DatePattern :=
  | YearGlob (year : Z)
  | MonthGlob (year month : Z).

Definition build_date_pattern (start_date end_date : Z) : DatePattern :=
  let '(start_year, start_month, start_day) := civil_from_days start_date in
  let '(end_year, end_month, end_day) := civil_from_days end_date in
  if decide (start_year ≠ end_year) then YearGlob start_year
  else if decide (start_month = end_month) then
    if bool_decide (start_day = 1) && bool_decide (28 ≤ end_day)
    then MonthGlob start_year start_month
    else MonthGlob start_year start_month
  else YearGlob start_year.

(** Whether [date=D] of day [day] matches [date=<pattern>]. *)
Definition pattern_matches (p : DatePattern) (day : Z) : bool :=
  match p with
  | YearGlob year => bool_decide (year_of day = year)
  | MonthGlob year month => bool_decide ((civil_from_days day).1 = (year, month))
  end.

(** One turn of the [while current_date <= end_date] loop of
    [smart_download_for_symbol].  [remote] is the bucket
    [ohlcv/1s/symbol=S/] ([mc stat] succeeds where it has a file),
    [cp_ok] tells for which days [mc cp] returns 0, [dir] is the local
    [ohlcv/1s/symbol=S/]; [mkdir -p] is run before the copy. *)
Definition copy_day (remote : gmap Z ParquetFile) (cp_ok : Z → bool) (current_date : Z)
    (dir : gmap Z (option ParquetFile)) (files_copied : nat)
    : gmap Z (option ParquetFile) * nat :=
  match remote !! current_date with
  | Some f =>
      let dir := match dir !! current_date with
                 | Some _ => dir
                 | None => <[current_date := None]> dir
                 end in
      if cp_ok current_date
      then (<[current_date := Some f]> dir, S files_copied)
      else (dir, files_copied)
  | None => (dir, files_copied)
  end.

(** The loop: it is left when the test [current_date <= end_date] fails;
    the distance to [end_date] is what makes the recursion well founded. *)
Equations copy_days (remote : gmap Z ParquetFile) (cp_ok : Z → bool)
    (current_date end_date : Z) (dir : gmap Z (option ParquetFile)) (files_copied : nat)
    : gmap Z (option ParquetFile) * nat
    by wf (Z.to_nat (end_date - current_date + 1)) lt :=
copy_days remote cp_ok current_date end_date dir files_copied
    with decide (current_date ≤ end_date) := {
  | left _ => copy_days remote cp_ok (current_date + 1) end_date
                        (copy_day remote cp_ok current_date dir files_copied).1
                        (copy_day remote cp_ok current_date dir files_copied).2
  | right _ => (dir, files_copied) }.
Next Obligation. lia. Qed.

Section Historical.
Context `{Polars}.

(** The first and last day to download: from the day after the last
    consolidated date (1 January without one) to today or 31 December,
    whichever comes first. *)
Definition download_range (target_year today : Z) (st : Store) : Z * Z :=
  (match get_last_consolidated_date (yearly st !! target_year) with
   | Some last_consolidated_date => last_consolidated_date + 1
   | None => days_from_civil target_year 1 1
   end,
   today `min` days_from_civil target_year 12 31).

(** [smart_download_for_symbol(symbol, target_year)]: the store afterwards
    and the number of files copied ([None]: "Already up-to-date"). *)
Definition smart_download_for_symbol (remote : gmap Z ParquetFile) (cp_ok : Z → bool)
    (today target_year : Z) (st : Store) : Store * option nat :=
  let '(start_date, end_date) := download_range target_year today st in
  if end_date <? start_date then (st, None)
  else
    let '(dir, files_copied) :=
      copy_days remote cp_ok start_date end_date (daily st) 0 in
    (mkStore dir (yearly st), Some files_copied).

(** [get_available_years_for_symbol]: [dates_output] is the listing, one
    entry per line, with the year the pattern [date=(\d{4})-\d{2}-\d{2}/]
    captures in that line, if any; the result is [sorted(list(years))]. *)
Definition get_available_years_for_symbol (dates_output : list (option Z)) : list Z :=
  merge_sort Z.le (remove_dups (omap id dates_output)).

Definition get_historical_years_for_symbol (previous_year : Z)
    (dates_output : list (option Z)) : list Z :=
  filter (λ year, year ≤ previous_year) (get_available_years_for_symbol dates_output).

(** The loop [for year in historical_years] of the consolidation-only
    mode of [main]: what each year printed, the store afterwards and the
    two counters of the summary.  [process_symbol_year] catches what it
    raises, so the [except] branch that counts errors is never taken. *)
Fixpoint process_years (years : list Z) (st : Store) (processed errors : nat)
    : list Outcome * Store * nat * nat :=
  match years with
  | [] => ([], st, processed, errors)
  | year :: rest =>
      let '(outcome, st) := process_symbol_year year st in
      let '(outcomes, st, processed, errors) := process_years rest st (S processed) errors in
      (outcome :: outcomes, st, processed, errors)
  end.

End Historical.

(** The days of a range for which [mc stat] and [mc cp] both succeed. *)
Definition copied_days (remote : gmap Z ParquetFile) (cp_ok : Z → bool)
    (start_date end_date : Z) : list Z :=
  filter (λ d, is_Some (remote !! d) ∧ cp_ok d = true)
         (seqZ start_date (end_date - start_date + 1)).

(** An entry of [instruments.json] that is an instrument: its key does
    not start with an underscore. *)
Definition is_instrument (entry : string * Json) : Prop :=
  starts_with_underscore entry.1 = false.

#[global] Instance is_instrument_dec entry : Decision (is_instrument entry).
Proof. unfold is_instrument. apply _. Defined.

(** ** Well-formed stores

    What the data model of the specification says of the files, as
    checks on a store: a daily partition has at least one row and all its
    rows carry a timestamp of the partition's date; the timestamp column
    of the yearly file holds datetimes. *)

Definition is_time (c : Cell) : bool :=
  match c with
  | CTime _ => true
  | _ => false
  end.

Definition dated_on (d : Z) (c : Cell) : bool :=
  match c with
  | CTime ns => bool_decide (date_of_ns ns = d)
  | _ => false
  end.

Definition dated_partition (d : Z) (f : ParquetFile) : bool :=
  match f with
  | Table fr =>
      match index_of "timestamp" (columns fr) with
      | Some j => bool_decide (rows fr ≠ []) && forallb (dated_on d) (column_cells j fr)
      | None => false
      end
  | Corrupt => false
  end.

Definition daily_dated (y : Z) (st : Store) : bool :=
  forallb (λ '(d, date_dir),
             match date_dir with
             | Some f => if decide (year_of d = y) then dated_partition d f else true
             | None => true
             end)
          (map_to_list (daily st)).

Definition yearly_typed (y : Z) (st : Store) : bool :=
  match yearly st !! y with
  | Some (Table fr) =>
      match index_of "timestamp" (columns fr) with
      | Some j => forallb is_time (column_cells j fr)
      | None => true
      end
  | _ => true
  end.

(** ** Canonical rows and sample stores *)

(** The column order [convert_to_parquet] produces from a CSV with the
    columns [timestamp, open, high, low, close, volume]. *)
Definition canonical_columns : list string :=
  ["symbol"; "timestamp"; "unix_time"; "open"; "high"; "low"; "close"; "volume"].

Definition bar (symbol : string) (ts o h l c v : Z) : Row :=
  [CStr symbol; CTime ts; CInt (ts `div` ns_per_second);
   CFloat o; CFloat h; CFloat l; CFloat c; CFloat v].

(** A pair of consecutive datetimes out of order. *)
Fixpoint ascending (cells : list Cell) : bool :=
  match cells with
  | [] => true
  | c :: rest =>
      match c, rest with
      | CTime a, CTime b :: _ => (a <=? b) && ascending rest
      | _, _ => ascending rest
      end
  end.

Module Sample.

(** 2024-05-10 and 2024-05-11 as day numbers, and instants on them. *)
Definition d10 : Z := 19853.
Definition d11 : Z := 19854.
Definition at_ (d secs : Z) : Z := d * ns_per_day + secs * ns_per_second.

Definition two_days : Store :=
  mkStore
    {[ d10 := Some (Table (mkFrame canonical_columns
                             [bar "BTC" (at_ d10 0) 1 2 3 4 7;
                              bar "BTC" (at_ d10 1) 1 2 3 4 7]));
       d11 := Some (Table (mkFrame canonical_columns
                             [bar "BTC" (at_ d11 0) 1 2 3 4 7])) ]}
    ∅.

(** One daily partition with a header and no row. *)
Definition empty_day : Store :=
  mkStore {[ d10 := Some (Table (mkFrame canonical_columns [])) ]} ∅.

(** A daily partition written from a CSV that had no [volume] column. *)
Definition no_volume : Store :=
  mkStore
    {[ d10 := Some (Table (mkFrame
                ["symbol"; "timestamp"; "unix_time"; "open"; "high"; "low"; "close"]
                [[CStr "BTC"; CTime (at_ d10 0); CInt (at_ d10 0 `div` ns_per_second);
                  CFloat 1; CFloat 2; CFloat 3; CFloat 4]])) ]}
    ∅.

(** A download directory and a provider: a CSV for most days, nothing on
    2024-05-11, a non-zero exit on 2024-05-12, a CSV without timestamp
    column on 2024-05-13 and a zero-size file on 2024-05-14. *)
Definition d12 : Z := 19855.
Definition d13 : Z := 19856.
Definition d14 : Z := 19857.
Definition d15 : Z := 19858.

Definition csv_of_day (d : Z) : CsvFile :=
  Csv (mkFrame ["timestamp"; "open"; "high"; "low"; "close"; "volume"]
               [[CInt (d * 1440); CInt 1; CInt 2; CInt 3; CInt 4; CInt 7]]).

Definition csv_without_timestamp : CsvFile :=
  Csv (mkFrame ["open"; "high"; "low"; "close"; "volume"]
               [[CInt 1; CInt 2; CInt 3; CInt 4; CInt 7]]).

Definition provider : Dukascopy := {|
  dukascopy_node day files :=
    if decide (day = d12) then None
    else if decide (day = d11) then Some files
    else if decide (day = d13) then Some (<[("s1", day) := csv_without_timestamp]> files)
    else if decide (day = d14) then Some (<[("s1", day) := EmptyFile]> files)
    else Some (<[("s1", day) := csv_of_day day]> files)
|}.

(** A provider that leaves nothing new in [download/]. *)
Definition silent_provider : Dukascopy := {| dukascopy_node day files := Some files |}.

Definition fresh : World := mkWorld ∅ ∅ [] [].

(** [download/] holding, under the name [backfill_missing.py] looks for, a
    CSV that has no timestamp column. *)
Definition bad_csv : World :=
  mkWorld ∅ {[ ("m1", d13) := csv_without_timestamp ]} [] [].

(** A yearly file already on disk. *)
Definition consolidated : Store :=
  mkStore ∅ {[ 2024 := Table (mkFrame canonical_columns [bar "BTC" (at_ d10 0) 1 2 3 4 7]) ]}.


End Sample.

(** * Properties *)

(** ** Generic facts *)

Lemma rmap_raise_first {A B} (f : A → Result B) (l : list A) x e :
  x ∈ l → f x = Raise e → ∃ x' e', x' ∈ l ∧ f x' = Raise e' ∧ rmap f l = Raise e'.
Proof.
  induction l as [|a l IH]; intros Hin Hf.
  - by apply elem_of_nil in Hin.
  - simpl. destruct (f a) as [b|e0] eqn:Ea.
    + apply elem_of_cons in Hin as [->|Hin]; [congruence|].
      destruct (IH Hin Hf) as (x' & e' & Hx' & Hfx' & Hr).
      exists x', e'. split_and!; [by right | done | by rewrite Hr].
    + exists a, e0. split_and!; [by left | done | done].
Qed.

Lemma rmap_ok {A B} (f : A → Result B) (l : list A) ys :
  rmap f l = Ok ys → Forall2 (λ x y, f x = Ok y) l ys.
Proof.
  revert ys. induction l as [|a l IH]; intros ys Hr; simpl in Hr.
  - inversion Hr. constructor.
  - destruct (f a) as [b|] eqn:Ea; [|done]. simpl in Hr.
    destruct (rmap f l) as [bs|] eqn:El; [|done]. simpl in Hr.
    inversion Hr; subst. constructor; [done | by apply IH].
Qed.

Lemma rmap_id {A} (f : A → Result A) (l : list A) :
  (∀ x, x ∈ l → f x = Ok x) → rmap f l = Ok l.
Proof.
  induction l as [|a l IH]; intros Hf; [done|]. simpl.
  rewrite Hf by left. simpl. rewrite IH; [done|].
  intros x Hx. apply Hf. by right.
Qed.

Lemma Forall2_elem_of_l {A B} (P : A → B → Prop) l k x :
  Forall2 P l k → x ∈ l → ∃ y, y ∈ k ∧ P x y.
Proof.
  induction 1 as [|a b l k Hab _ IH]; intros Hin.
  - by apply elem_of_nil in Hin.
  - apply elem_of_cons in Hin as [->|Hin].
    + exists b. split; [by left | done].
    + destruct (IH Hin) as (y & Hy & HP). exists y. split; [by right | done].
Qed.

Lemma Forall2_elem_of_r {A B} (P : A → B → Prop) l k y :
  Forall2 P l k → y ∈ k → ∃ x, x ∈ l ∧ P x y.
Proof.
  induction 1 as [|a b l k Hab _ IH]; intros Hin.
  - by apply elem_of_nil in Hin.
  - apply elem_of_cons in Hin as [->|Hin].
    + exists a. split; [by left | done].
    + destruct (IH Hin) as (x & Hx & HP). exists x. split; [by right | done].
Qed.

Lemma index_of_inj a b cols i :
  index_of a cols = Some i → index_of b cols = Some i → a = b.
Proof.
  revert i. induction cols as [|c cols IH]; intros i Ha Hb; [done|].
  simpl in Ha, Hb.
  destruct (decide (c = a)) as [Hca|Hca], (decide (c = b)) as [Hcb|Hcb].
  - congruence.
  - destruct (index_of b cols); simplify_eq/=.
  - destruct (index_of a cols); simplify_eq/=.
  - destruct (index_of a cols) as [ia|] eqn:Ea, (index_of b cols) as [ib|] eqn:Eb;
      simplify_eq/=. by eapply IH.
Qed.

Lemma cell_at_insert_ne i j (c : Cell) (r : Row) :
  j ≠ i → cell_at j (<[i := c]> r) = cell_at j r.
Proof. intros Hne. unfold cell_at. by rewrite list_lookup_insert_ne. Qed.

Lemma convert_column_cells conv e i fr g j :
  convert_column conv e i fr = Ok g → j ≠ i →
  columns g = columns fr ∧ column_cells j g = column_cells j fr.
Proof.
  unfold convert_column, column_cells. intros Hc Hne.
  destruct (rmap (convert_at conv e i) (rows fr)) as [rs|] eqn:Hr; [|done].
  simpl in Hc. inversion Hc; subst g; clear Hc. simpl. split; [done|].
  apply rmap_ok in Hr. induction Hr as [|r r' l l' Hrr' _ IH]; [done|].
  rewrite !fmap_cons, IH. f_equal.
  unfold convert_at in Hrr'. destruct (conv (cell_at i r)); [|done].
  simpl in Hrr'. inversion Hrr'. by apply cell_at_insert_ne.
Qed.

Lemma timestamp_not_numeric : "timestamp" ∉ numeric_columns.
Proof.
  unfold numeric_columns. rewrite !not_elem_of_cons.
  split_and!; try done. apply not_elem_of_nil.
Qed.

Section ConsolidationFacts.
Context `{Polars}.

Lemma foldl_cast_raise e idx : foldl cast_column (Raise e) idx = Raise e.
Proof. induction idx as [|i idx IH]; [done|]. by simpl. Qed.

Lemma foldl_cast_cells idx fr g j :
  foldl cast_column (Ok fr) idx = Ok g → j ∉ idx →
  columns g = columns fr ∧ column_cells j g = column_cells j fr.
Proof.
  revert fr. induction idx as [|i idx IH]; intros fr Hf Hj.
  - simpl in Hf. by inversion Hf.
  - simpl in Hf. apply not_elem_of_cons in Hj as [Hji Hj].
    destruct (convert_column cast_float64 InvalidOperationError i fr) as [fr'|e] eqn:Hc.
    + destruct (convert_column_cells _ _ _ _ _ j Hc Hji) as [Hcols Hcells].
      destruct (IH fr' Hf Hj) as [Hcols' Hcells']. split; congruence.
    + by rewrite foldl_cast_raise in Hf.
Qed.

Lemma convert_column_columns conv e i fr g :
  convert_column conv e i fr = Ok g → columns g = columns fr.
Proof.
  unfold convert_column. destruct (rmap _ (rows fr)); [|done]. by intros [= <-].
Qed.

Lemma foldl_cast_columns idx fr g :
  foldl cast_column (Ok fr) idx = Ok g → columns g = columns fr.
Proof.
  revert fr. induction idx as [|i idx IH]; intros fr Hf.
  - by inversion Hf.
  - simpl in Hf.
    destruct (convert_column cast_float64 InvalidOperationError i fr) as [fr'|e] eqn:Hc.
    + rewrite (IH fr' Hf). by eapply convert_column_columns.
    + by rewrite foldl_cast_raise in Hf.
Qed.

Lemma with_float_columns_columns fr g :
  with_float_columns fr = Ok g → columns g = columns fr.
Proof.
  unfold with_float_columns.
  destruct (rmap (resolve_column fr) numeric_columns) as [idx|]; [|done].
  apply foldl_cast_columns.
Qed.

(** The cast leaves the schema and every other column as they are. *)
Lemma with_float_columns_cells fr g c j :
  with_float_columns fr = Ok g → index_of c (columns fr) = Some j →
  c ∉ numeric_columns →
  columns g = columns fr ∧ column_cells j g = column_cells j fr.
Proof.
  unfold with_float_columns. intros Hw Hc Hnum.
  destruct (rmap (resolve_column fr) numeric_columns) as [idx|] eqn:Hr; [|done].
  simpl in Hw. apply (foldl_cast_cells idx); [done|].
  intros Hj. apply rmap_ok in Hr.
  destruct (Forall2_elem_of_r _ _ _ _ Hr Hj) as (c' & Hc' & Hres).
  unfold resolve_column in Hres. destruct (index_of c' (columns fr)) eqn:Hi; [|done].
  simpl in Hres. inversion Hres; subst.
  apply Hnum. by rewrite (index_of_inj _ _ _ _ Hc Hi).
Qed.

(** *** Which daily files are selected *)

Lemma elem_of_daily_files y start st d :
  d ∈ get_daily_files_to_process y start st ↔
  year_of d = y ∧ (∀ s, start = Some s → s < d) ∧ ∃ f, daily st !! d = Some (Some f).
Proof.
  unfold get_daily_files_to_process. rewrite merge_sort_Permutation.
  rewrite list_elem_of_omap. split.
  - intros ([d' e] & Hin & Hsel). apply elem_of_map_to_list in Hin.
    destruct (decide (year_of d' = y)) as [Hy|]; [|done].
    destruct start as [s|].
    + case_bool_decide; [|done]. destruct e as [f|]; [|done].
      inversion Hsel; subst d'. split_and!; [done | | by exists f].
      intros s' [= <-]. done.
    + destruct e as [f|]; [|done]. inversion Hsel; subst d'.
      split_and!; [done | done | by exists f].
  - intros (Hy & Hs & f & Hf). exists (d, Some f). split.
    + by apply elem_of_map_to_list.
    + rewrite decide_True by done. destruct start as [s|]; [|done].
      rewrite bool_decide_eq_true_2; [done|]. by apply Hs.
Qed.

(** *** The defensive cast *)

Lemma with_float_columns_missing fr c :
  c ∈ numeric_columns → index_of c (columns fr) = None →
  ∃ c', c' ∈ numeric_columns ∧ with_float_columns fr = Raise (ColumnNotFoundError c').
Proof.
  intros Hc Hidx. unfold with_float_columns.
  destruct (rmap_raise_first (resolve_column fr) numeric_columns c (ColumnNotFoundError c))
    as (c' & e' & Hc' & He' & Hr); [done | by unfold resolve_column; rewrite Hidx |].
  exists c'. split; [done|]. rewrite Hr. simpl.
  unfold resolve_column in He'. destruct (index_of c' (columns fr)); [done|].
  simpl in He'. congruence.
Qed.

(** *** Concatenation, sort and deduplication *)

Lemma pl_concat_ok frs g :
  pl_concat frs = Ok g →
  frs ≠ [] ∧ (∀ fr, fr ∈ frs → columns fr = columns g) ∧ rows g = mjoin (rows <$> frs).
Proof.
  unfold pl_concat. destruct frs as [|fr rest]; [done|].
  destruct (forallb _ rest) eqn:Hall; [|done].
  intros [= <-]. simpl. split_and!; [done | | done].
  intros fr' [->|Hin]%elem_of_cons; [done|].
  rewrite forallb_forall in Hall. apply list_elem_of_In, Hall in Hin.
  by apply bool_decide_eq_true in Hin.
Qed.

Lemma sort_by_ok c fr g :
  sort_by c fr = Ok g →
  ∃ i, index_of c (columns fr) = Some i ∧ g = mkFrame (columns fr) (sort_rows i (rows fr)).
Proof.
  unfold sort_by. destruct (index_of c (columns fr)) as [i|]; [|done].
  intros [= <-]. by exists i.
Qed.

(** What a successful [try] block has computed: the frame written is the
    set of rows of the existing yearly file and of the selected daily
    files, each row once. *)
Lemma consolidate_frames_ok y files st final :
  consolidate_frames y files st = Ok final →
  ∃ dfs existing i,
    Forall2 (λ d df, scan_cast (mjoin (daily st !! d)) = Ok df) files dfs ∧
    files ≠ [] ∧
    (∀ df, df ∈ dfs → columns df = columns final) ∧
    match yearly st !! y with
    | Some f => ∃ ex, scan_cast (Some f) = Ok ex ∧ columns ex = columns final
                      ∧ existing = rows ex
    | None => existing = []
    end ∧
    index_of "timestamp" (columns final) = Some i ∧
    rows final = unique_rows (sort_rows i (existing ++ mjoin (rows <$> dfs))).
Proof.
  unfold consolidate_frames. intros Hc.
  destruct (rmap _ files) as [dfs|] eqn:Hr; [|done]. cbn [rbind] in Hc.
  destruct (pl_concat dfs) as [new_data|] eqn:Hn; [|done]. cbn [rbind] in Hc.
  apply rmap_ok in Hr. apply pl_concat_ok in Hn as (Hne & Hcols & Hrows).
  assert (files ≠ []) as Hfiles.
  { intros ->. inversion Hr. by subst. }
  destruct (yearly st !! y) as [f|] eqn:Hy.
  - destruct (scan_cast (Some f)) as [ex|] eqn:Hex; [|done]. cbn [rbind] in Hc.
    destruct (pl_concat [ex; new_data]) as [combined|] eqn:Hcomb; [|done].
    cbn [rbind] in Hc. apply pl_concat_ok in Hcomb as (_ & Hcols2 & Hrows2).
    destruct (sort_by "timestamp" combined) as [sorted|] eqn:Hs; [|done].
    cbn [rbind] in Hc. apply sort_by_ok in Hs as (i & Hi & ->).
    inversion Hc; subst final; clear Hc. simpl.
    exists dfs, (rows ex), i. split_and!; try done.
    + intros df Hdf. rewrite (Hcols df Hdf). apply Hcols2. right. by left.
    + exists ex. split_and!; [done | | done]. apply Hcols2. by left.
    + rewrite Hrows2. simpl. by rewrite app_nil_r, Hrows.
  - cbn [rbind] in Hc.
    destruct (sort_by "timestamp" new_data) as [sorted|] eqn:Hs; [|done].
    cbn [rbind] in Hc. apply sort_by_ok in Hs as (i & Hi & ->).
    inversion Hc; subst final; clear Hc.
    exists dfs, [], i. split_and!; try done. simpl. by rewrite Hrows.
Qed.

Lemma elem_of_final_rows i (l : list Row) r :
  r ∈ unique_rows (sort_rows i l) ↔ r ∈ l.
Proof. by rewrite unique_rows_elem, sort_rows_perm. Qed.

(** *** The last consolidated date *)

Lemma column_max_elem l c : column_max l = Some c → c ∈ l.
Proof.
  revert c. induction l as [|a l IH]; intros c Hc; [done|].
  unfold column_max in Hc. simpl in Hc. fold (column_max l) in Hc.
  destruct (column_max l) as [m|] eqn:Hm.
  - destruct a; try (destruct (cell_le m _); simplify_eq; [by left | right; by apply IH]).
    right. by apply IH.
  - destruct a; simplify_eq; by left.
Qed.

Lemma column_max_times l :
  forallb is_time l = true → l ≠ [] →
  ∃ m, column_max l = Some (CTime m) ∧ ∀ ns, CTime ns ∈ l → ns ≤ m.
Proof.
  induction l as [|a l IH]; intros Hall Hne; [done|].
  simpl in Hall. apply andb_true_iff in Hall as [Ha Hall].
  destruct a as [| | | |t]; try done.
  unfold column_max. simpl. fold (column_max l).
  destruct l as [|b l'].
  - exists t. split; [done|]. intros ns Hin.
    apply list_elem_of_singleton in Hin. inversion Hin. lia.
  - destruct (IH Hall) as (m & Hm & Hmax); [done|]. rewrite Hm.
    rewrite cell_le_time. destruct (Z.leb_spec m t).
    + exists t. split; [done|]. intros ns [Heq|Hin]%elem_of_cons.
      * inversion Heq. lia.
      * specialize (Hmax ns Hin). lia.
    + exists m. split; [done|]. intros ns [Heq|Hin]%elem_of_cons.
      * inversion Heq. lia.
      * by apply Hmax.
Qed.

Lemma date_of_ns_mono a b : a ≤ b → date_of_ns a ≤ date_of_ns b.
Proof. intros. unfold date_of_ns. apply Z.div_le_mono; [done | done]. Qed.

Lemma scan_cast_table f g :
  scan_cast f = Ok g → ∃ fr, f = Some (Table fr) ∧ with_float_columns fr = Ok g.
Proof.
  destruct f as [[|fr]|]; try done. intros Hs. by exists fr.
Qed.

(** A selected daily file, once read and cast, still has its rows, all
    of the partition's date. *)
Lemma daily_frame_dated y st d f df i :
  daily_dated y st = true → year_of d = y → daily st !! d = Some (Some f) →
  scan_cast (mjoin (daily st !! d)) = Ok df →
  index_of "timestamp" (columns df) = Some i →
  rows df ≠ [] ∧ ∀ r, r ∈ rows df → ∃ ns, cell_at i r = CTime ns ∧ date_of_ns ns = d.
Proof.
  intros Hdd Hy Hd Hs Hi. rewrite Hd in Hs. change (scan_cast (Some f) = Ok df) in Hs.
  apply scan_cast_table in Hs as (fr & [= ->] & Hw).
  unfold daily_dated in Hdd. rewrite forallb_forall in Hdd.
  specialize (Hdd (d, Some (Table fr))). simpl in Hdd.
  rewrite decide_True in Hdd by done.
  assert (dated_partition d (Table fr) = true) as Hdp.
  { apply Hdd, list_elem_of_In. by apply elem_of_map_to_list. }
  unfold dated_partition in Hdp.
  destruct (index_of "timestamp" (columns fr)) as [j|] eqn:Hj; [|done].
  apply andb_true_iff in Hdp as [Hne Hall]. apply bool_decide_eq_true in Hne.
  destruct (with_float_columns_cells fr df "timestamp" j Hw Hj) as [Hcols Hcells].
  { apply timestamp_not_numeric. }
  rewrite Hcols, Hj in Hi. inversion Hi; subst j. split.
  - intros Hnil. apply Hne. unfold column_cells in Hcells. rewrite Hnil in Hcells.
    symmetry in Hcells. by apply fmap_nil_inv in Hcells.
  - intros r Hr. rewrite forallb_forall in Hall.
    specialize (Hall (cell_at i r)). rewrite <- Hcells in Hall.
    assert (dated_on d (cell_at i r) = true) as Hdated.
    { apply Hall, list_elem_of_In. unfold column_cells. by apply list_elem_of_fmap_2. }
    destruct (cell_at i r) as [| | | |ns]; try done.
    exists ns. split; [done|]. by apply bool_decide_eq_true in Hdated.
Qed.

(** The existing yearly file, once read and cast, keeps its timestamps,
    and the last consolidated date is the date of one of them. *)
Lemma yearly_frame_typed y st f ex i :
  yearly_typed y st = true → yearly st !! y = Some f →
  scan_cast (Some f) = Ok ex → index_of "timestamp" (columns ex) = Some i →
  (∀ r, r ∈ rows ex → ∃ ns, cell_at i r = CTime ns) ∧
  (∀ s, get_last_consolidated_date (Some f) = Some s →
        ∃ r ns, r ∈ rows ex ∧ cell_at i r = CTime ns ∧ date_of_ns ns = s).
Proof.
  intros Hty Hy Hs Hi. apply scan_cast_table in Hs as (fr & [= ->] & Hw).
  unfold yearly_typed in Hty. rewrite Hy in Hty.
  rewrite (with_float_columns_columns _ _ Hw) in Hi. rewrite Hi in Hty.
  destruct (with_float_columns_cells fr ex "timestamp" i Hw Hi) as [Hcols Hcells].
  { apply timestamp_not_numeric. }
  split.
  - intros r Hr. rewrite forallb_forall in Hty.
    specialize (Hty (cell_at i r)). rewrite <- Hcells in Hty.
    assert (is_time (cell_at i r) = true) as Ht.
    { apply Hty, list_elem_of_In. unfold column_cells. by apply list_elem_of_fmap_2. }
    destruct (cell_at i r) as [| | | |ns]; try done. by exists ns.
  - intros s Hlast. simpl in Hlast. rewrite Hi in Hlast.
    destruct (decide (rows fr = [])); [done|].
    destruct (column_max (column_cells i fr)) as [[| | | |ns]|] eqn:Hmax; try done.
    inversion Hlast; subst s. apply column_max_elem in Hmax.
    rewrite <- Hcells in Hmax. unfold column_cells in Hmax.
    apply list_elem_of_fmap in Hmax as (r & Hcell & Hr).
    exists r, ns. by split_and!.
Qed.

(** After a run that saved, every daily partition of the year is dated
    on or before the last consolidated date of the new yearly file. *)
Lemma saved_then_nothing_new y st n st1 :
  daily_dated y st = true → yearly_typed y st = true →
  process_symbol_year y st = (Saved n, st1) →
  daily st1 = daily st ∧
  ∃ l, get_last_consolidated_date (yearly st1 !! y) = Some l ∧
       get_daily_files_to_process y (Some l) st1 = [].
Proof.
  intros Hdd Hty. unfold process_symbol_year.
  set (last := get_last_consolidated_date (yearly st !! y)).
  destruct (get_daily_files_to_process y last st) as [|d0 files'] eqn:Hfiles; [done|].
  rewrite <- Hfiles.
  destruct (consolidate_frames y _ st) as [final|] eqn:Hc; [|done].
  intros [= <- <-]. split; [done|].
  apply consolidate_frames_ok in Hc
    as (dfs & existing & i & HF2 & _ & Hcols & Hex & Hi & Hrows).
  set (files := get_daily_files_to_process y last st) in *.
  (* the rows that come from a selected daily file *)
  assert (∀ d, d ∈ files → ∃ r ns, r ∈ rows final ∧ cell_at i r = CTime ns
                                    ∧ date_of_ns ns = d) as Hsel.
  { intros d Hd. destruct (Forall2_elem_of_l _ _ _ _ HF2 Hd) as (df & Hdf & Hscan).
    apply elem_of_daily_files in Hd as (Hy & _ & f & Hf).
    assert (index_of "timestamp" (columns df) = Some i) as Hidf
      by (by rewrite (Hcols df Hdf)).
    destruct (daily_frame_dated y st d f df i Hdd Hy Hf Hscan Hidf) as [Hne Hall].
    destruct (rows df) as [|r rs] eqn:Hrs; [done|].
    destruct (Hall r) as (ns & Hns & Hdate); [by left|].
    exists r, ns. split_and!; [|done|done].
    rewrite Hrows. apply elem_of_final_rows, elem_of_app. right.
    apply list_elem_of_join. exists (rows df). split.
    - rewrite Hrs. by left.
    - by apply list_elem_of_fmap_2. }
  (* every row of the new file has a timestamp *)
  assert (∀ r, r ∈ rows final → ∃ ns, cell_at i r = CTime ns) as Htimes.
  { intros r Hr. rewrite Hrows in Hr.
    apply elem_of_final_rows, elem_of_app in Hr as [Hr|Hr].
    - destruct (yearly st !! y) as [f|] eqn:Hy.
      + destruct Hex as (ex & Hscan & Hcex & ->).
        assert (index_of "timestamp" (columns ex) = Some i) as Hiex by (by rewrite Hcex).
        by apply (yearly_frame_typed y st f ex i Hty Hy Hscan Hiex).
      + subst existing. by apply elem_of_nil in Hr.
    - apply list_elem_of_join in Hr as (rs & Hr & Hrs).
      apply list_elem_of_fmap in Hrs as (df & -> & Hdf).
      destruct (Forall2_elem_of_r _ _ _ _ HF2 Hdf) as (d & Hd & Hscan).
      apply elem_of_daily_files in Hd as (Hy & _ & f & Hf).
      assert (index_of "timestamp" (columns df) = Some i) as Hidf
        by (by rewrite (Hcols df Hdf)).
      destruct (daily_frame_dated y st d f df i Hdd Hy Hf Hscan Hidf) as [_ Hall].
      destruct (Hall r Hr) as (ns & Hns & _). by exists ns. }
  (* the last consolidated date of the new file *)
  assert (rows final ≠ []) as Hne.
  { destruct (Hsel d0) as (r & _ & Hr & _); [rewrite Hfiles; by left|].
    intros Hnil. rewrite Hnil in Hr. by apply elem_of_nil in Hr. }
  destruct (column_max_times (column_cells i final)) as (m & Hm & Hmax).
  { apply forallb_forall. intros c Hc%list_elem_of_In.
    apply list_elem_of_fmap in Hc as (r & -> & Hr).
    by destruct (Htimes r Hr) as (ns & ->). }
  { unfold column_cells. intros Hnil%fmap_nil_inv. done. }
  assert (∀ r ns, r ∈ rows final → cell_at i r = CTime ns → ns ≤ m) as Hle.
  { intros r ns Hr Hns. apply Hmax. rewrite <- Hns.
    unfold column_cells. by apply list_elem_of_fmap_2. }
  exists (date_of_ns m). simpl. rewrite lookup_insert_eq. simpl. split.
  { rewrite Hi. rewrite decide_False by done. by rewrite Hm. }
  apply elem_of_nil_inv. intros d Hd.
  apply elem_of_daily_files in Hd as (Hy & Hafter & f & Hf). simpl in Hf.
  specialize (Hafter _ eq_refl).
  assert (d ≤ date_of_ns m); [|lia].
  destruct (decide (d ∈ files)) as [Hin|Hnin].
  - destruct (Hsel d Hin) as (r & ns & Hr & Hns & <-).
    apply date_of_ns_mono. by eapply Hle.
  - assert (∃ s, last = Some s ∧ d ≤ s) as (s & Hlast & Hds).
    { destruct last as [s|] eqn:Hlast.
      - exists s. split; [done|]. destruct (decide (s < d)) as [Hlt|]; [|lia].
        exfalso. apply Hnin. apply elem_of_daily_files.
        split_and!; [done | | by exists f]. by intros s' [= <-].
      - exfalso. apply Hnin. apply elem_of_daily_files.
        split_and!; [done | done | by exists f]. }
    unfold last in Hlast.
    destruct (yearly st !! y) as [fy|] eqn:Hyy; [|done].
    destruct Hex as (ex & Hscan & Hcex & ->).
    assert (index_of "timestamp" (columns ex) = Some i) as Hiex by (by rewrite Hcex).
    destruct (yearly_frame_typed y st fy ex i Hty Hyy Hscan Hiex) as [_ Hw].
    destruct (Hw s Hlast) as (r & ns & Hr & Hns & <-).
    etrans; [exact Hds|]. apply date_of_ns_mono. apply (Hle r); [|done].
    rewrite Hrows. apply elem_of_final_rows, elem_of_app. by left.
Qed.

Lemma consolidate_frames_daily_raises y files st d e :
  d ∈ files → scan_cast (mjoin (daily st !! d)) = Raise e →
  ∃ e', consolidate_frames y files st = Raise e'.
Proof.
  intros Hd He. unfold consolidate_frames.
  destruct (rmap_raise_first (λ f, scan_cast (mjoin (daily st !! f))) files d e Hd He)
    as (x' & e' & _ & _ & ->).
  by exists e'.
Qed.

Lemma consolidate_frames_yearly_raises y files st f e :
  yearly st !! y = Some f → scan_cast (Some f) = Raise e →
  ∃ e', consolidate_frames y files st = Raise e'.
Proof.
  intros Hy He. unfold consolidate_frames.
  destruct (rmap _ files) as [dfs|e1]; [|by exists e1]. cbn [rbind].
  destruct (pl_concat dfs) as [new_data|e2]; [|by exists e2]. cbn [rbind].
  rewrite Hy, He. by exists e.
Qed.

End ConsolidationFacts.

(** ** Consolidation *)

Lemma process_not_saved `{Polars} y st o st1 :
  process_symbol_year y st = (o, st1) → (∀ n, o ≠ Saved n) → st1 = st.
Proof.
  unfold process_symbol_year.
  destruct (get_daily_files_to_process y _ st); [by intros [= <- <-]|].
  destruct (consolidate_frames y _ st).
  - intros [= <- <-] Hn. by destruct (Hn (length (rows a))).
  - by intros [= <- <-].
Qed.

(** C1 (as amended): when every daily partition of the year holds at
    least one row, all dated on the partition's date, and the timestamp
    column of the yearly file holds datetimes, running the consolidation
    twice with nothing new in between leaves the store after the second
    run equal to the store after the first.  If the first run saved, the
    second selects no daily file, writes nothing and prints "no new daily
    files since ..." (not a record count); otherwise it prints what the
    first run printed. *)
Theorem consolidate_twice `{Polars} (y : Z) (st : Store) :
  daily_dated y st = true → yearly_typed y st = true →
  (process_symbol_year y (process_symbol_year y st).2).2 = (process_symbol_year y st).2 ∧
  (∀ n, (process_symbol_year y st).1 = Saved n →
        get_daily_files_to_process y
          (get_last_consolidated_date (yearly (process_symbol_year y st).2 !! y))
          (process_symbol_year y st).2 = [] ∧
        ∃ l, (process_symbol_year y (process_symbol_year y st).2).1 = NoNewFiles (Some l)) ∧
  ((∀ n, (process_symbol_year y st).1 ≠ Saved n) →
   (process_symbol_year y (process_symbol_year y st).2).1 = (process_symbol_year y st).1).
Proof.
  intros Hdd Hty. destruct (process_symbol_year y st) as [o1 st1] eqn:Hrun1. simpl.
  destruct o1 as [l0|n|e].
  2:{ destruct (saved_then_nothing_new y st n st1 Hdd Hty Hrun1) as (_ & l & Hlast & Hnil).
      assert (process_symbol_year y st1 = (NoNewFiles (Some l), st1)) as Hrun2.
      { unfold process_symbol_year. by rewrite Hlast, Hnil. }
      rewrite Hrun2. simpl. split_and!; [done | | ].
      - intros _ _. rewrite Hlast. split; [done | by exists l].
      - intros Hn. by destruct (Hn n). }
  all: assert (st1 = st) as -> by (by apply (process_not_saved y st _ st1 Hrun1)).
  all: rewrite Hrun1; simpl; split_and!; done.
Qed.

Lemma consolidate_twice_witness :
  (process_symbol_year 2024 (process_symbol_year 2024 Sample.two_days).2).2
  = (process_symbol_year 2024 Sample.two_days).2 ∧
  (process_symbol_year 2024 Sample.two_days).1 = Saved 3 ∧
  (process_symbol_year 2024 (process_symbol_year 2024 Sample.two_days).2).1
  = NoNewFiles (Some Sample.d11).
Proof.
  destruct (consolidate_twice 2024 Sample.two_days) as (Hst & Hsaved & _);
    [reflexivity | reflexivity |].
  split; [exact Hst|]. split; vm_compute; reflexivity.
Defined.

(** C1 as stated fails: a daily partition with no row is selected again by
    the second run, which writes the yearly file a second time. *)
Lemma consolidate_twice_reselects_empty_partition :
  (process_symbol_year 2024 Sample.empty_day).1 = Saved 0 ∧
  get_daily_files_to_process 2024
    (get_last_consolidated_date (yearly (process_symbol_year 2024 Sample.empty_day).2 !! 2024))
    (process_symbol_year 2024 Sample.empty_day).2 = [Sample.d10] ∧
  (process_symbol_year 2024 (process_symbol_year 2024 Sample.empty_day).2).1 = Saved 0.
Proof. vm_compute. done. Qed.

(** *** Order of the written file *)

(** Whatever the library, the frame handed to [.unique()] is in timestamp
    order. *)
Lemma sorted_before_unique `{Polars} y files st final :
  consolidate_frames y files st = Ok final →
  ∃ i sorted,
    index_of "timestamp" (columns final) = Some i ∧
    Sorted (λ r1 r2, cell_le (cell_at i r1) (cell_at i r2) = true) sorted ∧
    rows final = unique_rows sorted.
Proof.
  intros Hc. apply consolidate_frames_ok in Hc
    as (dfs & existing & i & _ & _ & _ & _ & Hi & Hrows).
  exists i, (sort_rows i (existing ++ mjoin (rows <$> dfs))).
  split_and!; [done | apply sort_rows_sorted | done].
Qed.

#[global] Instance row_le_ref_trans i : Transitive (row_le_ref i).
Proof.
  intros r1 r2 r3. unfold row_le_ref, cell_le_ref.
  destruct (cell_rank (cell_at i r1)) as [a u], (cell_rank (cell_at i r2)) as [b v],
           (cell_rank (cell_at i r3)) as [c w].
  rewrite !orb_true_iff, !andb_true_iff, !Z.ltb_lt, !Z.eqb_eq, !Z.leb_le. lia.
Qed.

Lemma remove_dups_StronglySorted {A} `{EqDecision A} (R : relation A) (l : list A) :
  StronglySorted R l → StronglySorted R (remove_dups l).
Proof.
  induction 1 as [|x l Hl IH Hx]; simpl; [constructor|].
  destruct (decide_rel elem_of x l); [done|].
  constructor; [done|]. apply Forall_forall. intros z Hz.
  rewrite elem_of_remove_dups in Hz. rewrite Forall_forall in Hx. by apply Hx.
Qed.

(** A deduplication that keeps the rows where they are keeps the order. *)
Lemma ordered_unique_keeps_sorted y files st final :
  @consolidate_frames polars_ordered y files st = Ok final →
  ∃ i, index_of "timestamp" (columns final) = Some i ∧ Sorted (row_le_ref i) (rows final).
Proof.
  intros Hc. destruct (@sorted_before_unique polars_ordered y files st final Hc)
    as (i & sorted & Hi & Hs & Hrows).
  exists i. split; [done|]. rewrite Hrows. simpl.
  apply StronglySorted_Sorted, remove_dups_StronglySorted.
  by apply (Sorted_StronglySorted (row_le_ref i)).
Qed.

(** C3: the consolidated file is meant to be in timestamp order ("Sort,
    deduplicate and save"), but [.unique()] is called after [.sort()]
    without [maintain_order=True]: with a deduplication that returns the
    distinct rows in another order, the file written for the sample store
    has its newest row first. *)
Theorem sort_then_unique_loses_order :
  ∃ fr,
    @process_symbol_year polars_unordered 2024 Sample.two_days
    = (Saved 3, write_parquet Closed fr 2024 Sample.two_days) ∧
    column_cells 1 fr
    = [CTime (Sample.at_ Sample.d11 0); CTime (Sample.at_ Sample.d10 1);
       CTime (Sample.at_ Sample.d10 0)] ∧
    ascending (column_cells 1 fr) = false.
Proof. eexists. split_and!; vm_compute; reflexivity. Qed.

(** *** Deduplication *)

Lemma rmap_all_ok {A B} (f : A → Result B) (l : list A) :
  (∀ x, x ∈ l → ∃ y, f x = Ok y) → ∃ ys, rmap f l = Ok ys.
Proof.
  induction l as [|a l IH]; intros Hf; [by exists []|].
  destruct (Hf a) as (b & Hb); [by left|].
  destruct IH as (bs & Hbs); [intros x Hx; apply Hf; by right|].
  exists (b :: bs). simpl. by rewrite Hb, Hbs.
Qed.

Lemma convert_column_bars `{Polars} (i : nat) rs :
  (3 ≤ i < 8)%nat →
  Forall (λ r, ∃ s ts o h l c v, r = bar s ts o h l c v) rs →
  convert_column cast_float64 InvalidOperationError i (mkFrame canonical_columns rs)
  = Ok (mkFrame canonical_columns rs).
Proof.
  intros Hi Hbars. unfold convert_column. simpl. rewrite rmap_id; [done|].
  intros r Hr. eapply Forall_forall in Hbars as (s & ts & o & h & l & c & v & ->); [|done].
  unfold convert_at, cell_at.
  destruct i as [|[|[|[|[|[|[|[|i]]]]]]]]; try lia; simpl;
    by rewrite cast_float64_float.
Qed.

(** The cast changes nothing in a file that has the canonical columns. *)
Lemma with_float_columns_bars `{Polars} rs :
  Forall (λ r, ∃ s ts o h l c v, r = bar s ts o h l c v) rs →
  with_float_columns (mkFrame canonical_columns rs) = Ok (mkFrame canonical_columns rs).
Proof.
  intros Hbars. unfold with_float_columns.
  replace (rmap (resolve_column (mkFrame canonical_columns rs)) numeric_columns)
    with (Ok (A := list nat) [3; 4; 5; 6; 7]%nat) by reflexivity.
  cbn [rbind foldl]. unfold cast_column.
  do 5 (cbn [rbind]; rewrite convert_column_bars by (done || lia)). done.
Qed.

Lemma pl_concat_same_columns `{Polars} cols dfs :
  dfs ≠ [] → (∀ df, df ∈ dfs → columns df = cols) →
  pl_concat dfs = Ok (mkFrame cols (mjoin (rows <$> dfs))).
Proof.
  intros Hne Hcols. destruct dfs as [|df rest]; [done|]. unfold pl_concat.
  assert (forallb (λ g, bool_decide (columns g = columns df)) rest = true) as ->.
  { apply forallb_forall. intros g Hg%list_elem_of_In. apply bool_decide_eq_true.
    rewrite (Hcols g), (Hcols df); [done | by left | by right]. }
  by rewrite (Hcols df) by left.
Qed.

(** A first consolidation (no yearly file yet) of daily files that all
    have the canonical columns: the file written holds the rows of the
    selected files, each once. *)
Lemma first_consolidation_rows `{Polars} y st :
  yearly st !! y = None →
  get_daily_files_to_process y None st ≠ [] →
  (∀ d, d ∈ get_daily_files_to_process y None st →
        ∃ rs, scan_cast (mjoin (daily st !! d)) = Ok (mkFrame canonical_columns rs)) →
  ∃ fr, process_symbol_year y st = (Saved (length (rows fr)), write_parquet Closed fr y st) ∧
        columns fr = canonical_columns ∧
        NoDup (rows fr) ∧
        ∀ r, r ∈ rows fr ↔
             ∃ d rs, d ∈ get_daily_files_to_process y None st ∧
                     scan_cast (mjoin (daily st !! d)) = Ok (mkFrame canonical_columns rs) ∧
                     r ∈ rs.
Proof.
  intros Hy Hne Hall. unfold process_symbol_year. rewrite Hy. simpl.
  set (files := get_daily_files_to_process y None st) in *.
  destruct files as [|d0 files'] eqn:Hfiles; [done|]. rewrite <- Hfiles in *.
  destruct (rmap_all_ok (λ f, scan_cast (mjoin (daily st !! f))) files) as (dfs & Hdfs).
  { intros d Hd. destruct (Hall d Hd) as (rs & Hrs). eauto. }
  assert (Forall2 (λ d df, scan_cast (mjoin (daily st !! d)) = Ok df) files dfs) as HF2
    by (by apply rmap_ok).
  assert (∀ df, df ∈ dfs → columns df = canonical_columns) as Hcols.
  { intros df Hdf. destruct (Forall2_elem_of_r _ _ _ _ HF2 Hdf) as (d & Hd & Hscan).
    destruct (Hall d Hd) as (rs & Hrs). rewrite Hrs in Hscan. by inversion Hscan. }
  assert (dfs ≠ []) as Hdne.
  { intros ->. apply Forall2_nil_inv_r in HF2. rewrite HF2 in Hfiles. done. }
  assert (consolidate_frames y files st
          = Ok (unique (mkFrame canonical_columns
                          (sort_rows 1 (mjoin (rows <$> dfs)))))) as Hc.
  { unfold consolidate_frames. rewrite Hdfs. cbn [rbind].
    rewrite (pl_concat_same_columns canonical_columns) by done. cbn [rbind].
    rewrite Hy. cbn [rbind]. done. }
  rewrite Hc. eexists. split_and!; [reflexivity | done | apply unique_rows_NoDup |].
  intros r. simpl. rewrite elem_of_final_rows, list_elem_of_join. split.
  - intros (rs & Hr & Hrs). apply list_elem_of_fmap in Hrs as (df & -> & Hdf).
    destruct (Forall2_elem_of_r _ _ _ _ HF2 Hdf) as (d & Hd & Hscan).
    destruct (Hall d Hd) as (rs & Hrs). exists d, rs. split_and!; [done | done |].
    rewrite Hrs in Hscan. inversion Hscan; subst df. done.
  - intros (d & rs & Hd & Hscan & Hr).
    destruct (Forall2_elem_of_l _ _ _ _ HF2 Hd) as (df & Hdf & Hscan').
    rewrite Hscan in Hscan'. inversion Hscan'; subst df.
    exists rs. split; [done|]. by apply (list_elem_of_fmap_2' rows _ (mkFrame canonical_columns rs)).
Qed.

(** C4: two daily partitions that share one row in full and hold two rows
    that differ in [volume] alone consolidate to three rows: the shared
    row once and both rows of the pair; no row is dropped for sharing a
    timestamp with another. *)
Theorem dedup_is_full_row `{Polars} (y d1 d2 : Z) (sa s : string)
    (ta oa ha la ca va t o h l c v1 v2 : Z) :
  year_of d1 = y → year_of d2 = y → d1 ≠ d2 → v1 ≠ v2 →
  bar sa ta oa ha la ca va ≠ bar s t o h l c v1 →
  bar sa ta oa ha la ca va ≠ bar s t o h l c v2 →
  ∃ fr,
    process_symbol_year y
      (mkStore {[ d1 := Some (Table (mkFrame canonical_columns
                                       [bar sa ta oa ha la ca va; bar s t o h l c v1]));
                  d2 := Some (Table (mkFrame canonical_columns
                                       [bar sa ta oa ha la ca va; bar s t o h l c v2])) ]}
               ∅)
    = (Saved 3,
       mkStore {[ d1 := Some (Table (mkFrame canonical_columns
                                       [bar sa ta oa ha la ca va; bar s t o h l c v1]));
                  d2 := Some (Table (mkFrame canonical_columns
                                       [bar sa ta oa ha la ca va; bar s t o h l c v2])) ]}
               {[ y := Table fr ]}) ∧
    rows fr ≡ₚ [bar sa ta oa ha la ca va; bar s t o h l c v1; bar s t o h l c v2].
Proof.
  intros Hy1 Hy2 Hd Hv Hab1 Hab2.
  set (a := bar sa ta oa ha la ca va). set (b1 := bar s t o h l c v1).
  set (b2 := bar s t o h l c v2).
  set (f1 := mkFrame canonical_columns [a; b1]). set (f2 := mkFrame canonical_columns [a; b2]).
  set (st := mkStore _ ∅).
  assert (daily st !! d1 = Some (Some (Table f1))) as Hl1 by (simpl; by simplify_map_eq).
  assert (daily st !! d2 = Some (Some (Table f2))) as Hl2 by (simpl; by simplify_map_eq).
  assert (∀ d, d ∈ get_daily_files_to_process y None st ↔ d = d1 ∨ d = d2) as Hfiles.
  { intros d. rewrite elem_of_daily_files. split.
    - intros (_ & _ & f & Hf). simpl in Hf.
      destruct (decide (d = d1)) as [|Hn1]; [by left|].
      destruct (decide (d = d2)) as [|Hn2]; [by right|]. by simplify_map_eq.
    - intros [-> | ->]; split_and!; eauto; done. }
  assert (scan_cast (mjoin (daily st !! d1)) = Ok f1) as Hs1.
  { rewrite Hl1. apply with_float_columns_bars. repeat constructor; unfold a, b1; eauto 10. }
  assert (scan_cast (mjoin (daily st !! d2)) = Ok f2) as Hs2.
  { rewrite Hl2. apply with_float_columns_bars. repeat constructor; unfold a, b2; eauto 10. }
  destruct (first_consolidation_rows y st) as (fr & Hrun & _ & Hnd & Hrows).
  { apply lookup_empty. }
  { intros Hnil. assert (d1 ∈ get_daily_files_to_process y None st) as Hin
      by (apply Hfiles; by left).
    rewrite Hnil in Hin. by apply elem_of_nil in Hin. }
  { intros d [-> | ->]%Hfiles; eauto. }
  assert (rows fr ≡ₚ [a; b1; b2]) as Hperm.
  { apply NoDup_Permutation; [done | |].
    - assert (b1 ≠ b2) by (unfold b1, b2, bar; congruence).
      repeat constructor; rewrite ?elem_of_cons, ?elem_of_nil; intuition congruence.
    - intros r. rewrite Hrows. split.
      + intros (d & rs & [-> | ->]%Hfiles & Hscan & Hr).
        * rewrite Hs1 in Hscan. inversion Hscan; subst rs.
          revert Hr. rewrite !elem_of_cons, !elem_of_nil. tauto.
        * rewrite Hs2 in Hscan. inversion Hscan; subst rs.
          revert Hr. rewrite !elem_of_cons, !elem_of_nil. tauto.
      + intros Hr. apply elem_of_cons in Hr as [-> | Hr].
        { exists d1, [a; b1]. split_and!; [apply Hfiles; by left | done | by left]. }
        apply elem_of_cons in Hr as [-> | Hr].
        { exists d1, [a; b1]. split_and!; [apply Hfiles; by left | done | right; by left]. }
        apply list_elem_of_singleton in Hr as ->.
        exists d2, [a; b2]. split_and!; [apply Hfiles; by right | done | right; by left]. }
  exists fr. split; [|done]. rewrite Hrun, (Permutation_length Hperm). reflexivity.
Qed.

Lemma dedup_is_full_row_witness :
  ∃ fr,
    process_symbol_year 2024
      (mkStore {[ Sample.d10 := Some (Table (mkFrame canonical_columns
                                   [bar "BTC" 5 1 2 3 4 7; bar "BTC" 6 1 2 3 4 8]));
                  Sample.d11 := Some (Table (mkFrame canonical_columns
                                   [bar "BTC" 5 1 2 3 4 7; bar "BTC" 6 1 2 3 4 9])) ]}
               ∅)
    = (Saved 3,
       mkStore {[ Sample.d10 := Some (Table (mkFrame canonical_columns
                                   [bar "BTC" 5 1 2 3 4 7; bar "BTC" 6 1 2 3 4 8]));
                  Sample.d11 := Some (Table (mkFrame canonical_columns
                                   [bar "BTC" 5 1 2 3 4 7; bar "BTC" 6 1 2 3 4 9])) ]}
               {[ 2024 := Table fr ]}) ∧
    rows fr ≡ₚ [bar "BTC" 5 1 2 3 4 7; bar "BTC" 6 1 2 3 4 8; bar "BTC" 6 1 2 3 4 9].
Proof.
  apply (dedup_is_full_row 2024 Sample.d10 Sample.d11 "BTC" "BTC" 5 1 2 3 4 7 6 1 2 3 4 8 9);
    (reflexivity || discriminate).
Defined.


(** *** Missing numeric columns *)

(** C10: when a selected daily partition, or the yearly file about to be
    merged, lacks one of [open, high, low, close, volume], the cast of
    that file fails on a missing column, the run ends in the [except]
    branch and the store is left as it was. *)
Theorem consolidation_requires_numeric_columns `{Polars} (y : Z) (st : Store)
    (fr : Frame) (c : string) :
  c ∈ numeric_columns → index_of c (columns fr) = None →
  get_daily_files_to_process y (get_last_consolidated_date (yearly st !! y)) st ≠ [] →
  (∃ d, d ∈ get_daily_files_to_process y (get_last_consolidated_date (yearly st !! y)) st
        ∧ daily st !! d = Some (Some (Table fr)))
  ∨ yearly st !! y = Some (Table fr) →
  (∃ c', c' ∈ numeric_columns
         ∧ scan_cast (Some (Table fr)) = Raise (ColumnNotFoundError c')) ∧
  ∃ e, process_symbol_year y st = (ErrorProcessing e, st).
Proof.
  intros Hc Hidx Hne Hwhere.
  destruct (with_float_columns_missing fr c Hc Hidx) as (c' & Hc' & Hcast).
  split; [by exists c'|].
  unfold process_symbol_year.
  set (files := get_daily_files_to_process y _ st) in *.
  assert (∃ e, consolidate_frames y files st = Raise e) as [e He].
  { destruct Hwhere as [(d & Hd & Hfile) | Hyearly].
    - apply (consolidate_frames_daily_raises y files st d (ColumnNotFoundError c') Hd).
      by rewrite Hfile.
    - by apply (consolidate_frames_yearly_raises y files st (Table fr)
                  (ColumnNotFoundError c')). }
  destruct files; [done|]. rewrite He. by exists e.
Qed.

(** A daily partition normalised from a CSV without [volume] stops the
    consolidation of its year. *)
Lemma consolidation_requires_numeric_columns_witness :
  (∃ c', c' ∈ numeric_columns
         ∧ scan_cast (Some (Table (mkFrame
              ["symbol"; "timestamp"; "unix_time"; "open"; "high"; "low"; "close"]
              [[CStr "BTC"; CTime (Sample.at_ Sample.d10 0);
                CInt (Sample.at_ Sample.d10 0 `div` ns_per_second);
                CFloat 1; CFloat 2; CFloat 3; CFloat 4]])))
           = Raise (ColumnNotFoundError c')) ∧
  ∃ e, process_symbol_year 2024 Sample.no_volume = (ErrorProcessing e, Sample.no_volume).
Proof.
  apply (consolidation_requires_numeric_columns 2024 Sample.no_volume _ "volume").
  - unfold numeric_columns. rewrite !elem_of_cons. tauto.
  - reflexivity.
  - vm_compute. discriminate.
  - left. exists Sample.d10. split; [|reflexivity].
    replace (get_daily_files_to_process 2024 _ Sample.no_volume) with [Sample.d10]
      by (vm_compute; reflexivity).
    by left.
Defined.


(** ** Ingestion *)

Section IngestFacts.
Context `{Pandas} `{Dukascopy}.

Lemma ingest_day_outcome symbol_key day w :
  parquet_exists day w = false →
  (ingest_day symbol_key day w).1 = Ok () →
  last (log (ingest_day symbol_key day w).2) = Some (SavedDay day) →
  parquet_exists day (ingest_day symbol_key day w).2 = true.
Proof.
  unfold ingest_day. intros -> Hok Hlast.
  destruct (run_dukascopy day w) as [w1|]; simpl in *.
  - destruct (download_dir w1 !! ("s1", day)) as [csv|]; simpl in *.
    + destruct (st_size_is_zero csv); simpl in *.
      * by rewrite last_snoc in Hlast.
      * unfold convert_to_parquet in *.
        destruct (convert csv symbol_key); simpl in *; [|done].
        unfold parquet_exists. simpl. by rewrite lookup_insert_eq.
    + by rewrite last_snoc in Hlast.
  - by rewrite last_snoc in Hlast.
Qed.

(** A day without a CSV, or with a zero-size one, in [ingest_symbol]: no
    partition, no exception, one "skipping" line. *)
Lemma ingest_day_no_data symbol_key day w w1 :
  parquet_exists day w = false →
  run_dukascopy day w = Some w1 →
  from_option st_size_is_zero true (download_dir w1 !! ("s1", day)) = true →
  ingest_day symbol_key day w = (Ok (), say (NoCsv day) w1) ∧
  output_dir (say (NoCsv day) w1) = output_dir w.
Proof.
  unfold ingest_day. intros -> Hrun Hcsv. rewrite Hrun.
  assert (output_dir w1 = output_dir w) as Hout.
  { unfold run_dukascopy in Hrun. destruct (dukascopy_node day _); by simplify_eq. }
  destruct (download_dir w1 !! ("s1", day)) as [csv|]; simpl in *; [|done].
  by rewrite Hcsv.
Qed.

(** Each turn of the backfill loop records one event, for its day. *)
Lemma backfill_day_log symbol_key current w :
  ∃ ev, log (backfill_day symbol_key current w) = (log w ++ [ev])%list
        ∧ event_day ev = Some current.
Proof.
  unfold backfill_day. destruct (parquet_exists current w); [by eexists|].
  unfold run_dukascopy. destruct (dukascopy_node current _); [|by eexists]. simpl.
  destruct (_ !! ("m1", current)) as [csv|]; [|by eexists].
  unfold convert_to_parquet. destruct (convert csv symbol_key); simpl.
  - exists (SavedDay current). split; [|reflexivity]. unfold mkdir_parent. simpl.
    by destruct (output_dir w !! current).
  - exists (ErrorOn current e). split; [|reflexivity]. unfold mkdir_parent. simpl.
    by destruct (output_dir w !! current).
Qed.

Lemma backfill_loop_step symbol_key current earliest_available w :
  backfill_loop symbol_key current earliest_available w
  = if decide (current < earliest_available)
    then backfill_loop symbol_key (current + 1) earliest_available
                       (backfill_day symbol_key current w)
    else (current, w).
Proof.
  rewrite backfill_loop_equation_1. by destruct (decide (current < earliest_available)).
Qed.

(** The loop takes one turn for each day from [current] on, as long as
    the test [current < earliest_available] holds. *)
Lemma backfill_loop_spec symbol_key current earliest_available w :
  ∃ evs,
    log (backfill_loop symbol_key current earliest_available w).2
    = (log w ++ evs)%list ∧
    omap event_day evs = seqZ current (earliest_available - current) ∧
    length evs = Z.to_nat (earliest_available - current) ∧
    (backfill_loop symbol_key current earliest_available w).1
    = current `max` earliest_available.
Proof.
  remember (Z.to_nat (earliest_available - current)) as n eqn:Hn.
  revert current w Hn. induction n as [|n IH]; intros current w Hn;
    rewrite backfill_loop_step.
  - rewrite decide_False by lia.
    exists []. rewrite app_nil_r, seqZ_nil by lia. split_and!; [done | done | done | simpl; lia].
  - rewrite decide_True by lia.
    destruct (backfill_day_log symbol_key current w) as (ev & Hev & Hday).
    destruct (IH (current + 1) (backfill_day symbol_key current w))
      as (evs & Hlog & Hdays & Hlen & Hend); [lia|].
    exists (ev :: evs). rewrite Hlog, Hev, <- app_assoc.
    split_and!; [done | | simpl; lia | lia].
    rewrite (seqZ_cons current) by lia. simpl. rewrite Hday. simpl. f_equal.
    change (list_omap Event Z event_day evs) with (omap event_day evs).
    rewrite Hdays. f_equal; lia.
Qed.

(** *** Normalization *)

Lemma astype_fold_raise e cols : foldl astype_if_present (Raise e) cols = Raise e.
Proof. induction cols as [|c cols IH]; [done|]. by simpl. Qed.

Lemma astype_fold_cells cols fr df c j :
  foldl astype_if_present (Ok fr) cols = Ok df →
  index_of c (columns fr) = Some j → c ∉ cols →
  columns df = columns fr ∧ column_cells j df = column_cells j fr.
Proof.
  revert fr. induction cols as [|col cols IH]; intros fr Hf Hc Hnin.
  - by inversion Hf.
  - apply not_elem_of_cons in Hnin as [Hne Hnin]. simpl in Hf.
    destruct (index_of col (columns fr)) as [i|] eqn:Hi.
    + destruct (convert_column astype_float64 ValueError i fr) as [fr'|e] eqn:Hconv.
      * assert (j ≠ i) as Hji.
        { intros ->. apply Hne. by rewrite (index_of_inj _ _ _ _ Hc Hi). }
        destruct (convert_column_cells _ _ _ _ _ j Hconv Hji) as [Hcols Hcells].
        destruct (IH fr' Hf) as [Hcols' Hcells']; [by rewrite Hcols | done |].
        split; congruence.
      * by rewrite astype_fold_raise in Hf.
    + by apply IH.
Qed.

Lemma astype_fold_columns cols fr df :
  foldl astype_if_present (Ok fr) cols = Ok df → columns df = columns fr.
Proof.
  revert fr. induction cols as [|col cols IH]; intros fr Hf.
  - by inversion Hf.
  - simpl in Hf. destruct (index_of col (columns fr)) as [i|] eqn:Hi.
    + destruct (convert_column astype_float64 ValueError i fr) as [fr'|e] eqn:Hconv.
      * rewrite (IH fr' Hf). unfold convert_column in Hconv.
        destruct (rmap _ (rows fr)); [|done]. by inversion Hconv.
      * by rewrite astype_fold_raise in Hf.
    + by apply IH.
Qed.

Lemma convert_column_raises conv e i fr r :
  r ∈ rows fr → conv (cell_at i r) = None → convert_column conv e i fr = Raise e.
Proof.
  intros Hr Hconv. unfold convert_column.
  destruct (rmap_raise_first (convert_at conv e i) (rows fr) r e Hr)
    as (r' & e' & _ & Hr' & ->).
  - unfold convert_at. by rewrite Hconv.
  - simpl. unfold convert_at in Hr'. destruct (conv (cell_at i r')); simpl in Hr'; congruence.
Qed.

(** A CSV whose timestamp column is absent, or holds a cell that does not
    parse, is not normalised: [convert_to_parquet] raises. *)
Lemma normalization_fails fr symbol :
  index_of "timestamp" (columns fr) = None
  ∨ (∃ j r, index_of "timestamp" (columns fr) = Some j ∧ r ∈ rows fr
            ∧ to_datetime (cell_at j r) = None) →
  ∃ e, convert (Csv fr) symbol = Raise e.
Proof.
  intros Hbad. unfold convert. cbn [read_csv rbind].
  destruct (foldl astype_if_present (Ok fr) numeric_columns) as [df|e] eqn:Hcast;
    [|by exists e].
  cbn [rbind]. unfold parse_timestamps. destruct Hbad as [Hnone | (j & r & Hj & Hr & Hparse)].
  - rewrite (astype_fold_columns _ _ _ Hcast), Hnone. by eexists.
  - destruct (astype_fold_cells _ _ _ "timestamp" j Hcast Hj timestamp_not_numeric)
      as [Hcols Hcells].
    rewrite Hcols, Hj.
    assert (cell_at j r ∈ column_cells j df) as Hin.
    { rewrite Hcells. unfold column_cells. by apply list_elem_of_fmap_2. }
    unfold column_cells in Hin. apply list_elem_of_fmap in Hin as (r' & Heq & Hr').
    rewrite (convert_column_raises to_datetime ValueError j df r' Hr') by congruence.
    by eexists.
Qed.

(** In [ingest_symbol] the exception of one day ends the loop: the days
    after it are not looked at. *)
Lemma ingest_days_stop symbol_key day rest w e w' :
  ingest_day symbol_key day w = (Raise e, w') →
  ingest_days symbol_key (day :: rest) w = (Raise e, w').
Proof. intros Hday. simpl. by rewrite Hday. Qed.

Lemma ingest_day_schema_error symbol_key day w w1 fr :
  parquet_exists day w = false →
  run_dukascopy day w = Some w1 →
  download_dir w1 !! ("s1", day) = Some (Csv fr) →
  (index_of "timestamp" (columns fr) = None
   ∨ (∃ j r, index_of "timestamp" (columns fr) = Some j ∧ r ∈ rows fr
             ∧ to_datetime (cell_at j r) = None)) →
  ∃ e, ingest_day symbol_key day w = (Raise e, mkdir_parent day w1).
Proof.
  intros Hex Hrun Hcsv Hbad. unfold ingest_day. rewrite Hex, Hrun, Hcsv. simpl.
  unfold convert_to_parquet.
destruct (normalization_fails fr symbol_key Hbad) as [e ->]. by exists e.
Qed.

End IngestFacts.

(** C2: when the partition of a day is on disk already, the loop body of
    [ingest_symbol] (and that of [ingest_symbol_backfill]) takes the
    "already ingested" branch: the fetch tool is not run, nothing is
    written, and the partition is what it was. *)
Theorem ingest_existing_day `{Pandas} `{Dukascopy} (symbol_key : string) (day : Z)
    (w : World) :
  parquet_exists day w = true →
  ingest_day symbol_key day w = (Ok (), say (AlreadyIngested day) w) ∧
  backfill_day symbol_key day w = say (AlreadyIngested day) w ∧
  output_dir (say (AlreadyIngested day) w) = output_dir w ∧
  download_dir (say (AlreadyIngested day) w) = download_dir w ∧
  fetch_calls (say (AlreadyIngested day) w) = fetch_calls w.
Proof.
  intros Hex. unfold ingest_day, backfill_day. rewrite Hex. done.
Qed.

(** Written, then AlreadyPresent: the second call on the sample world
    changes neither the partition nor the list of fetches. *)
Lemma ingest_existing_day_witness :
  log (@ingest_day pandas_ref Sample.provider "BTC" Sample.d10 Sample.fresh).2
  = [SavedDay Sample.d10] ∧
  @ingest_day pandas_ref Sample.provider "BTC" Sample.d10
    (@ingest_day pandas_ref Sample.provider "BTC" Sample.d10 Sample.fresh).2
  = (Ok (), say (AlreadyIngested Sample.d10)
              (@ingest_day pandas_ref Sample.provider "BTC" Sample.d10 Sample.fresh).2) ∧
  fetch_calls (say (AlreadyIngested Sample.d10)
                 (@ingest_day pandas_ref Sample.provider "BTC" Sample.d10 Sample.fresh).2)
  = [Sample.d10].
Proof.
  split; [vm_compute; reflexivity|].
  destruct (@ingest_existing_day pandas_ref Sample.provider "BTC" Sample.d10
              (@ingest_day pandas_ref Sample.provider "BTC" Sample.d10 Sample.fresh).2)
    as (Hingest & _ & _ & _ & Hcalls); [vm_compute; reflexivity|].
  split; [exact Hingest|]. rewrite Hcalls. vm_compute. reflexivity.
Defined.

(** C6: with no existing date, the backfill goes through the days from
    [earliest_required] up to, and not including, the cutoff, in
    ascending order, one turn of the loop per day, and leaves the loop at
    the cutoff. *)
Theorem backfill_without_history `{Pandas} `{Dukascopy} (symbol : string)
    (earliest_required cutoff : Z) (w : World) :
  ∃ evs,
    log (backfill_symbol symbol earliest_required [] cutoff w) = (log w ++ evs)%list ∧
    omap event_day evs = seqZ earliest_required (cutoff - earliest_required) ∧
    length evs = length (seqZ earliest_required (cutoff - earliest_required)) ∧
    (∀ d, d ∈ seqZ earliest_required (cutoff - earliest_required)
          ↔ earliest_required ≤ d < cutoff) ∧
    StronglySorted Z.lt (seqZ earliest_required (cutoff - earliest_required)) ∧
    (ingest_symbol_backfill symbol earliest_required cutoff w).1
    = earliest_required `max` cutoff.
Proof.
  unfold backfill_symbol, ingest_symbol_backfill.
  destruct (backfill_loop_spec symbol earliest_required cutoff w)
    as (evs & Hlog & Hdays & Hlen & Hend).
  exists evs. split_and!; [done | done | by rewrite length_seqZ | | | done].
  - intros d. rewrite elem_of_seqZ. lia.
  - generalize (cutoff - earliest_required) as n. intros n.
    destruct (Z.le_gt_cases n 0) as [Hn|Hn]; [rewrite seqZ_nil by done; constructor|].
    rewrite <- (Z2Nat.id n) by lia. generalize (Z.to_nat n) as k. clear.
    intros k. revert earliest_required. induction k as [|k IH]; intros m.
    + rewrite seqZ_nil by done. constructor.
    + rewrite seqZ_cons by lia. constructor.
      * replace (Z.pred (Z.of_nat (S k))) with (Z.of_nat k) by lia. apply IH.
      * apply Forall_forall. intros x Hx%elem_of_seqZ. lia.
Qed.


(** C7: a day for which the fetch leaves no CSV, or a zero-size one,
    under the name it writes ([-t s1]) is "no data": [ingest_symbol]
    reports the day as not found, no exception leaves the loop body, the
    partitions on disk are what they were, and the loop goes on to the
    next day in the state the day left.  [ingest_symbol_backfill] looks
    for the CSV under the [m1] name, which the fetch does not write, and
    does the same whenever [download/] holds no file under that name. *)
Theorem no_data_is_not_an_error `{Pandas} `{Dukascopy} (symbol_key : string) (day : Z)
    (rest : list Z) (earliest_available : Z) (files : Downloads) (w : World) :
  parquet_exists day w = false →
  dukascopy_node day (download_dir w) = Some files →
  from_option st_size_is_zero true (files !! ("s1", day)) = true →
  ∃ w',
    w' = say (NoCsv day) (mkWorld (output_dir w) files (fetch_calls w ++ [day])%list (log w)) ∧
    output_dir w' = output_dir w ∧
    ingest_day symbol_key day w = (Ok (), w') ∧
    ingest_days symbol_key (day :: rest) w = ingest_days symbol_key rest w' ∧
    (files !! ("m1", day) = None →
     backfill_day symbol_key day w = w' ∧
     (day < earliest_available →
      backfill_loop symbol_key day earliest_available w
      = backfill_loop symbol_key (day + 1) earliest_available w')).
Proof.
  intros Hex Hfetch Hs1.
  assert (run_dukascopy day w
          = Some (mkWorld (output_dir w) files (fetch_calls w ++ [day])%list (log w)))
    as Hrun by (unfold run_dukascopy; by rewrite Hfetch).
  destruct (ingest_day_no_data symbol_key day w _ Hex Hrun Hs1) as [Hday Hout].
  eexists. split; [reflexivity|]. split_and!; [done | done | |].
  - simpl. by rewrite Hday.
  - intros Hm1.
    assert (backfill_day symbol_key day w
            = say (NoCsv day)
                  (mkWorld (output_dir w) files (fetch_calls w ++ [day])%list (log w)))
      as Hback.
    { unfold backfill_day. rewrite Hex, Hrun. simpl. by rewrite Hm1. }
    split; [done|].
    intros Hlt. rewrite backfill_loop_step, decide_True by done. by rewrite Hback.
Qed.

Lemma no_data_is_not_an_error_witness :
  @ingest_day pandas_ref Sample.provider "BTC" Sample.d14 Sample.fresh
  = (Ok (), mkWorld ∅ {[ ("s1", Sample.d14) := EmptyFile ]} [Sample.d14]
                    [NoCsv Sample.d14]) ∧
  @backfill_day pandas_ref Sample.provider "BTC" Sample.d14 Sample.fresh
  = mkWorld ∅ {[ ("s1", Sample.d14) := EmptyFile ]} [Sample.d14] [NoCsv Sample.d14].
Proof.
  destruct (@no_data_is_not_an_error pandas_ref Sample.provider "BTC" Sample.d14 []
              Sample.d15 {[ ("s1", Sample.d14) := EmptyFile ]} Sample.fresh)
    as (w' & Hw' & _ & Hingest & _ & Hbackfill).
  - reflexivity.
  - vm_compute. reflexivity.
  - reflexivity.
  - destruct (Hbackfill eq_refl) as [Hday _].
    rewrite Hw' in Hingest, Hday. split; [exact Hingest | exact Hday].
Defined.

(** C8: a CSV without timestamp column makes [convert_to_parquet] raise
    [KeyError]; [ingest_symbol] catches [CalledProcessError] alone, so the
    exception leaves the loop and the days after it are not attempted
    (here 2024-05-14 and 2024-05-15), whereas [ingest_symbol_backfill],
    which catches [Exception], reports the day and goes on. *)
Theorem schema_error_stops_ingest_symbol :
  @convert pandas_ref Sample.csv_without_timestamp "BTC" = Raise (KeyError "timestamp") ∧
  (@ingest_symbol pandas_ref Sample.provider "BTC" Sample.d10 (Some Sample.d13) Sample.d15
     Sample.fresh).1 = Raise (KeyError "timestamp") ∧
  fetch_calls (@ingest_symbol pandas_ref Sample.provider "BTC" Sample.d10 (Some Sample.d13)
                 Sample.d15 Sample.fresh).2 = [Sample.d13] ∧
  daterange Sample.d13 Sample.d15 = [Sample.d13; Sample.d14; Sample.d15] ∧
  log (@ingest_symbol_backfill pandas_ref Sample.silent_provider "BTC" Sample.d13
         (Sample.d15 + 1) Sample.bad_csv).2
  = [ErrorOn Sample.d13 (KeyError "timestamp"); NoCsv Sample.d14; NoCsv Sample.d15].
Proof. split_and!; vm_compute; reflexivity. Qed.

(** Without the bad day the same call of [ingest_symbol] goes through
    every day of the range. *)
Example ingest_symbol_goes_on_after_other_outcomes :
  @ingest_symbol pandas_ref Sample.provider "BTC" Sample.d10 (Some Sample.d10) Sample.d12
    Sample.fresh
  = (Ok (),
     mkWorld {[ Sample.d10 :=
                  Some (Table (mkFrame canonical_columns
                     [[CStr "BTC"; CTime (Sample.at_ Sample.d10 0);
                       CInt (Sample.d10 * 86400);
                       CFloat (f64_of_Z 1); CFloat (f64_of_Z 2); CFloat (f64_of_Z 3);
                       CFloat (f64_of_Z 4); CFloat (f64_of_Z 7)]])) ]}
             {[ ("s1", Sample.d10) := Sample.csv_of_day Sample.d10 ]}
             [Sample.d10; Sample.d11; Sample.d12]
             [SavedDay Sample.d10; NoCsv Sample.d11; DukascopyFailed Sample.d12]).
Proof. vm_compute. reflexivity. Qed.

(** The normalizer accepts a CSV without [volume]; the partition it
    writes is the one of [Sample.no_volume], which the consolidation
    rejects. *)
Example normalizer_tolerates_missing_volume :
  @convert pandas_ref
    (Csv (mkFrame ["timestamp"; "open"; "high"; "low"; "close"]
                  [[CInt (Sample.d10 * 1440); CInt 1; CInt 2; CInt 3; CInt 4]])) "BTC"
  = Ok (mkFrame ["symbol"; "timestamp"; "unix_time"; "open"; "high"; "low"; "close"]
                [[CStr "BTC"; CTime (Sample.at_ Sample.d10 0); CInt (Sample.d10 * 86400);
                  CFloat (f64_of_Z 1); CFloat (f64_of_Z 2); CFloat (f64_of_Z 3);
                  CFloat (f64_of_Z 4)]]).
Proof. vm_compute. reflexivity. Qed.


(** ** Writes *)

(** C5 (as amended): every partition write, daily or yearly, is made at
    the final path itself; there is no temporary file and no publish
    step.  A write that completes leaves the whole table there and
    touches no other partition; while it is in progress, or after a crash
    during it, the final path holds a partial file, which has replaced
    the previous partition and passes the existence test of the ingest
    loop. *)
Theorem writes_are_made_in_place `{Polars} (p : WriteProgress) (fr : Frame) (y : Z)
    (st : Store) (day : Z) (w : World) :
  yearly (write_parquet p fr y st) !! y = Some (file_at p fr) ∧
  delete y (yearly (write_parquet p fr y st)) = delete y (yearly st) ∧
  daily (write_parquet p fr y st) = daily st ∧
  output_dir (to_parquet p fr day w) !! day = Some (Some (file_at p fr)) ∧
  delete day (output_dir (to_parquet p fr day w)) = delete day (output_dir w) ∧
  parquet_exists day (to_parquet p fr day w) = true ∧
  file_at Streaming fr = Corrupt ∧
  file_at Closed fr = Table fr ∧
  ((process_symbol_year y st).2 = st
   ∨ ∃ final, (process_symbol_year y st).2 = write_parquet Closed final y st).
Proof.
  split_and!; try done.
  - simpl. apply lookup_insert_eq.
  - simpl. apply delete_insert_eq.
  - simpl. apply lookup_insert_eq.
  - simpl. apply delete_insert_eq.
  - unfold parquet_exists. simpl. by rewrite lookup_insert_eq.
  - unfold process_symbol_year.
    destruct (get_daily_files_to_process y _ st); [by left|].
    destruct (consolidate_frames y _ st) as [final|]; [right; by exists final | by left].
Qed.

(** C5 as stated fails: a crash while the yearly file is being rewritten
    leaves a partial file where the previous partition was, and a partial
    daily file is taken for an ingested day by the next run. *)
Lemma crash_during_write_is_visible :
  yearly Sample.consolidated !! 2024
  = Some (Table (mkFrame canonical_columns [bar "BTC" (Sample.at_ Sample.d10 0) 1 2 3 4 7])) ∧
  yearly (write_parquet Streaming
            (mkFrame canonical_columns [bar "BTC" (Sample.at_ Sample.d10 0) 1 2 3 4 7;
                                        bar "BTC" (Sample.at_ Sample.d11 0) 1 2 3 4 7])
            2024 Sample.consolidated) !! 2024
  = Some Corrupt ∧
  @ingest_day pandas_ref Sample.provider "BTC" Sample.d10
    (to_parquet Streaming (mkFrame canonical_columns []) Sample.d10 Sample.fresh)
  = (Ok (), mkWorld {[ Sample.d10 := Some Corrupt ]} ∅ [] [AlreadyIngested Sample.d10]).
Proof. split_and!; vm_compute; reflexivity. Qed.

(** ** Metadata *)


Section MetadataFacts.
Context `{Polars}.
Variables (now_year today : Z).



End MetadataFacts.





(** * Further properties *)

(** ** Date ranges and the newest ingested day *)

Lemma seqZ_ascending m n : StronglySorted Z.lt (seqZ m n).
Proof.
  destruct (Z.le_gt_cases n 0) as [Hn|Hn]; [rewrite seqZ_nil by done; constructor|].
  rewrite <- (Z2Nat.id n) by lia. generalize (Z.to_nat n) as k. clear.
  intros k. revert m. induction k as [|k IH]; intros m.
  - rewrite seqZ_nil by done. constructor.
  - rewrite seqZ_cons by lia. constructor.
    + replace (Z.pred (Z.of_nat (S k))) with (Z.of_nat k) by lia. apply IH.
    + apply Forall_forall. intros x Hx%elem_of_seqZ. lia.
Qed.

Lemma daterange_step start end_ :
  daterange start end_
  = if decide (start ≤ end_) then start :: daterange (start + 1) end_ else [].
Proof. rewrite daterange_equation_1. by destruct (decide (start ≤ end_)). Qed.

(** The generator yields a day for as long as its test [start <= end]
    holds, by induction on the distance between the two. *)
Lemma daterange_seqZ start end_ :
  daterange start end_ = seqZ start (end_ - start + 1).
Proof.
  remember (Z.to_nat (end_ - start + 1)) as n eqn:Hn. revert start Hn.
  induction n as [|n IH]; intros start Hn; rewrite daterange_step.
  - rewrite decide_False by lia. by rewrite seqZ_nil by lia.
  - rewrite decide_True by lia. rewrite (seqZ_cons start) by lia. f_equal.
    rewrite IH by lia. f_equal; lia.
Qed.

(** [daterange(start, end)] yields the days from [start] to [end], both
    included, in ascending order, and nothing when [start > end]. *)
Theorem daterange_is_the_closed_interval (start end_ : Z) :
  daterange start end_ = seqZ start (end_ - start + 1) ∧
  (∀ d, d ∈ daterange start end_ ↔ start ≤ d ≤ end_) ∧
  StronglySorted Z.lt (daterange start end_) ∧
  length (daterange start end_) = Z.to_nat (end_ - start + 1).
Proof.
  pose proof (daterange_seqZ start end_) as Heq.
  rewrite Heq. split_and!; [done | | apply seqZ_ascending | apply length_seqZ].
  intros d. rewrite elem_of_seqZ. lia.
Qed.

Lemma newest_of_list (l : list Z) :
  match foldr (λ d acc, match acc with Some m => Some (d `max` m) | None => Some d end)
              None l with
  | Some m => m ∈ l ∧ ∀ d, d ∈ l → d ≤ m
  | None => l = []
  end.
Proof.
  induction l as [|x l IH]; [done|]. simpl.
  destruct (foldr _ None l) as [m|].
  - destruct IH as [Hm Hmax]. split.
    + destruct (Z.max_spec x m) as [[_ ->]|[_ ->]]; [by right | by left].
    + intros d [->|Hd]%elem_of_cons; [lia|]. specialize (Hmax d Hd). lia.
  - subst l. split; [by left|]. by intros d ->%list_elem_of_singleton.
Qed.

Lemma elem_of_existing_days (w : World) d :
  d ∈ omap (λ '(d, date_dir), match date_dir : option ParquetFile with
                              | Some _ => Some d
                              | None => None
                              end) (map_to_list (output_dir w))
  ↔ parquet_exists d w = true.
Proof.
  rewrite list_elem_of_omap. unfold parquet_exists. split.
  - intros ([d' e] & Hin & Hsel). apply elem_of_map_to_list in Hin.
    destruct e as [f|]; [|done]. inversion Hsel; subst. by rewrite Hin.
  - destruct (output_dir w !! d) as [[f|]|] eqn:Hd; try done. intros _.
    exists (d, Some f). split; [by apply elem_of_map_to_list | done].
Qed.

(** [newest_parquet_date] is the latest day whose parquet file exists, and
    [None] exactly when no day has one (a [date=D] directory without its
    file does not count). *)
Theorem newest_parquet_date_is_the_latest (w : World) :
  match newest_parquet_date w with
  | Some latest => parquet_exists latest w = true
                   ∧ ∀ d, parquet_exists d w = true → d ≤ latest
  | None => ∀ d, parquet_exists d w = false
  end.
Proof.
  unfold newest_parquet_date.
  pose proof (newest_of_list
    (omap (λ '(d, date_dir), match date_dir : option ParquetFile with
                             | Some _ => Some d
                             | None => None
                             end) (map_to_list (output_dir w)))) as Hnew.
  destruct (foldr _ None _) as [m|].
  - destruct Hnew as [Hm Hmax]. split; [by apply elem_of_existing_days|].
    intros d Hd. by apply Hmax, elem_of_existing_days.
  - intros d. destruct (parquet_exists d w) eqn:Hd; [|done].
    apply elem_of_existing_days in Hd. rewrite Hnew in Hd. by apply elem_of_nil in Hd.
Qed.


(** ** The ingest loops *)

Lemma parquet_exists_say ev d w : parquet_exists d (say ev w) = parquet_exists d w.
Proof. done. Qed.

Lemma mkdir_parent_lookup day w d :
  d ≠ day ∨ is_Some (output_dir w !! day) →
  output_dir (mkdir_parent day w) !! d = output_dir w !! d.
Proof.
  unfold mkdir_parent. intros Hd. destruct (output_dir w !! day) eqn:Hday; [done|].
  simpl. destruct Hd as [Hne|[x Hx]]; [|done]. by rewrite lookup_insert_ne.
Qed.

Section IngestLoops.
Context `{Pandas} `{Dukascopy}.

Lemma run_dukascopy_spec day w w1 :
  run_dukascopy day w = Some w1 →
  output_dir w1 = output_dir w ∧ fetch_calls w1 = (fetch_calls w ++ [day])%list
  ∧ log w1 = log w.
Proof.
  unfold run_dukascopy. destruct (dukascopy_node day _); [|done]. by intros [= <-].
Qed.

(** What one turn of either loop does to the partitions: the day it is
    at may gain a directory or a file; every other day is left alone. *)
Lemma ingest_day_other symbol_key day w d :
  d ≠ day → output_dir (ingest_day symbol_key day w).2 !! d = output_dir w !! d.
Proof.
  intros Hne. unfold ingest_day. destruct (parquet_exists day w); [done|].
  destruct (run_dukascopy day w) as [w1|] eqn:Hrun; [|done].
  destruct (run_dukascopy_spec day w w1 Hrun) as (Hout & _ & _).
  destruct (download_dir w1 !! ("s1", day)) as [csv|]; [|by rewrite <- Hout].
  destruct (st_size_is_zero csv); [by rewrite <- Hout|].
  unfold convert_to_parquet. destruct (convert csv symbol_key); simpl.
  - rewrite lookup_insert_ne by done. rewrite mkdir_parent_lookup by (by left).
    by rewrite Hout.
  - rewrite mkdir_parent_lookup by (by left). by rewrite Hout.
Qed.

Lemma backfill_day_other symbol_key day w d :
  d ≠ day → output_dir (backfill_day symbol_key day w) !! d = output_dir w !! d.
Proof.
  intros Hne. unfold backfill_day. destruct (parquet_exists day w); [done|].
  destruct (run_dukascopy day w) as [w1|] eqn:Hrun; [|done].
  destruct (run_dukascopy_spec day w w1 Hrun) as (Hout & _ & _).
  destruct (download_dir w1 !! ("m1", day)) as [csv|]; [|by rewrite <- Hout].
  unfold convert_to_parquet. destruct (convert csv symbol_key); simpl.
  - rewrite lookup_insert_ne by done. rewrite mkdir_parent_lookup by (by left).
    by rewrite Hout.
  - rewrite mkdir_parent_lookup by (by left). by rewrite Hout.
Qed.

Lemma ingest_day_keeps symbol_key day w d f :
  output_dir w !! d = Some (Some f) →
  output_dir (ingest_day symbol_key day w).2 !! d = Some (Some f).
Proof.
  intros Hd. destruct (decide (d = day)) as [->|Hne].
  - unfold ingest_day, parquet_exists. by rewrite Hd.
  - by rewrite ingest_day_other.
Qed.

Lemma backfill_day_keeps symbol_key day w d f :
  output_dir w !! d = Some (Some f) →
  output_dir (backfill_day symbol_key day w) !! d = Some (Some f).
Proof.
  intros Hd. destruct (decide (d = day)) as [->|Hne].
  - unfold backfill_day, parquet_exists. by rewrite Hd.
  - by rewrite backfill_day_other.
Qed.

Lemma ingest_days_keeps symbol_key days w d f :
  output_dir w !! d = Some (Some f) →
  output_dir (ingest_days symbol_key days w).2 !! d = Some (Some f).
Proof.
  revert w. induction days as [|day days IH]; intros w Hd; [done|]. simpl.
  pose proof (ingest_day_keeps symbol_key day w d f Hd) as Hstep.
  destruct (ingest_day symbol_key day w) as [[[]|e] w1]; simpl in *; [by apply IH | done].
Qed.

Lemma backfill_loop_keeps symbol_key current earliest_available w d f :
  output_dir w !! d = Some (Some f) →
  output_dir (backfill_loop symbol_key current earliest_available w).2 !! d
  = Some (Some f).
Proof.
  remember (Z.to_nat (earliest_available - current)) as n eqn:Hn. revert current w Hn.
  induction n as [|n IH]; intros current w Hn Hd; rewrite backfill_loop_step.
  - by rewrite decide_False by lia.
  - rewrite decide_True by lia. apply IH; [lia|]. by apply backfill_day_keeps.
Qed.

Lemma ingest_day_log symbol_key day w :
  (ingest_day symbol_key day w).1 = Ok () →
  ∃ ev, log (ingest_day symbol_key day w).2 = (log w ++ [ev])%list
        ∧ event_day ev = Some day.
Proof.
  unfold ingest_day. destruct (parquet_exists day w); [by eexists|].
  destruct (run_dukascopy day w) as [w1|] eqn:Hrun; [|by eexists].
  destruct (run_dukascopy_spec day w w1 Hrun) as (_ & _ & Hlog). rewrite <- Hlog.
  destruct (download_dir w1 !! ("s1", day)) as [csv|]; [|by eexists].
  destruct (st_size_is_zero csv); [by eexists|].
  unfold convert_to_parquet. destruct (convert csv symbol_key); simpl; [|done].
  intros _. exists (SavedDay day). split; [|done]. unfold mkdir_parent.
  by destruct (output_dir w1 !! day).
Qed.

Lemma ingest_days_log symbol_key days w :
  (ingest_days symbol_key days w).1 = Ok () →
  ∃ evs, log (ingest_days symbol_key days w).2 = (log w ++ evs)%list
         ∧ omap event_day evs = days.
Proof.
  revert w. induction days as [|day days IH]; intros w Hok.
  - exists []. by rewrite app_nil_r.
  - simpl in *. pose proof (ingest_day_log symbol_key day w) as Hstep.
    destruct (ingest_day symbol_key day w) as [[[]|e] w1]; simpl in *; [|done].
    destruct Hstep as (ev & Hev & Hday); [done|].
    destruct (IH w1 Hok) as (evs & Hlog & Hdays).
    exists (ev :: evs). rewrite Hlog, Hev, <- app_assoc. split; [done|].
    simpl. rewrite Hday. simpl. f_equal. exact Hdays.
Qed.

End IngestLoops.

(** The forward gap of the nightly run: [ingest_symbol] starts at the
    override, or the day after the newest ingested day, or the earliest
    date of the instrument, never before that earliest date.  A run that
    returns has gone through every day from there to [end_date], both
    included, in ascending order, one loop turn each; when the start is
    past [end_date] it only prints "up-to-date". *)
Theorem ingest_symbol_forward_gap `{Pandas} `{Dukascopy} (symbol_key : string)
    (earliest_date : Z) (start_override : option Z) (end_date : Z) (w : World) :
  (ingest_symbol symbol_key earliest_date start_override end_date w).1 = Ok () →
  ∃ start_date evs,
    start_date
    = (match start_override with
       | Some s => s
       | None => match newest_parquet_date w with
                 | Some latest => latest + 1
                 | None => earliest_date
                 end
       end) `max` earliest_date ∧
    log (ingest_symbol symbol_key earliest_date start_override end_date w).2
    = (log w ++ evs)%list ∧
    (if end_date <? start_date then evs = [UpToDate]
     else omap event_day evs = seqZ start_date (end_date - start_date + 1)).
Proof.
  unfold ingest_symbol. intros Hok. eexists. 
  set (start_date := _ `max` earliest_date) in *.
  destruct (end_date <? start_date) eqn:Hcmp.
  - exists [UpToDate]. split_and!; [reflexivity | done | ].
    fold start_date. by rewrite Hcmp.
  - destruct (ingest_days_log symbol_key _ w Hok) as (evs & Hlog & Hdays).
    exists evs. split_and!; [reflexivity | done |].
    fold start_date. rewrite Hcmp, Hdays. apply daterange_seqZ.
Qed.

Lemma ingest_symbol_forward_gap_witness :
  ∃ start_date evs,
    start_date = (Sample.d10 `max` Sample.d10) ∧
    log (@ingest_symbol pandas_ref Sample.provider "BTC" Sample.d10 (Some Sample.d10)
           Sample.d12 Sample.fresh).2 = ([] ++ evs)%list ∧
    (if Sample.d12 <? start_date then evs = [UpToDate]
     else omap event_day evs = seqZ start_date (Sample.d12 - start_date + 1)).
Proof.
  apply (@ingest_symbol_forward_gap pandas_ref Sample.provider "BTC" Sample.d10
           (Some Sample.d10) Sample.d12 Sample.fresh).
  vm_compute. reflexivity.
Defined.

(** Ingestion is append-only: neither [ingest_symbol] nor
    [ingest_symbol_backfill] changes or removes a daily partition that is
    already on disk, whatever the provider returns and whether or not the
    run raises. *)
Theorem ingestion_keeps_existing_partitions `{Pandas} `{Dukascopy} (symbol_key : string)
    (earliest_date : Z) (start_override : option Z) (end_date : Z)
    (earliest_required earliest_available : Z) (w : World) (d : Z) (f : ParquetFile) :
  output_dir w !! d = Some (Some f) →
  output_dir (ingest_symbol symbol_key earliest_date start_override end_date w).2 !! d
  = Some (Some f) ∧
  output_dir (ingest_symbol_backfill symbol_key earliest_required earliest_available w).2 !! d
  = Some (Some f).
Proof.
  intros Hd. split.
  - unfold ingest_symbol. destruct (end_date <? _); [done|]. by apply ingest_days_keeps.
  - unfold ingest_symbol_backfill. by apply backfill_loop_keeps.
Qed.

Lemma ingestion_keeps_existing_partitions_witness :
  output_dir (@ingest_symbol pandas_ref Sample.provider "BTC" Sample.d10 (Some Sample.d10)
                Sample.d15
                (to_parquet Closed (mkFrame canonical_columns []) Sample.d11 Sample.fresh)).2
    !! Sample.d11 = Some (Some (Table (mkFrame canonical_columns []))) ∧
  output_dir (@ingest_symbol_backfill pandas_ref Sample.provider "BTC" Sample.d10
                Sample.d15
                (to_parquet Closed (mkFrame canonical_columns []) Sample.d11 Sample.fresh)).2
    !! Sample.d11 = Some (Some (Table (mkFrame canonical_columns []))).
Proof.
  apply (@ingestion_keeps_existing_partitions pandas_ref Sample.provider).
  vm_compute. reflexivity.
Defined.


Lemma filter_ext_elem {A} (P Q : A → Prop) `{∀ x, Decision (P x)} `{∀ x, Decision (Q x)}
    (l : list A) :
  (∀ x, x ∈ l → P x ↔ Q x) → filter P l = filter Q l.
Proof.
  induction l as [|a l IH]; intros Hext; [done|].
  rewrite !filter_cons. rewrite IH by (intros x Hx; apply Hext; by right).
  destruct (decide (P a)) as [Hp|Hp], (decide (Q a)) as [Hq|Hq]; try done.
  - destruct Hq. by apply (Hext a); [left|].
  - destruct Hp. by apply (Hext a); [left|].
Qed.

Section BackfillFetches.
Context `{Pandas} `{Dukascopy}.

Lemma backfill_day_fetch symbol_key current w :
  fetch_calls (backfill_day symbol_key current w)
  = (fetch_calls w ++ if parquet_exists current w then [] else [current])%list.
Proof.
  unfold backfill_day. destruct (parquet_exists current w); [by rewrite app_nil_r|].
  destruct (run_dukascopy current w) as [w1|] eqn:Hrun; [|done].
  destruct (run_dukascopy_spec current w w1 Hrun) as (_ & Hcalls & _). rewrite <- Hcalls.
  destruct (download_dir w1 !! ("m1", current)) as [csv|]; [|done].
  unfold convert_to_parquet, mkdir_parent.
  destruct (convert csv symbol_key); simpl; by destruct (output_dir w1 !! current).
Qed.

Lemma backfill_day_exists_other symbol_key current w d :
  d ≠ current →
  parquet_exists d (backfill_day symbol_key current w) = parquet_exists d w.
Proof. intros Hne. unfold parquet_exists. by rewrite backfill_day_other. Qed.

End BackfillFetches.

(** The backfill runs the fetch tool once for each day of
    [earliest_required, earliest_available) that has no parquet file when
    it starts, in ascending order, and for no other day. *)
Theorem backfill_fetches_the_missing_days `{Pandas} `{Dukascopy} (symbol_key : string)
    (earliest_required earliest_available : Z) (w : World) :
  fetch_calls (ingest_symbol_backfill symbol_key earliest_required earliest_available w).2
  = (fetch_calls w
     ++ filter (λ d, parquet_exists d w = false)
               (seqZ earliest_required (earliest_available - earliest_required)))%list.
Proof.
  unfold ingest_symbol_backfill.
  remember (Z.to_nat (earliest_available - earliest_required)) as n eqn:Hn.
  revert earliest_required w Hn.
  induction n as [|n IH]; intros current w Hn; rewrite backfill_loop_step.
  - rewrite decide_False by lia. by rewrite seqZ_nil, app_nil_r by lia.
  - rewrite decide_True by lia.
    rewrite IH by lia. rewrite backfill_day_fetch, <- app_assoc. f_equal.
    rewrite (seqZ_cons current) by lia.
    replace (Z.pred (earliest_available - current))
      with (earliest_available - (current + 1)) by lia.
    replace (Z.succ current) with (current + 1) by lia.
    assert (filter (λ d, parquet_exists d (backfill_day symbol_key current w) = false)
                   (seqZ (current + 1) (earliest_available - (current + 1)))
            = filter (λ d, parquet_exists d w = false)
                     (seqZ (current + 1) (earliest_available - (current + 1)))) as ->.
    { apply filter_ext_elem. intros d Hd%elem_of_seqZ.
      rewrite backfill_day_exists_other by lia. done. }
    rewrite filter_cons. destruct (parquet_exists current w).
    + by rewrite decide_False by done.
    + by rewrite decide_True by done.
Qed.

Lemma foldr_min_lower d ds x : x ∈ d :: ds → foldr Z.min d ds ≤ x.
Proof.
  induction ds as [|y ds IH]; simpl.
  - intros ->%list_elem_of_singleton. lia.
  - intros Hx. apply elem_of_cons in Hx as [Hx|Hx].
    + assert (foldr Z.min d ds ≤ x) by (apply IH; subst; by left). lia.
    + apply elem_of_cons in Hx as [Hx|Hx]; [lia|].
      assert (foldr Z.min d ds ≤ x) by (apply IH; by right). lia.
Qed.

(** With some history already stored, [main] of [backfill_missing.py]
    fills the head only: it goes through the days from the earliest
    required date up to, not including, the earliest stored date, and
    does nothing when the earliest stored date is not later than the
    required one.  No day on or after the earliest stored date is looked
    at, so a hole inside the stored range stays. *)
Theorem backfill_fills_the_head_only `{Pandas} `{Dukascopy} (symbol : string)
    (earliest_required : Z) (d : Z) (ds : list Z) (today : Z) (w : World) :
  ∃ evs,
    log (backfill_symbol symbol earliest_required (d :: ds) today w) = (log w ++ evs)%list ∧
    omap event_day evs
    = seqZ earliest_required (foldr Z.min d ds - earliest_required) ∧
    (∀ x, x ∈ d :: ds → foldr Z.min d ds ≤ x) ∧
    (∀ x, x ∈ omap event_day evs → earliest_required ≤ x < foldr Z.min d ds) ∧
    (foldr Z.min d ds ≤ earliest_required →
     backfill_symbol symbol earliest_required (d :: ds) today w = w).
Proof.
  unfold backfill_symbol.
  destruct (Z.ltb_spec earliest_required (foldr Z.min d ds)) as [Hlt|Hge].
  - unfold ingest_symbol_backfill.
    destruct (backfill_loop_spec symbol earliest_required (foldr Z.min d ds) w)
      as (evs & Hlog & Hdays & _ & _).
    exists evs. split_and!; [done | done | apply foldr_min_lower | | lia].
    intros x. rewrite Hdays, elem_of_seqZ. lia.
  - exists []. rewrite app_nil_r, seqZ_nil by lia.
    split_and!; [done | done | apply foldr_min_lower | | done].
    intros x Hx. by apply elem_of_nil in Hx.
Qed.


(** ** The normalizer *)

Lemma index_of_lookup c cols i : index_of c cols = Some i → cols !! i = Some c.
Proof.
  revert i. induction cols as [|h cols IH]; intros i Hi; [done|]. simpl in Hi.
  destruct (decide (h = c)) as [->|Hne]; [by inversion Hi|].
  destruct (index_of c cols) as [j|]; [|done]. inversion Hi; subst. by apply IH.
Qed.

Lemma index_of_app_l c cols more i :
  index_of c cols = Some i → index_of c (cols ++ more)%list = Some i.
Proof.
  revert i. induction cols as [|h cols IH]; intros i Hi; [done|]. simpl in *.
  destruct (decide (h = c)); [done|].
  destruct (index_of c cols) as [j|]; [|done]. by rewrite (IH j).
Qed.

Lemma index_of_app_last c cols :
  index_of c cols = None → index_of c (cols ++ [c])%list = Some (length cols).
Proof.
  induction cols as [|h cols IH]; intros Hi; simpl.
  - by rewrite decide_True.
  - simpl in Hi. destruct (decide (h = c)); [done|].
    destruct (index_of c cols); [done|]. by rewrite IH.
Qed.

Lemma index_of_app_other c c' cols :
  c ≠ c' → index_of c cols = None → index_of c (cols ++ [c'])%list = None.
Proof.
  intros Hne. induction cols as [|h cols IH]; intros Hi; simpl.
  - by rewrite decide_False.
  - simpl in Hi. destruct (decide (h = c)); [done|].
    destruct (index_of c cols); [done|]. by rewrite IH.
Qed.

Lemma pop_insert_last {A} (h x : A) (l : list A) (t : nat) :
  pop_insert (S (length l)) (S (S t)) (h :: l ++ [x])
  = (h :: take (S t) l ++ x :: drop (S t) l)%list.
Proof.
  unfold pop_insert.
  assert ((h :: l ++ [x]) !! S (length l) = Some x) as ->.
  { simpl. rewrite lookup_app_r by done. by rewrite Nat.sub_diag. }
  assert (delete (S (length l)) (h :: l ++ [x]) = h :: l) as ->.
  { simpl. f_equal. induction l as [|a l IH]; [done|]. simpl. by f_equal. }
  done.
Qed.

Section NormalizerFacts.
Context `{Pandas}.

Lemma convert_column_wf conv e i fr g n :
  convert_column conv e i fr = Ok g →
  Forall (λ r, length r = n) (rows fr) →
  columns g = columns fr ∧ Forall (λ r, length r = n) (rows g)
  ∧ length (rows g) = length (rows fr).
Proof.
  unfold convert_column. destruct (rmap _ (rows fr)) as [rs|] eqn:Hr; [|done].
  intros [= <-] Hwf. simpl. apply rmap_ok in Hr. split; [done|].
  induction Hr as [|r r' l l' Hrr' _ IH]; [by split|].
  apply Forall_cons in Hwf as [Hr0 Hwf]. destruct (IH Hwf) as [IH1 IH2].
  split; [|simpl; by f_equal]. constructor; [|done].
  unfold convert_at in Hrr'. destruct (conv (cell_at i r)); [|done].
  inversion Hrr'. by rewrite length_insert.
Qed.

Lemma astype_fold_wf cols fr df n :
  foldl astype_if_present (Ok fr) cols = Ok df →
  Forall (λ r, length r = n) (rows fr) →
  columns df = columns fr ∧ Forall (λ r, length r = n) (rows df)
  ∧ length (rows df) = length (rows fr).
Proof.
  revert fr. induction cols as [|col cols IH]; intros fr Hf Hwf.
  - inversion Hf; subst. by split_and!.
  - simpl in Hf. destruct (index_of col (columns fr)) as [i|].
    + destruct (convert_column astype_float64 ValueError i fr) as [fr'|e] eqn:Hconv.
      * destruct (convert_column_wf _ _ _ _ _ n Hconv Hwf) as (Hc & Hw & Hl).
        destruct (IH fr' Hf Hw) as (Hc' & Hw' & Hl'). split_and!; [|done|]; congruence.
      * by rewrite astype_fold_raise in Hf.
    + by apply IH.
Qed.

(** The steps of [convert_to_parquet] before [df.insert]: the frame that
    reaches it has the columns of the CSV, plus [unix_time] when the CSV
    had none. *)
Lemma before_insert_symbol fr df1 df2 df3 :
  foldl astype_if_present (Ok fr) numeric_columns = Ok df1 →
  parse_timestamps df1 = Ok df2 → add_unix_time df2 = Ok df3 →
  columns df3 = match index_of "unix_time" (columns fr) with
                | Some _ => columns fr
                | None => (columns fr ++ ["unix_time"])%list
                end.
Proof.
  intros H1 H2 H3. apply astype_fold_columns in H1.
  unfold parse_timestamps in H2.
  destruct (index_of "timestamp" (columns df1)) as [t|]; [|done].
  apply convert_column_columns in H2.
  unfold add_unix_time in H3. rewrite H2, H1 in H3.
  destruct (index_of "timestamp" (columns fr)) as [t'|]; [|done].
  destruct (rmap _ (rows df2)) as [rs|]; [|done]. simpl in H3. by inversion H3.
Qed.

End NormalizerFacts.

(** What the normalizer writes for a CSV with a timestamp column and
    neither a [symbol] nor a [unix_time] column: the columns of the CSV
    with [symbol] put first and [unix_time] right after [timestamp], as
    many rows as the CSV had, and in every row the symbol in front and
    [unix_time] equal to the whole seconds of the row's own timestamp. *)
Theorem normalized_frame_shape `{Pandas} (fr df : Frame) (symbol : string) (t : nat) :
  index_of "timestamp" (columns fr) = Some t →
  index_of "unix_time" (columns fr) = None →
  index_of "symbol" (columns fr) = None →
  Forall (λ r, length r = length (columns fr)) (rows fr) →
  convert (Csv fr) symbol = Ok df →
  columns df
  = ("symbol" :: take (S t) (columns fr) ++ "unix_time" :: drop (S t) (columns fr))%list ∧
  length (rows df) = length (rows fr) ∧
  ∀ r, r ∈ rows df →
       length r = length (columns df) ∧
       cell_at 0 r = CStr symbol ∧
       to_unix_time (cell_at (S t) r) = Some (cell_at (S (S t)) r).
Proof.
  intros Ht Hu Hs Hwf. unfold convert. cbn [read_csv rbind].
  destruct (foldl astype_if_present (Ok fr) numeric_columns) as [df1|] eqn:H1; [|done].
  cbn [rbind]. destruct (astype_fold_wf _ _ _ _ H1 Hwf) as (Hc1 & Hwf1 & Hl1).
  unfold parse_timestamps. rewrite Hc1, Ht.
  destruct (convert_column to_datetime ValueError t df1) as [df2|] eqn:H2; [|done].
  cbn [rbind]. destruct (convert_column_wf _ _ _ _ _ _ H2 Hwf1) as (Hc2 & Hwf2 & Hl2).
  unfold add_unix_time. rewrite Hc2, Hc1, Ht, Hu.
  destruct (rmap _ (rows df2)) as [rs3|] eqn:H3; [|done]. cbn [rbind].
  unfold insert_symbol. cbn [columns rows].
  rewrite (index_of_app_other "symbol" "unix_time") by done.
  cbn [rbind]. unfold reorder. cbn [columns rows].
  assert (index_of "timestamp" ("symbol" :: columns fr ++ ["unix_time"]) = Some (S t)) as ->.
  { simpl. by rewrite (index_of_app_l _ _ _ t Ht). }
  assert (index_of "unix_time" ("symbol" :: columns fr ++ ["unix_time"])
          = Some (S (length (columns fr)))) as ->.
  { simpl. by rewrite index_of_app_last. }
  cbn [of_option rbind]. intros [= <-]. cbn [columns rows].
  apply rmap_ok in H3.
  assert (t < length (columns fr))%nat as Hlt.
  { apply index_of_lookup in Ht. by apply lookup_lt_Some in Ht. }
  split_and!.
  - apply pop_insert_last.
  - rewrite !length_fmap. rewrite <- (Forall2_length _ _ _ H3). congruence.
  - intros r Hr. apply list_elem_of_fmap in Hr as (r4 & -> & Hr4).
    apply list_elem_of_fmap in Hr4 as (r3 & -> & Hr3).
    destruct (Forall2_elem_of_r _ _ _ _ H3 Hr3) as (r2 & Hr2 & Hconv).
    destruct (to_unix_time (cell_at t r2)) as [u|] eqn:Hunix; [|done].
    simpl in Hconv. inversion Hconv; subst r3.
    assert (length r2 = length (columns fr)) as Hlen
      by (by eapply Forall_forall in Hwf2).
    rewrite (pop_insert_last "symbol" "unix_time" (columns fr) t).
    assert (pop_insert (S (length (columns fr))) (S (S t)) (CStr symbol :: r2 ++ [u])
            = (CStr symbol :: take (S t) r2 ++ u :: drop (S t) r2)%list) as ->
      by (rewrite <- Hlen; apply pop_insert_last).
    split_and!.
    + simpl. rewrite !length_app. simpl. rewrite !length_take, !length_drop. lia.
    + done.
    + unfold cell_at in *. simpl.
      rewrite lookup_app_l by (rewrite length_take; lia).
      rewrite lookup_take_lt by lia. rewrite Hunix. f_equal.
      rewrite lookup_app_r by (rewrite length_take; lia).
      rewrite length_take. by replace (S t - S t `min` length r2)%nat with 0%nat by lia.
Qed.

Lemma normalized_frame_shape_witness :
  columns (mkFrame canonical_columns
             [[CStr "BTC"; CTime (Sample.at_ Sample.d10 0); CInt (Sample.d10 * 86400);
               CFloat (f64_of_Z 1); CFloat (f64_of_Z 2); CFloat (f64_of_Z 3);
               CFloat (f64_of_Z 4); CFloat (f64_of_Z 7)]])
  = ("symbol" :: take 1 ["timestamp"; "open"; "high"; "low"; "close"; "volume"]
       ++ "unix_time" :: drop 1 ["timestamp"; "open"; "high"; "low"; "close"; "volume"])%list ∧
  length (rows (mkFrame canonical_columns
             [[CStr "BTC"; CTime (Sample.at_ Sample.d10 0); CInt (Sample.d10 * 86400);
               CFloat (f64_of_Z 1); CFloat (f64_of_Z 2); CFloat (f64_of_Z 3);
               CFloat (f64_of_Z 4); CFloat (f64_of_Z 7)]])) = 1%nat.
Proof.
  destruct (@normalized_frame_shape pandas_ref
              (mkFrame ["timestamp"; "open"; "high"; "low"; "close"; "volume"]
                 [[CInt (Sample.d10 * 1440); CInt 1; CInt 2; CInt 3; CInt 4; CInt 7]])
              (mkFrame canonical_columns
                 [[CStr "BTC"; CTime (Sample.at_ Sample.d10 0); CInt (Sample.d10 * 86400);
                   CFloat (f64_of_Z 1); CFloat (f64_of_Z 2); CFloat (f64_of_Z 3);
                   CFloat (f64_of_Z 4); CFloat (f64_of_Z 7)]])
              "BTC" 0%nat) as (Hcols & Hlen & _).
  - reflexivity.
  - reflexivity.
  - reflexivity.
  - repeat constructor.
  - vm_compute. reflexivity.
  - split; [exact Hcols | exact Hlen].
Defined.

(** A CSV that already has a [symbol] column is never written:
    [df.insert(0, 'symbol', ...)] refuses the duplicate, if no earlier
    step has raised. *)
Theorem csv_with_symbol_column_is_refused `{Pandas} (fr : Frame) (symbol : string)
    (i : nat) :
  index_of "symbol" (columns fr) = Some i →
  ∃ e, convert (Csv fr) symbol = Raise e.
Proof.
  intros Hs. unfold convert. cbn [read_csv rbind].
  destruct (foldl astype_if_present (Ok fr) numeric_columns) as [df1|e] eqn:H1;
    [|by exists e]. cbn [rbind].
  destruct (parse_timestamps df1) as [df2|e] eqn:H2; [|by exists e]. cbn [rbind].
  destruct (add_unix_time df2) as [df3|e] eqn:H3; [|by exists e]. cbn [rbind].
  unfold insert_symbol. rewrite (before_insert_symbol fr df1 df2 df3 H1 H2 H3).
  destruct (index_of "unix_time" (columns fr)).
  - rewrite Hs. by eexists.
  - rewrite (index_of_app_l _ _ _ i Hs). by eexists.
Qed.

Lemma csv_with_symbol_column_is_refused_witness :
  ∃ e, @convert pandas_ref
         (Csv (mkFrame ["symbol"; "timestamp"; "open"]
                       [[CStr "BTC"; CInt (Sample.d10 * 1440); CInt 1]])) "BTC" = Raise e.
Proof.
  apply (@csv_with_symbol_column_is_refused pandas_ref _ "BTC" 0%nat). reflexivity.
Defined.


(** ** More on the consolidation *)

Lemma NoDup_omap_keys {A} (l : list (Z * A)) (sel : Z * A → option Z) :
  (∀ k a d, sel (k, a) = Some d → d = k) → NoDup (l.*1) → NoDup (omap sel l).
Proof.
  intros Hsel. induction l as [|[k a] l IH]; intros Hnd; [constructor|].
  apply NoDup_cons in Hnd as [Hk Hnd]. simpl.
  destruct (sel (k, a)) as [d|] eqn:Hd; [|by apply IH].
  apply Hsel in Hd as ->. apply NoDup_cons. split; [|by apply IH].
  intros Hin. apply Hk. apply list_elem_of_omap in Hin as ([k' a'] & Hin & Hs).
  apply Hsel in Hs as ->. by apply (list_elem_of_fmap_2' fst _ (k', a')).
Qed.

Lemma strictly_ascending (l : list Z) :
  StronglySorted Z.le l → NoDup l → StronglySorted Z.lt l.
Proof.
  induction 1 as [|x l Hl IH Hx]; intros Hnd; [constructor|].
  apply NoDup_cons in Hnd as [Hnin Hnd]. constructor; [by apply IH|].
  apply Forall_forall. intros z Hz. rewrite Forall_forall in Hx.
  specialize (Hx z Hz). assert (x ≠ z) by (by intros ->). lia.
Qed.

Lemma daily_files_NoDup y start st : NoDup (get_daily_files_to_process y start st).
Proof.
  unfold get_daily_files_to_process. rewrite merge_sort_Permutation.
  apply NoDup_omap_keys; [|apply NoDup_fst_map_to_list].
  intros k a d Hsel. destruct (decide (year_of k = y)); [|done].
  destruct (match start with Some s => bool_decide (s < k) | None => true end); [|done].
  destruct a; by inversion Hsel.
Qed.

Lemma daily_files_Sorted y start st : Sorted Z.le (get_daily_files_to_process y start st).
Proof. unfold get_daily_files_to_process. apply (Sorted_merge_sort Z.le). Qed.

(** The daily files selected for a year: those of days of that year whose
    parquet file exists and which are strictly later than the last
    consolidated date (all of them when there is none), each once, in
    ascending order of day. *)
Theorem selected_daily_files (y : Z) (start_date : option Z) (st : Store) :
  StronglySorted Z.lt (get_daily_files_to_process y start_date st) ∧
  ∀ d, d ∈ get_daily_files_to_process y start_date st ↔
       year_of d = y ∧ from_option (λ s, s < d) True start_date
       ∧ ∃ f, daily st !! d = Some (Some f).
Proof.
  split.
  - apply strictly_ascending; [|apply daily_files_NoDup].
    apply Sorted_StronglySorted; [apply _ | apply daily_files_Sorted].
  - intros d. rewrite elem_of_daily_files. destruct start_date as [s|]; simpl.
    + split; intros (Hy & Hs & Hf); split_and!; try done; [by apply Hs | by intros s' [= <-]].
    + split; intros (Hy & Hs & Hf); split_and!; done.
Qed.

(** A run of [process_symbol_year] touches nothing but the yearly file of
    its year: the daily partitions and the yearly files of the other
    years are what they were, whether it saved, found nothing to do or
    failed. *)
Theorem consolidation_touches_one_file `{Polars} (y : Z) (st : Store) :
  daily (process_symbol_year y st).2 = daily st ∧
  delete y (yearly (process_symbol_year y st).2) = delete y (yearly st).
Proof.
  unfold process_symbol_year. destruct (get_daily_files_to_process y _ st); [done|].
  destruct (consolidate_frames y _ st); [|done]. simpl. split; [done|].
  apply delete_insert_eq.
Qed.

(** A run that saved wrote the union of what it read: the rows of the
    existing yearly file and of the selected daily files, after the
    cast, each row once; the count it prints is the number of rows of
    the file. *)
Theorem consolidation_is_a_union `{Polars} (y : Z) (st st' : Store) (n : nat) :
  process_symbol_year y st = (Saved n, st') →
  ∃ fr,
    yearly st' !! y = Some (Table fr) ∧ n = length (rows fr) ∧ NoDup (rows fr) ∧
    ∀ r, r ∈ rows fr ↔
         (∃ f ex, yearly st !! y = Some f ∧ scan_cast (Some f) = Ok ex ∧ r ∈ rows ex)
         ∨ (∃ d df, d ∈ get_daily_files_to_process y
                          (get_last_consolidated_date (yearly st !! y)) st
                    ∧ scan_cast (mjoin (daily st !! d)) = Ok df ∧ r ∈ rows df).
Proof.
  unfold process_symbol_year.
  set (files := get_daily_files_to_process y _ st).
  destruct files as [|d0 files'] eqn:Hfiles; [done|]. rewrite <- Hfiles.
  destruct (consolidate_frames y files st) as [final|] eqn:Hc; [|done].
  intros [= <- <-]. exists final. simpl. rewrite lookup_insert_eq.
  apply consolidate_frames_ok in Hc
    as (dfs & existing & i & HF2 & _ & _ & Hex & _ & Hrows).
  split_and!; [done | done | rewrite Hrows; apply unique_rows_NoDup |].
  intros r. rewrite Hrows, elem_of_final_rows, elem_of_app. split.
  - intros [Hr|Hr].
    + left. destruct (yearly st !! y) as [f|].
      * destruct Hex as (ex & Hscan & _ & ->). by exists f, ex.
      * subst existing. by apply elem_of_nil in Hr.
    + right. apply list_elem_of_join in Hr as (rs & Hr & Hrs).
      apply list_elem_of_fmap in Hrs as (df & -> & Hdf).
      destruct (Forall2_elem_of_r _ _ _ _ HF2 Hdf) as (d & Hd & Hscan).
      by exists d, df.
  - intros [(f & ex & Hy & Hscan & Hr) | (d & df & Hd & Hscan & Hr)].
    + left. rewrite Hy in Hex. destruct Hex as (ex' & Hscan' & _ & ->).
      pose proof (eq_trans (eq_sym Hscan) Hscan') as Heq. inversion Heq. by subst.
    + right. destruct (Forall2_elem_of_l _ _ _ _ HF2 Hd) as (df' & Hdf' & Hscan').
      pose proof (eq_trans (eq_sym Hscan) Hscan') as Heq. inversion Heq; subst df'.
      apply list_elem_of_join. exists (rows df). split; [done|].
      by apply list_elem_of_fmap_2.
Qed.

Lemma consolidation_is_a_union_witness :
  ∃ fr,
    yearly (process_symbol_year 2024 Sample.two_days).2 !! 2024 = Some (Table fr) ∧
    3%nat = length (rows fr) ∧ NoDup (rows fr) ∧
    ∀ r, r ∈ rows fr ↔
         (∃ f ex, yearly Sample.two_days !! 2024 = Some f ∧ scan_cast (Some f) = Ok ex
                  ∧ r ∈ rows ex)
         ∨ (∃ d df, d ∈ get_daily_files_to_process 2024
                          (get_last_consolidated_date (yearly Sample.two_days !! 2024))
                          Sample.two_days
                    ∧ scan_cast (mjoin (daily Sample.two_days !! d)) = Ok df ∧ r ∈ rows df).
Proof.
  apply (consolidation_is_a_union 2024 Sample.two_days). vm_compute. reflexivity.
Defined.


Lemma rmap_ext_elem {A B} (f g : A → Result B) (l : list A) :
  (∀ x, x ∈ l → f x = g x) → rmap f l = rmap g l.
Proof.
  induction l as [|a l IH]; intros Hext; [done|]. simpl.
  rewrite (Hext a) by left. rewrite IH; [done|]. intros x Hx. apply Hext. by right.
Qed.

(** The incremental boundary: a daily partition added, or replaced, on a
    day that is not later than the last consolidated date is never read.
    The run does what it would have done without it, and the yearly file
    comes out the same. *)
Theorem late_daily_partition_is_ignored `{Polars} (y : Z) (st : Store) (l d : Z)
    (f : option ParquetFile) :
  get_last_consolidated_date (yearly st !! y) = Some l → d ≤ l →
  get_daily_files_to_process y (Some l) (mkStore (<[d := f]> (daily st)) (yearly st))
  = get_daily_files_to_process y (Some l) st ∧
  (process_symbol_year y (mkStore (<[d := f]> (daily st)) (yearly st))).1
  = (process_symbol_year y st).1 ∧
  yearly (process_symbol_year y (mkStore (<[d := f]> (daily st)) (yearly st))).2
  = yearly (process_symbol_year y st).2.
Proof.
  intros Hlast Hd. set (st' := mkStore (<[d := f]> (daily st)) (yearly st)).
  assert (get_daily_files_to_process y (Some l) st' = get_daily_files_to_process y (Some l) st)
    as Hfiles.
  { apply (Sorted_unique Z.le); [apply daily_files_Sorted | apply daily_files_Sorted |].
    apply NoDup_Permutation; [apply daily_files_NoDup | apply daily_files_NoDup |].
    intros x. rewrite !elem_of_daily_files. simpl.
    split; intros (Hy & Hs & g & Hg); split_and!; try done;
      specialize (Hs l eq_refl); exists g.
    - by rewrite lookup_insert_ne in Hg by lia.
    - by rewrite lookup_insert_ne by lia. }
  split; [done|].
  unfold process_symbol_year. simpl. rewrite Hlast, Hfiles.
  destruct (get_daily_files_to_process y (Some l) st) as [|d0 files'] eqn:Hsel; [done|].
  rewrite <- Hsel.
  assert (consolidate_frames y (get_daily_files_to_process y (Some l) st) st'
          = consolidate_frames y (get_daily_files_to_process y (Some l) st) st) as ->.
  { unfold consolidate_frames. simpl.
    rewrite (rmap_ext_elem (λ x, scan_cast (mjoin (<[d := f]> (daily st) !! x)))
                           (λ x, scan_cast (mjoin (daily st !! x)))); [done|].
    intros x (_ & Hs & _)%elem_of_daily_files. specialize (Hs l eq_refl).
    by rewrite lookup_insert_ne by lia. }
  by destruct (consolidate_frames y _ st).
Qed.

Lemma late_daily_partition_is_ignored_witness :
  get_daily_files_to_process 2024 (Some Sample.d11)
    (mkStore (<[Sample.d10 := Some (Table (mkFrame canonical_columns
                                           [bar "BTC" (Sample.at_ Sample.d10 9) 1 2 3 4 7]))]>
                (daily (process_symbol_year 2024 Sample.two_days).2))
             (yearly (process_symbol_year 2024 Sample.two_days).2))
  = get_daily_files_to_process 2024 (Some Sample.d11)
      (process_symbol_year 2024 Sample.two_days).2 ∧
  (process_symbol_year 2024
     (mkStore (<[Sample.d10 := Some (Table (mkFrame canonical_columns
                                            [bar "BTC" (Sample.at_ Sample.d10 9) 1 2 3 4 7]))]>
                 (daily (process_symbol_year 2024 Sample.two_days).2))
              (yearly (process_symbol_year 2024 Sample.two_days).2))).1
  = (process_symbol_year 2024 (process_symbol_year 2024 Sample.two_days).2).1 ∧
  yearly (process_symbol_year 2024
     (mkStore (<[Sample.d10 := Some (Table (mkFrame canonical_columns
                                            [bar "BTC" (Sample.at_ Sample.d10 9) 1 2 3 4 7]))]>
                 (daily (process_symbol_year 2024 Sample.two_days).2))
              (yearly (process_symbol_year 2024 Sample.two_days).2))).2
  = yearly (process_symbol_year 2024 (process_symbol_year 2024 Sample.two_days).2).2.
Proof.
  apply (late_daily_partition_is_ignored 2024 (process_symbol_year 2024 Sample.two_days).2
           Sample.d11 Sample.d10).
  - vm_compute. reflexivity.
  - vm_compute. discriminate.
Defined.

(** The last consolidated date of a yearly file with rows and datetimes
    in its timestamp column is the date of its newest row: some row is
    dated on it and no row is dated later. *)
Theorem last_consolidated_date_is_the_newest `{Polars} (fr : Frame) (i : nat) :
  index_of "timestamp" (columns fr) = Some i →
  rows fr ≠ [] →
  forallb is_time (column_cells i fr) = true →
  ∃ l, get_last_consolidated_date (Some (Table fr)) = Some l ∧
       (∃ r ns, r ∈ rows fr ∧ cell_at i r = CTime ns ∧ date_of_ns ns = l) ∧
       (∀ r ns, r ∈ rows fr → cell_at i r = CTime ns → date_of_ns ns ≤ l).
Proof.
  intros Hi Hne Htimes. simpl. rewrite Hi. rewrite decide_False by done.
  destruct (column_max_times (column_cells i fr) Htimes) as (m & Hm & Hmax).
  { unfold column_cells. by intros Hnil%fmap_nil_inv. }
  rewrite Hm. exists (date_of_ns m). split_and!; [done | |].
  - apply column_max_elem in Hm. unfold column_cells in Hm.
    apply list_elem_of_fmap in Hm as (r & Hcell & Hr). by exists r, m.
  - intros r ns Hr Hcell. apply date_of_ns_mono, Hmax. rewrite <- Hcell.
    unfold column_cells. by apply list_elem_of_fmap_2.
Qed.

Lemma last_consolidated_date_is_the_newest_witness :
  ∃ l, get_last_consolidated_date
         (Some (Table (mkFrame canonical_columns
                         [bar "BTC" (Sample.at_ Sample.d11 0) 1 2 3 4 7;
                          bar "BTC" (Sample.at_ Sample.d10 0) 1 2 3 4 7]))) = Some l ∧
       (∃ r ns, r ∈ [bar "BTC" (Sample.at_ Sample.d11 0) 1 2 3 4 7;
                     bar "BTC" (Sample.at_ Sample.d10 0) 1 2 3 4 7]
                ∧ cell_at 1 r = CTime ns ∧ date_of_ns ns = l) ∧
       (∀ r ns, r ∈ [bar "BTC" (Sample.at_ Sample.d11 0) 1 2 3 4 7;
                     bar "BTC" (Sample.at_ Sample.d10 0) 1 2 3 4 7]
                → cell_at 1 r = CTime ns → date_of_ns ns ≤ l).
Proof.
  apply (last_consolidated_date_is_the_newest
           (mkFrame canonical_columns
              [bar "BTC" (Sample.at_ Sample.d11 0) 1 2 3 4 7;
               bar "BTC" (Sample.at_ Sample.d10 0) 1 2 3 4 7]) 1%nat);
    [reflexivity | discriminate | reflexivity].
Defined.


(** ** More on the metadata update *)

Lemma jget_jset_eq key v fields : jget key (jset key v fields) = Some v.
Proof.
  induction fields as [|[k v'] fields IH]; simpl.
  - by rewrite decide_True.
  - destruct (decide (k = key)) as [->|Hne]; simpl.
    + by rewrite decide_True.
    + by rewrite decide_False.
Qed.

Lemma jget_jset_ne key v k fields : k ≠ key → jget k (jset key v fields) = jget k fields.
Proof.
  intros Hne. induction fields as [|[k' v'] fields IH]; simpl.
  - by rewrite decide_False by congruence.
  - destruct (decide (k' = key)) as [->|Hk']; simpl.
    + by rewrite !decide_False by congruence.
    + by rewrite IH.
Qed.

Lemma ensure_object_ok key fields inner :
  ensure_object key fields = Ok inner →
  inner = [] ∧ jget key fields = None ∨ jget key fields = Some (JObj inner).
Proof.
  unfold ensure_object. destruct (jget key fields) as [[| |obj]|]; try done.
  - intros [= ->]. by right.
  - intros [= <-]. by left.
Qed.

(** After the update of an instrument its entry reads back the new date
    at [dataRange.latest] and at [dataRange.sources.1Ys.latest]; its other
    keys, and the other keys of [dataRange], are what they were. *)
Theorem set_latest_reads_back `{Polars} (latest_date : DateStr)
    (fields fields' : list (string * Json)) :
  set_latest latest_date (JObj fields) = Ok (JObj fields') →
  ∃ data_range sources src,
    jget "dataRange" fields' = Some (JObj data_range) ∧
    jget "latest" data_range = Some (JDate latest_date) ∧
    jget "sources" data_range = Some (JObj sources) ∧
    jget "1Ys" sources = Some (JObj src) ∧
    jget "latest" src = Some (JDate latest_date) ∧
    (∀ k, k ≠ "dataRange" → jget k fields' = jget k fields) ∧
    (∀ k old, jget "dataRange" fields = Some (JObj old) →
              k ≠ "latest" → k ≠ "sources" → jget k data_range = jget k old).
Proof.
  unfold set_latest.
  destruct (ensure_object "dataRange" fields) as [dr|] eqn:Hdr; [|done]. cbn [rbind].
  destruct (ensure_object "sources" (jset "latest" (JDate latest_date) dr))
    as [srcs|] eqn:Hsrcs; [|done]. cbn [rbind].
  destruct (ensure_object "1Ys" srcs) as [s1|] eqn:Hs1; [|done]. cbn [rbind].
  intros [= <-]. eexists _, _, _. split_and!.
  - apply jget_jset_eq.
  - rewrite jget_jset_ne by done. apply jget_jset_eq.
  - apply jget_jset_eq.
  - apply jget_jset_eq.
  - apply jget_jset_eq.
  - intros k Hk. by apply jget_jset_ne.
  - intros k old Hold Hk1 Hk2. rewrite !jget_jset_ne by done.
    apply ensure_object_ok in Hdr as [[_ Hnone]|Hsome]; congruence.
Qed.

Lemma set_latest_reads_back_witness :
  ∃ data_range sources src,
    jget "dataRange"
      [("name", JStr "Bitcoin");
       ("dataRange",
        JObj [("earliest", JDate (Ymd (2017, 5, 8))); ("latest", JDate (Ymd (2024, 5, 11)));
              ("sources", JObj [("1Ys", JObj [("latest", JDate (Ymd (2024, 5, 11)))])])])]
    = Some (JObj data_range) ∧
    jget "latest" data_range = Some (JDate (Ymd (2024, 5, 11))) ∧
    jget "sources" data_range = Some (JObj sources) ∧
    jget "1Ys" sources = Some (JObj src) ∧
    jget "latest" src = Some (JDate (Ymd (2024, 5, 11))) ∧
    (∀ k, k ≠ "dataRange" →
          jget k [("name", JStr "Bitcoin");
                  ("dataRange",
                   JObj [("earliest", JDate (Ymd (2017, 5, 8)));
                         ("latest", JDate (Ymd (2024, 5, 11)));
                         ("sources",
                          JObj [("1Ys", JObj [("latest", JDate (Ymd (2024, 5, 11)))])])])]
          = jget k [("name", JStr "Bitcoin");
                    ("dataRange", JObj [("earliest", JDate (Ymd (2017, 5, 8)));
                                        ("latest", JDate (Ymd (2023, 6, 30)))])]) ∧
    (∀ k old, jget "dataRange"
                [("name", JStr "Bitcoin");
                 ("dataRange", JObj [("earliest", JDate (Ymd (2017, 5, 8)));
                                     ("latest", JDate (Ymd (2023, 6, 30)))])]
              = Some (JObj old) →
              k ≠ "latest" → k ≠ "sources" → jget k data_range = jget k old).
Proof.
  apply (set_latest_reads_back (Ymd (2024, 5, 11))). vm_compute. reflexivity.
Defined.

Section NewestYear.
Context `{Polars}.
Variables (now_year today : Z).

Lemma scan_years_newest bucket years y f :
  StronglySorted (flip Z.le) years → y ∈ years →
  bucket !! y = Some (Some f) →
  (∀ y', y < y' → mjoin (bucket !! y') = None) →
  scan_years now_year today bucket years = Some (latest_date_of_file now_year today y f).
Proof.
  intros Hsorted Hin Hy Hnewer. induction Hsorted as [|x years Hs IH Hx]; simpl.
  - by apply elem_of_nil in Hin.
  - destruct (decide (x = y)) as [->|Hne].
    + by rewrite Hy.
    + apply elem_of_cons in Hin as [->|Hin]; [done|].
      rewrite Forall_forall in Hx. specialize (Hx y Hin). unfold flip in Hx.
      rewrite Hnewer by lia. by apply IH.
Qed.

End NewestYear.

(** The latest date comes from the newest year whose directory lists the
    yearly file; older years are not consulted, even when that file is
    the one that does not read. *)
Theorem latest_date_comes_from_the_newest_file `{Polars} (now_year today : Z)
    (bucket : gmap Z (option ParquetFile)) (y : Z) (f : ParquetFile) :
  bucket !! y = Some (Some f) →
  (∀ y', y < y' → mjoin (bucket !! y') = None) →
  get_latest_date_for_symbol now_year today bucket
  = Some (latest_date_of_file now_year today y f).
Proof.
  intros Hy Hnewer. unfold get_latest_date_for_symbol.
  apply scan_years_newest; [| | done | done].
  - apply Sorted_StronglySorted; [apply _|].
    apply Sorted_reverse, (Sorted_merge_sort Z.le).
  - rewrite elem_of_reverse, merge_sort_Permutation.
    apply (list_elem_of_fmap_2' fst _ (y, Some f)); [|done].
    by apply elem_of_map_to_list.
Qed.

Lemma latest_date_comes_from_the_newest_file_witness :
  get_latest_date_for_symbol 2024 Sample.d14
    {[ 2022 := Some (Table (mkFrame canonical_columns []));
       2023 := Some (Table (mkFrame canonical_columns
                              [bar "BTC" (Sample.at_ 19600 0) 1 2 3 4 7]));
       2024 := None ]}
  = Some (latest_date_of_file 2024 Sample.d14 2023
            (Table (mkFrame canonical_columns [bar "BTC" (Sample.at_ 19600 0) 1 2 3 4 7]))).
Proof.
  apply (latest_date_comes_from_the_newest_file 2024 Sample.d14).
  - vm_compute. reflexivity.
  - intros y' Hy'. destruct (decide (y' = 2024)) as [->|Hne]; [vm_compute; reflexivity|].
    rewrite !lookup_insert_ne by lia. by rewrite lookup_singleton_ne by lia.
Defined.


Section MetadataKeys.
Context `{Polars}.
Variables (now_year today : Z).


End MetadataKeys.



(** The index and the consolidation agree: for a yearly file whose first
    date-like column is [timestamp], the date the metadata update records
    is the last consolidated date the consolidation computes from the
    same file. *)
Theorem recorded_date_is_the_last_consolidated_date `{Polars} (now_year today year l : Z)
    (fr : Frame) :
  head (filter (λ col, is_date_column col = true) (columns fr)) = Some "timestamp" →
  get_last_consolidated_date (Some (Table fr)) = Some l →
  latest_date_of_file now_year today year (Table fr) = Ymd (civil_from_days l).
Proof.
  intros Hhead Hlast. simpl in *.
  destruct (filter _ (columns fr)) as [|col rest]; [done|]. inversion Hhead; subst col.
  destruct (index_of "timestamp" (columns fr)) as [i|]; [|done].
  destruct (decide (rows fr = [])); [done|].
  destruct (column_max (column_cells i fr)) as [[| | | |ns]|]; try done.
  by inversion Hlast.
Qed.

Lemma recorded_date_is_the_last_consolidated_date_witness :
  latest_date_of_file 2025 Sample.d14 2024
    (Table (mkFrame canonical_columns [bar "BTC" (Sample.at_ Sample.d11 0) 1 2 3 4 7;
                                       bar "BTC" (Sample.at_ Sample.d10 0) 1 2 3 4 7]))
  = Ymd (2024, 5, 11).
Proof.
  apply (recorded_date_is_the_last_consolidated_date 2025 Sample.d14 2024 Sample.d11);
    vm_compute; reflexivity.
Defined.

(** ** The historical years *)

Lemma StronglySorted_filter_lt (P : Z → Prop) `{∀ x, Decision (P x)} (l : list Z) :
  StronglySorted Z.lt l → StronglySorted Z.lt (filter P l).
Proof.
  induction 1 as [|x l Hl IH Hx]; [constructor|].
  rewrite filter_cons. destruct (decide (P x)); [|done].
  constructor; [done|]. apply Forall_forall. intros z [_ Hz]%list_elem_of_filter.
  rewrite Forall_forall in Hx. by apply Hx.
Qed.

(** The years the historical consolidation goes through are the years
    captured in the bucket listing that are not after [PREVIOUS_YEAR],
    each once and in ascending order, whatever the order and the
    repetitions of the listing. *)
Theorem historical_years_are_the_listed_past_years (previous_year : Z)
    (dates_output : list (option Z)) :
  StronglySorted Z.lt (get_historical_years_for_symbol previous_year dates_output) ∧
  NoDup (get_historical_years_for_symbol previous_year dates_output) ∧
  (∀ year, year ∈ get_historical_years_for_symbol previous_year dates_output
           ↔ Some year ∈ dates_output ∧ year ≤ previous_year) ∧
  (∀ year, year ∈ get_available_years_for_symbol dates_output ↔ Some year ∈ dates_output).
Proof.
  assert (∀ year, year ∈ get_available_years_for_symbol dates_output
                  ↔ Some year ∈ dates_output) as Hav.
  { intros year. unfold get_available_years_for_symbol.
    rewrite merge_sort_Permutation, elem_of_remove_dups, list_elem_of_omap. split.
    - intros ([z|] & Hz & Heq); simpl in Heq; [|done]. by inversion Heq; subst.
    - intros Hy. by exists (Some year). }
  assert (NoDup (get_available_years_for_symbol dates_output)) as Hnd.
  { unfold get_available_years_for_symbol. rewrite merge_sort_Permutation.
    apply NoDup_remove_dups. }
  split_and!.
  - unfold get_historical_years_for_symbol. apply StronglySorted_filter_lt.
    apply strictly_ascending; [|done].
    unfold get_available_years_for_symbol. apply (StronglySorted_merge_sort Z.le).
  - unfold get_historical_years_for_symbol. by apply NoDup_filter.
  - intros year. unfold get_historical_years_for_symbol.
    rewrite list_elem_of_filter, Hav. tauto.
  - done.
Qed.

Section YearsLoop.
Context `{Polars}.

(** A run of [process_symbol_year] reads the daily partitions and the
    yearly file of its own year only. *)
Lemma process_symbol_year_local y st1 st2 :
  daily st1 = daily st2 → yearly st1 !! y = yearly st2 !! y →
  (process_symbol_year y st1).1 = (process_symbol_year y st2).1 ∧
  yearly (process_symbol_year y st1).2 !! y = yearly (process_symbol_year y st2).2 !! y.
Proof.
  destruct st1 as [d1 y1], st2 as [d2 y2]. simpl. intros -> Hy.
  unfold process_symbol_year, get_daily_files_to_process, consolidate_frames. simpl.
  rewrite Hy.
  destruct (merge_sort Z.le _) as [|f fs]; [done|].
  match goal with
  | |- context [match ?r with Ok _ => _ | Raise _ => _ end] => destruct r as [final_df|e]
  end; [|done].
  simpl. by rewrite !lookup_insert_eq.
Qed.

Lemma process_symbol_year_frame y st :
  daily (process_symbol_year y st).2 = daily st ∧
  ∀ y', y' ≠ y → yearly (process_symbol_year y st).2 !! y' = yearly st !! y'.
Proof.
  unfold process_symbol_year.
  destruct (get_daily_files_to_process _ _ _) as [|f fs]; [done|].
  destruct (consolidate_frames _ _ _) as [final_df|e]; [|done].
  simpl. split; [done|]. intros y' Hne. by rewrite lookup_insert_ne.
Qed.

End YearsLoop.

(** The loop over the years of the consolidation-only mode, run on
    distinct years: each year is consolidated as if it were processed
    alone on the store the loop started from, the yearly files of the
    other years and all daily partitions are left as they were, the
    counter of processed years grows by one per year, also for a year
    whose consolidation printed an error, and the counter of errors does
    not move. *)
Theorem years_are_consolidated_independently `{Polars} (years : list Z) (st : Store)
    (processed errors : nat) :
  NoDup years →
  ∃ outcomes st',
    process_years years st processed errors
    = (outcomes, st', (processed + length years)%nat, errors) ∧
    outcomes = (λ year, (process_symbol_year year st).1) <$> years ∧
    daily st' = daily st ∧
    (∀ year, year ∈ years →
             yearly st' !! year = yearly (process_symbol_year year st).2 !! year) ∧
    (∀ year, year ∉ years → yearly st' !! year = yearly st !! year).
Proof.
  revert st processed errors.
  induction years as [|y rest IH]; intros st processed errors Hnd.
  - exists [], st. simpl. split_and!; try done.
    + do 2 f_equal. lia.
    + intros year Hin. by apply elem_of_nil in Hin.
  - apply NoDup_cons in Hnd as [Hnin Hnd]. simpl.
    destruct (process_symbol_year y st) as [outcome st1] eqn:Hstep.
    destruct (process_symbol_year_frame y st) as [Hd1 Hy1]. rewrite Hstep in Hd1, Hy1.
    simpl in Hd1, Hy1.
    destruct (IH st1 (S processed) errors Hnd) as (outs & st' & Hrun & Houts & Hd & Hin & Hout).
    rewrite Hrun. exists (outcome :: outs), st'. split_and!.
    + do 2 f_equal. simpl. lia.
    + simpl. f_equal. rewrite Houts. apply list_fmap_ext. intros i y' Hy'.
      apply list_elem_of_lookup_2 in Hy'.
      assert (y' ≠ y) as Hne by (by intros ->).
      by destruct (process_symbol_year_local y' st1 st Hd1 (Hy1 y' Hne)).
    + congruence.
    + intros year [->|Hyear]%elem_of_cons.
      * rewrite (Hout y Hnin). by rewrite Hstep.
      * assert (year ≠ y) as Hne by (by intros ->).
        rewrite (Hin year Hyear).
        by destruct (process_symbol_year_local year st1 st Hd1 (Hy1 year Hne)).
    + intros year Hyear. apply not_elem_of_cons in Hyear as [Hne Hyear].
      rewrite (Hout year Hyear). by apply Hy1.
Qed.

Lemma years_are_consolidated_independently_witness :
  NoDup [2023; 2024] ∧
  ∃ outcomes st',
    process_years [2023; 2024]
      (mkStore {[ 19487 := Some (Table (mkFrame canonical_columns
                                          [bar "BTC" (Sample.at_ 19487 0) 1 2 3 4 7]));
                  Sample.d10 := Some Corrupt ]} ∅) 0 0
    = (outcomes, st', 2%nat, 0%nat) ∧
    outcomes = [Saved 1; ErrorProcessing ComputeError].
Proof.
  assert (NoDup [2023; 2024]) as Hnd.
  { apply NoDup_cons. split; [|apply NoDup_singleton].
    intros Hin%list_elem_of_singleton. lia. }
  split; [exact Hnd|].
  destruct (years_are_consolidated_independently [2023; 2024]
              (mkStore {[ 19487 := Some (Table (mkFrame canonical_columns
                                          [bar "BTC" (Sample.at_ 19487 0) 1 2 3 4 7]));
                          Sample.d10 := Some Corrupt ]} ∅) 0 0 Hnd)
    as (outcomes & st' & Hrun & Houts & _).
  exists outcomes, st'. split; [exact Hrun|]. rewrite Houts. vm_compute. reflexivity.
Defined.

(** ** The smart download *)

(** The two ends of a year.  A day given by its year counted from 1
    March and its rank in that year reads back as that year and rank. *)
Lemma march_year_of_day (y' doy : Z) :
  0 ≤ doy < 365 →
  (y' `div` 400 * 146097
   + ((y' - y' `div` 400 * 400) * 365 + (y' - y' `div` 400 * 400) `div` 4
      - (y' - y' `div` 400 * 400) `div` 100 + doy)) `div` 146097
  = y' `div` 400 ∧
  ((y' - y' `div` 400 * 400) * 365 + (y' - y' `div` 400 * 400) `div` 4
   - (y' - y' `div` 400 * 400) `div` 100 + doy
   - ((y' - y' `div` 400 * 400) * 365 + (y' - y' `div` 400 * 400) `div` 4
      - (y' - y' `div` 400 * 400) `div` 100 + doy) `div` 1460
   + ((y' - y' `div` 400 * 400) * 365 + (y' - y' `div` 400 * 400) `div` 4
      - (y' - y' `div` 400 * 400) `div` 100 + doy) `div` 36524
   - ((y' - y' `div` 400 * 400) * 365 + (y' - y' `div` 400 * 400) `div` 4
      - (y' - y' `div` 400 * 400) `div` 100 + doy) `div` 146096) `div` 365
  = y' - y' `div` 400 * 400.
Proof. intros Hd. Z.div_mod_to_equations. lia. Qed.

Lemma civil_from_days_march (y' doy : Z) :
  0 ≤ doy < 365 →
  civil_from_days (y' `div` 400 * 146097
                   + ((y' - y' `div` 400 * 400) * 365 + (y' - y' `div` 400 * 400) `div` 4
                      - (y' - y' `div` 400 * 400) `div` 100 + doy) - 719468)
  = (if (if (5 * doy + 2) `div` 153 <? 10
         then (5 * doy + 2) `div` 153 + 3 else (5 * doy + 2) `div` 153 - 9) <=? 2
     then y' + 1 else y',
     if (5 * doy + 2) `div` 153 <? 10
     then (5 * doy + 2) `div` 153 + 3 else (5 * doy + 2) `div` 153 - 9,
     doy - (153 * ((5 * doy + 2) `div` 153) + 2) `div` 5 + 1).
Proof.
  intros Hd. destruct (march_year_of_day y' doy Hd) as [Hera Hyoe].
  unfold civil_from_days. cbv zeta.
  set (era := y' `div` 400) in *. set (yoe := y' - era * 400) in *.
  set (doe := yoe * 365 + yoe `div` 4 - yoe `div` 100 + doy) in *.
  replace (era * 146097 + doe - 719468 + 719468) with (era * 146097 + doe) by lia.
  rewrite Hera.
  replace (era * 146097 + doe - era * 146097) with doe by lia.
  rewrite Hyoe.
  replace (doe - (365 * yoe + yoe `div` 4 - yoe `div` 100)) with doy by (unfold doe; lia).
  replace (yoe + era * 400) with y' by (unfold yoe; lia).
  reflexivity.
Qed.

(** [date(y, 1, 1)] and [date(y, 12, 31)] are 1 January and 31 December
    of the year [y] of the calendar the dates of the timestamps are read
    in. *)
Lemma days_from_civil_year_ends (y : Z) :
  civil_from_days (days_from_civil y 1 1) = (y, 1, 1) ∧
  civil_from_days (days_from_civil y 12 31) = (y, 12, 31).
Proof.
  split.
  - unfold days_from_civil. cbv zeta.
    change (1 <=? 2) with true. cbv iota.
    change ((153 * ((1 + 9) `mod` 12) + 2) `div` 5 + 1 - 1) with 306.
    rewrite (civil_from_days_march (y - 1) 306) by lia.
    change ((5 * 306 + 2) `div` 153) with 10.
    change (10 <? 10) with false. cbv iota.
    change (10 - 9 <=? 2) with true. cbv iota.
    change (306 - (153 * 10 + 2) `div` 5 + 1) with 1. change (10 - 9) with 1.
    do 2 f_equal. lia.
  - unfold days_from_civil. cbv zeta.
    change (12 <=? 2) with false. cbv iota.
    change ((153 * ((12 + 9) `mod` 12) + 2) `div` 5 + 31 - 1) with 305.
    rewrite (civil_from_days_march y 305) by lia.
    change ((5 * 305 + 2) `div` 153) with 9.
    change (9 <? 10) with true. cbv iota.
    change (9 + 3 <=? 2) with false. cbv iota.
    change (305 - (153 * 9 + 2) `div` 5 + 1) with 31. change (9 + 3) with 12.
    reflexivity.
Qed.

Lemma copy_days_step remote cp_ok current_date end_date dir n :
  copy_days remote cp_ok current_date end_date dir n
  = if decide (current_date ≤ end_date)
    then copy_days remote cp_ok (current_date + 1) end_date
                   (copy_day remote cp_ok current_date dir n).1
                   (copy_day remote cp_ok current_date dir n).2
    else (dir, n).
Proof. rewrite copy_days_equation_1. by destruct (decide (current_date ≤ end_date)). Qed.

(** One turn changes the directory of its own day only. *)
Lemma copy_day_lookup remote cp_ok current_date dir n d :
  (copy_day remote cp_ok current_date dir n).1 !! d
  = if decide (d = current_date) then
      match remote !! d with
      | Some f => if cp_ok d then Some (Some f) else Some (default None (dir !! d))
      | None => dir !! d
      end
    else dir !! d.
Proof.
  unfold copy_day. destruct (decide (d = current_date)) as [->|Hne].
  - destruct (remote !! current_date) as [f|]; [|done].
    destruct (cp_ok current_date); simpl.
    + by rewrite lookup_insert_eq.
    + destruct (dir !! current_date) as [x|] eqn:Hdir; [by rewrite Hdir|].
      by rewrite lookup_insert_eq.
  - destruct (remote !! current_date) as [f|]; [|done].
    assert (match dir !! current_date with
            | Some _ => dir
            | None => <[current_date := None]> dir
            end !! d = dir !! d) as Hmk.
    { destruct (dir !! current_date); [done|]. by rewrite lookup_insert_ne. }
    destruct (cp_ok current_date); simpl; [by rewrite lookup_insert_ne|done].
Qed.

Lemma copy_day_count remote cp_ok current_date dir n :
  (copy_day remote cp_ok current_date dir n).2
  = if decide (is_Some (remote !! current_date) ∧ cp_ok current_date = true)
    then S n else n.
Proof.
  unfold copy_day.
  destruct (decide (is_Some (remote !! current_date) ∧ cp_ok current_date = true))
    as [[[f Hf] Hcp]|Hno].
  - by rewrite Hf, Hcp.
  - destruct (remote !! current_date) as [f|] eqn:Hf; [|done].
    destruct (cp_ok current_date) eqn:Hcp; [|done].
    destruct Hno. split; [by eexists|done].
Qed.

(** The loop goes on for as long as its test [current_date <= end_date]
    holds, by induction on the distance between the two. *)
Lemma copy_days_spec remote cp_ok current_date end_date dir n :
  (∀ d, (copy_days remote cp_ok current_date end_date dir n).1 !! d
        = if decide (current_date ≤ d ≤ end_date) then
            match remote !! d with
            | Some f => if cp_ok d then Some (Some f) else Some (default None (dir !! d))
            | None => dir !! d
            end
          else dir !! d) ∧
  (copy_days remote cp_ok current_date end_date dir n).2
  = (n + length (copied_days remote cp_ok current_date end_date))%nat.
Proof.
  remember (Z.to_nat (end_date - current_date + 1)) as k eqn:Hk.
  revert current_date dir n Hk.
  induction k as [|k IH]; intros current_date dir n Hk; rewrite copy_days_step.
  - rewrite decide_False by lia. simpl. split.
    + intros d. destruct (decide (current_date ≤ d ≤ end_date)); [lia|done].
    + unfold copied_days. rewrite seqZ_nil by lia. simpl. lia.
  - rewrite decide_True by lia.
    assert (copied_days remote cp_ok current_date end_date
            = if decide (is_Some (remote !! current_date) ∧ cp_ok current_date = true)
              then current_date :: copied_days remote cp_ok (current_date + 1) end_date
              else copied_days remote cp_ok (current_date + 1) end_date) as Hcopied.
    { unfold copied_days. rewrite seqZ_cons by lia. rewrite filter_cons.
      replace (Z.succ current_date) with (current_date + 1) by lia.
      replace (Z.pred (end_date - current_date + 1))
        with (end_date - (current_date + 1) + 1) by lia.
      done. }
    destruct (IH (current_date + 1) (copy_day remote cp_ok current_date dir n).1
                 (copy_day remote cp_ok current_date dir n).2) as [IHd IHn]; [lia|].
    split.
    + intros d. rewrite IHd, !copy_day_lookup.
      destruct (decide (d = current_date)) as [->|Hne].
      * rewrite decide_False by lia. by rewrite decide_True by lia.
      * destruct (decide (current_date + 1 ≤ d ≤ end_date));
          destruct (decide (current_date ≤ d ≤ end_date)); try lia; done.
    + rewrite IHn, copy_day_count, Hcopied.
      destruct (decide (is_Some (remote !! current_date) ∧ cp_ok current_date = true));
        simpl; lia.
Qed.

Lemma smart_download_spec `{Polars} (remote : gmap Z ParquetFile)
    (cp_ok : Z → bool) (today target_year : Z) (st : Store) :
  yearly (smart_download_for_symbol remote cp_ok today target_year st).1 = yearly st ∧
  (∀ d, daily (smart_download_for_symbol remote cp_ok today target_year st).1 !! d
        = if decide ((download_range target_year today st).1 ≤ d
                     ≤ (download_range target_year today st).2) then
            match remote !! d with
            | Some f => if cp_ok d then Some (Some f)
                        else Some (default None (daily st !! d))
            | None => daily st !! d
            end
          else daily st !! d) ∧
  (smart_download_for_symbol remote cp_ok today target_year st).2
  = if decide ((download_range target_year today st).2
               < (download_range target_year today st).1) then None
    else Some (length (copied_days remote cp_ok (download_range target_year today st).1
                                   (download_range target_year today st).2)).
Proof.
  unfold smart_download_for_symbol.
  destruct (download_range target_year today st) as [start_date end_date]. simpl.
  destruct (end_date <? start_date) eqn:Hcmp.
  - apply Z.ltb_lt in Hcmp. simpl. split_and!; [done | |].
    + intros d. by rewrite decide_False by lia.
    + by rewrite decide_True by lia.
  - apply Z.ltb_ge in Hcmp.
    destruct (copy_days_spec remote cp_ok start_date end_date (daily st) 0) as [Hd Hn].
    destruct (copy_days remote cp_ok start_date end_date (daily st) 0)
      as [dir files_copied]. simpl in *.
    split_and!; [done | done |]. rewrite decide_False by lia. by rewrite Hn.
Qed.

(** What a smart download leaves behind.  The yearly files are not
    touched.  In the range from the day after the last consolidated date
    (1 January of the year without one) to today or 31 December,
    whichever comes first, a day the bucket has a file for gets that file
    when the copy succeeds, replacing the local one, and keeps what it had
    when the copy fails, but for the directory [mkdir -p] made; every
    other day, in the range or not, is as it was.  The count reported is
    the number of days of the range copied, and nothing is reported when
    the range is empty.  The two bounds [date(year, 1, 1)] and
    [date(year, 12, 31)] read back as 1 January and 31 December of the
    target year. *)
Theorem smart_download_copies_the_range `{Polars} (remote : gmap Z ParquetFile)
    (cp_ok : Z → bool) (today target_year : Z) (st : Store) (start_date end_date : Z) :
  start_date = match get_last_consolidated_date (yearly st !! target_year) with
               | Some last_consolidated_date => last_consolidated_date + 1
               | None => days_from_civil target_year 1 1
               end →
  end_date = today `min` days_from_civil target_year 12 31 →
  yearly (smart_download_for_symbol remote cp_ok today target_year st).1 = yearly st ∧
  (∀ d, daily (smart_download_for_symbol remote cp_ok today target_year st).1 !! d
        = if decide (start_date ≤ d ≤ end_date) then
            match remote !! d with
            | Some f => if cp_ok d then Some (Some f)
                        else Some (default None (daily st !! d))
            | None => daily st !! d
            end
          else daily st !! d) ∧
  (smart_download_for_symbol remote cp_ok today target_year st).2
  = (if decide (end_date < start_date) then None
     else Some (length (filter (λ d, is_Some (remote !! d) ∧ cp_ok d = true)
                               (seqZ start_date (end_date - start_date + 1))))) ∧
  civil_from_days (days_from_civil target_year 1 1) = (target_year, 1, 1) ∧
  civil_from_days (days_from_civil target_year 12 31) = (target_year, 12, 31).
Proof.
  intros -> ->.
  destruct (smart_download_spec remote cp_ok today target_year st) as (Hy & Hd & Hn).
  destruct (days_from_civil_year_ends target_year) as [Hfirst Hlast].
  split_and!; [exact Hy | exact Hd | exact Hn | exact Hfirst | exact Hlast].
Qed.

Lemma smart_download_copies_the_range_witness :
  yearly (smart_download_for_symbol
            {[ Sample.d10 := Table (mkFrame canonical_columns []);
               Sample.d12 := Table (mkFrame canonical_columns
                                      [bar "BTC" (Sample.at_ Sample.d12 0) 1 2 3 4 7]);
               Sample.d13 := Corrupt; Sample.d15 := Corrupt ]}
            (λ d, bool_decide (d ≠ Sample.d12)) Sample.d14 2024 Sample.consolidated).1
  = yearly Sample.consolidated ∧
  (smart_download_for_symbol
     {[ Sample.d10 := Table (mkFrame canonical_columns []);
        Sample.d12 := Table (mkFrame canonical_columns
                               [bar "BTC" (Sample.at_ Sample.d12 0) 1 2 3 4 7]);
        Sample.d13 := Corrupt; Sample.d15 := Corrupt ]}
     (λ d, bool_decide (d ≠ Sample.d12)) Sample.d14 2024 Sample.consolidated).2
  = Some 1%nat.
Proof.
  destruct (smart_download_copies_the_range
              {[ Sample.d10 := Table (mkFrame canonical_columns []);
                 Sample.d12 := Table (mkFrame canonical_columns
                                        [bar "BTC" (Sample.at_ Sample.d12 0) 1 2 3 4 7]);
                 Sample.d13 := Corrupt; Sample.d15 := Corrupt ]}
              (λ d, bool_decide (d ≠ Sample.d12)) Sample.d14 2024 Sample.consolidated
              Sample.d11 Sample.d14) as (Hyearly & _ & Hcount & _).
  - vm_compute. reflexivity.
  - vm_compute. reflexivity.
  - split; [exact Hyearly|]. rewrite Hcount. vm_compute. reflexivity.
Defined.

(** A smart download never goes back: with a last consolidated date in
    the yearly file, the partitions of that day and of every day before
    it are as they were. *)
Theorem smart_download_starts_after_the_last_date `{Polars} (remote : gmap Z ParquetFile)
    (cp_ok : Z → bool) (today target_year : Z) (st : Store) (last d : Z) :
  get_last_consolidated_date (yearly st !! target_year) = Some last →
  d ≤ last →
  daily (smart_download_for_symbol remote cp_ok today target_year st).1 !! d
  = daily st !! d.
Proof.
  intros Hlast Hd.
  destruct (smart_download_spec remote cp_ok today target_year st)
    as (_ & Hdaily & _).
  rewrite Hdaily. unfold download_range. rewrite Hlast. simpl.
  by rewrite decide_False by lia.
Qed.

Lemma smart_download_starts_after_the_last_date_witness :
  daily (smart_download_for_symbol
           {[ Sample.d10 := Table (mkFrame canonical_columns []);
              Sample.d11 := Table (mkFrame canonical_columns
                                     [bar "BTC" (Sample.at_ Sample.d11 0) 1 2 3 4 7]) ]}
           (λ _, true) Sample.d14 2024
           (mkStore {[ Sample.d10 := Some Corrupt ]} (yearly Sample.consolidated))).1
    !! Sample.d10
  = Some (Some Corrupt).
Proof.
  refine (eq_trans
            (smart_download_starts_after_the_last_date _ (λ _, true) Sample.d14 2024 _
               Sample.d10 Sample.d10 _ _) _).
  - vm_compute. reflexivity.
  - unfold Sample.d10. lia.
  - vm_compute. reflexivity.
Defined.

(** ** The include pattern *)

(** The pattern built for a range of dates depends on the years and the
    months of its two ends only: the test for a full month chooses between
    two equal patterns.  It is the month of the start when both ends are
    in one month of one year, and the year of the start otherwise.  The
    start date always matches it; the end date matches it exactly when
    both ends are in the same year. *)
Theorem date_pattern_covers_the_start_year (start_date end_date : Z) :
  build_date_pattern start_date end_date
  = (if decide ((civil_from_days start_date).1 = (civil_from_days end_date).1)
     then MonthGlob (year_of start_date) (civil_from_days start_date).1.2
     else YearGlob (year_of start_date)) ∧
  pattern_matches (build_date_pattern start_date end_date) start_date = true ∧
  pattern_matches (build_date_pattern start_date end_date) end_date
  = bool_decide (year_of start_date = year_of end_date).
Proof.
  unfold build_date_pattern, pattern_matches, year_of.
  destruct (civil_from_days start_date) as [[sy sm] sd].
  destruct (civil_from_days end_date) as [[ey em] ed]. simpl.
  destruct (decide (sy ≠ ey)) as [Hy|Hy].
  - rewrite decide_False by congruence.
    split_and!; [done | by rewrite bool_decide_eq_true | ].
    symmetry. rewrite !bool_decide_eq_false_2; [done | congruence | congruence].
  - assert (sy = ey) as <- by (destruct (decide (sy = ey)); [done|contradiction]).
    destruct (decide (sm = em)) as [<-|Hm].
    + rewrite decide_True by done.
      assert ((if bool_decide (sd = 1) && bool_decide (28 ≤ ed)
               then MonthGlob sy sm else MonthGlob sy sm) = MonthGlob sy sm) as ->.
      { by destruct (bool_decide (sd = 1) && bool_decide (28 ≤ ed)). }
      split_and!; [done | by rewrite bool_decide_eq_true | ].
      by rewrite !bool_decide_eq_true_2.
    + rewrite decide_False by congruence.
      split_and!; [done | by rewrite bool_decide_eq_true | done].
Qed.

(** ** Download, then consolidate *)

(** The legacy mode of the historical script downloads and then
    consolidates.  A day of the target year that the download copied is
    among the daily files the consolidation that follows selects: the
    download leaves the yearly file alone, so both start from the same
    last consolidated date. *)
Theorem downloaded_day_is_selected_next `{Polars} (remote : gmap Z ParquetFile)
    (cp_ok : Z → bool) (today target_year : Z) (st : Store) (d : Z) (f : ParquetFile) :
  (download_range target_year today st).1 ≤ d ≤ (download_range target_year today st).2 →
  remote !! d = Some f →
  cp_ok d = true →
  year_of d = target_year →
  d ∈ get_daily_files_to_process target_year
        (get_last_consolidated_date
           (yearly (smart_download_for_symbol remote cp_ok today target_year st).1
              !! target_year))
        (smart_download_for_symbol remote cp_ok today target_year st).1.
Proof.
  intros Hrange Hremote Hcp Hyear.
  destruct (smart_download_spec remote cp_ok today target_year st) as (Hy & Hdaily & _).
  apply elem_of_daily_files. split_and!; [done | |].
  - rewrite Hy. intros s Hs. unfold download_range in Hrange. rewrite Hs in Hrange.
    simpl in Hrange. lia.
  - exists f. rewrite Hdaily. rewrite decide_True by done. by rewrite Hremote, Hcp.
Qed.

Lemma downloaded_day_is_selected_next_witness :
  Sample.d11
  ∈ get_daily_files_to_process 2024
      (get_last_consolidated_date
         (yearly (smart_download_for_symbol
                    {[ Sample.d11 := Table (mkFrame canonical_columns
                                              [bar "BTC" (Sample.at_ Sample.d11 0) 1 2 3 4 7]) ]}
                    (λ _, true) Sample.d14 2024 Sample.consolidated).1 !! 2024))
      (smart_download_for_symbol
         {[ Sample.d11 := Table (mkFrame canonical_columns
                                   [bar "BTC" (Sample.at_ Sample.d11 0) 1 2 3 4 7]) ]}
         (λ _, true) Sample.d14 2024 Sample.consolidated).1.
Proof.
  apply (downloaded_day_is_selected_next _ (λ _, true) Sample.d14 2024 Sample.consolidated
           Sample.d11
           (Table (mkFrame canonical_columns
                     [bar "BTC" (Sample.at_ Sample.d11 0) 1 2 3 4 7]))).
  - vm_compute. split; discriminate.
  - vm_compute. reflexivity.
  - reflexivity.
  - vm_compute. reflexivity.
Defined.
